(** * mondaySeasons: launch-date parsing, due-date arithmetic and board duplication

    A shallow embedding of the date helpers that the scripts of the
    repository repeat ([parse_launch_date], [calculate_due_date]), of the
    CSV generator of [generate_monday_boards.py], of the loop of
    [scripts/add_subitems_to_monday.py] and of the board-duplication flow
    of [duplicate_master_to_proddev.py], together with the pieces of the
    Python runtime they rest on ([str] methods, [int], [datetime],
    [timedelta], [datetime.strptime], [strftime]).

    Conventions.
    - A Python [str] is a [string]; a character is read as the code point
      of the same number (0..255).  The classification tables of the
      runtime ([isspace], [isdigit], [lower], the regex classes [\d] and
      [\s]) are those of Python restricted to that range.
    - Python integers are [Z].
    - A computation that may raise is a [result]; [try]/[except] is
      pattern matching on it.
    - Calls to the board service are recorded in an explicit state that is
      threaded through the loops. *)

From Stdlib Require Import ZArith List String Ascii Bool Lia.
Import ListNotations.
Open Scope string_scope.
Open Scope Z_scope.

(* ================================================================== *)
(** * Exceptions *)
(* ================================================================== *)

Module Py.

(** The exception classes that the modelled code can raise.  None of the
    others is a subclass of [ValueError]. *)
Inductive exn : Type :=
| ValueError
| OverflowError
| TypeError
| KeyError
| AttributeError
| NameError.

Inductive result (A : Type) : Type :=
| Ok (a : A)
| Raise (e : exn).

Arguments Ok {A} a.
Arguments Raise {A} e.

Definition bind {A B : Type} (m : result A) (k : A -> result B) : result B :=
  match m with
  | Ok a => k a
  | Raise e => Raise e
  end.

Definition exn_eqb (a b : exn) : bool :=
  match a, b with
  | ValueError, ValueError | OverflowError, OverflowError
  | TypeError, TypeError | KeyError, KeyError
  | AttributeError, AttributeError | NameError, NameError => true
  | _, _ => false
  end.

(** [try: body  except ValueError: handler] *)
Definition except_ValueError {A : Type} (body : result A) (handler : result A)
  : result A :=
  match body with
  | Raise ValueError => handler
  | r => r
  end.

Definition is_ok {A : Type} (r : result A) : bool :=
  match r with Ok _ => true | Raise _ => false end.

End Py.

Import Py.

Declare Scope py_scope.
Delimit Scope py_scope with py.
Notation "x <- m ;; k" := (Py.bind m (fun x => k))
  (at level 61, m at next level, right associativity) : py_scope.
Open Scope py_scope.

(* ================================================================== *)
(** * The proleptic Gregorian calendar of [datetime] *)
(* ================================================================== *)

Module Calendar.

Definition MINYEAR : Z := 1.
Definition MAXYEAR : Z := 9999.
Definition _MAXORDINAL : Z := 3652059.

Definition _DAYS_IN_MONTH : list Z :=
  [-1; 31; 28; 31; 30; 31; 30; 31; 31; 30; 31; 30; 31].

Definition _DAYS_BEFORE_MONTH : list Z :=
  [-1; 0; 31; 59; 90; 120; 151; 181; 212; 243; 273; 304; 334].

(** List indexing by a non-negative integer (the tables are only indexed
    by months). *)
Definition index (l : list Z) (i : Z) : Z := nth (Z.to_nat i) l 0.

Definition bool_to_Z (b : bool) : Z := if b then 1 else 0.

Definition _is_leap (year : Z) : bool :=
  (year mod 4 =? 0) && (negb (year mod 100 =? 0) || (year mod 400 =? 0)).

Definition _days_before_year (year : Z) : Z :=
  let y := year - 1 in
  y * 365 + y / 4 - y / 100 + y / 400.

Definition _days_in_month (year month : Z) : Z :=
  if (month =? 2) && _is_leap year then 29 else index _DAYS_IN_MONTH month.

Definition _days_before_month (year month : Z) : Z :=
  index _DAYS_BEFORE_MONTH month + bool_to_Z ((2 <? month) && _is_leap year).

Definition _ymd2ord (year month day : Z) : Z :=
  _days_before_year year + _days_before_month year month + day.

Definition _DI400Y : Z := 146097.
Definition _DI100Y : Z := 36524.
Definition _DI4Y : Z := 1461.

Definition _ord2ymd (n0 : Z) : Z * Z * Z :=
  let n := n0 - 1 in
  let n400 := n / _DI400Y in
  let n := n mod _DI400Y in
  let year := n400 * 400 + 1 in
  let n100 := n / _DI100Y in
  let n := n mod _DI100Y in
  let n4 := n / _DI4Y in
  let n := n mod _DI4Y in
  let n1 := n / 365 in
  let n := n mod 365 in
  let year := year + (n100 * 100 + n4 * 4 + n1) in
  if (n1 =? 4) || (n100 =? 4) then (year - 1, 12, 31)
  else
    let leapyear := (n1 =? 3) && (negb (n4 =? 24) || (n100 =? 3)) in
    let month := Z.shiftr (n + 50) 5 in
    let preceding :=
      index _DAYS_BEFORE_MONTH month + bool_to_Z ((2 <? month) && leapyear) in
    if n <? preceding then
      let month := month - 1 in
      let preceding :=
        preceding
        - (index _DAYS_IN_MONTH month + bool_to_Z ((month =? 2) && leapyear)) in
      (year, month, n - preceding + 1)
    else (year, month, n - preceding + 1).

(** [_check_date_fields]: the test that [date(year, month, day)] and
    [datetime(year, month, day, ...)] make on their arguments. *)
Definition _check_date_fields (year month day : Z) : result unit :=
  if negb ((MINYEAR <=? year) && (year <=? MAXYEAR)) then Raise ValueError
  else if negb ((1 <=? month) && (month <=? 12)) then Raise ValueError
  else if negb ((1 <=? day) && (day <=? _days_in_month year month))
       then Raise ValueError
  else Ok tt.

Definition _check_time_fields (hour minute second : Z) : result unit :=
  if negb ((0 <=? hour) && (hour <=? 23)) then Raise ValueError
  else if negb ((0 <=? minute) && (minute <=? 59)) then Raise ValueError
  else if negb ((0 <=? second) && (second <=? 59)) then Raise ValueError
  else Ok tt.

End Calendar.

(* ================================================================== *)
(** * [str]: the methods the scripts use *)
(* ================================================================== *)

Module Str.

Definition code (c : ascii) : Z := Z.of_N (N_of_ascii c).

Definition between (lo hi : Z) (c : ascii) : bool :=
  (lo <=? code c) && (code c <=? hi).

(** [str.isspace] on one character, also the class [\s] of [re]:
    TAB..CR, FS..US, space, NEL (U+0085) and NBSP (U+00A0). *)
Definition isspace_char (c : ascii) : bool :=
  between 9 13 c || between 28 32 c || (code c =? 133) || (code c =? 160).

(** The class [\d] of [re] and [str.isdecimal] on one character. *)
Definition isdecimal_char (c : ascii) : bool := between 48 57 c.

(** [str.isdigit] on one character: the decimal digits and the
    superscripts two, three and one (U+00B2, U+00B3, U+00B9). *)
Definition isdigit_char (c : ascii) : bool :=
  isdecimal_char c || (code c =? 178) || (code c =? 179) || (code c =? 185).

Fixpoint all_chars (p : ascii -> bool) (s : string) : bool :=
  match s with
  | EmptyString => true
  | String c t => p c && all_chars p t
  end.

(** [s.isdigit()]: every character is a digit and there is at least one. *)
Definition isdigit (s : string) : bool :=
  match s with
  | EmptyString => false
  | _ => all_chars isdigit_char s
  end.

Fixpoint lstrip (s : string) : string :=
  match s with
  | EmptyString => EmptyString
  | String c t => if isspace_char c then lstrip t else s
  end.

Fixpoint rstrip (s : string) : string :=
  match s with
  | EmptyString => EmptyString
  | String c t =>
      match rstrip t with
      | EmptyString => if isspace_char c then EmptyString else String c EmptyString
      | t' => String c t'
      end
  end.

(** [s.strip()] *)
Definition strip (s : string) : string := rstrip (lstrip s).

(** [str.lower] on one character: A..Z and the capital letters of
    U+00C0..U+00DE (the multiplication sign U+00D7 apart) move up by 32. *)
Definition lower_char (c : ascii) : ascii :=
  if between 65 90 c || (between 192 222 c && negb (code c =? 215))
  then ascii_of_N (N_of_ascii c + 32)
  else c.

Fixpoint lower (s : string) : string :=
  match s with
  | EmptyString => EmptyString
  | String c t => String (lower_char c) (lower t)
  end.

Fixpoint startswith (s p : string) {struct p} : bool :=
  match p, s with
  | EmptyString, _ => true
  | String a p', String b s' => Ascii.eqb a b && startswith s' p'
  | String _ _, EmptyString => false
  end.

(** [needle in hay] *)
Fixpoint contains (needle hay : string) : bool :=
  startswith hay needle ||
  match hay with
  | EmptyString => false
  | String _ t => contains needle t
  end.

(** Truthiness of a string: [bool(s)]. *)
Definition truthy (s : string) : bool :=
  match s with EmptyString => false | _ => true end.

Definition digit_value (c : ascii) : Z := code c - 48.

Fixpoint decimal_value (acc : Z) (s : string) : Z :=
  match s with
  | EmptyString => acc
  | String c t => decimal_value (acc * 10 + digit_value c) t
  end.

(** The default of [sys.int_info.default_max_str_digits]: [int] refuses a
    literal with more digits. *)
Definition max_str_digits : Z := 4300.

(** [int(s)] for the arguments it gets in the scripts: strings that passed
    [isdigit] and the groups matched by the regular expressions of
    [strptime].  Surrounding whitespace is ignored; what remains must be a
    non-empty run of decimal digits no longer than [max_str_digits].  (The
    sign and underscore syntax of integer literals cannot occur in those
    arguments and is answered with [ValueError] here.) *)
Definition int (s : string) : result Z :=
  let t := strip s in
  if negb (truthy t) then Raise ValueError
  else if negb (all_chars isdecimal_char t) then Raise ValueError
  else if max_str_digits <? Z.of_nat (String.length t) then Raise ValueError
  else Ok (decimal_value 0 t).

Definition digit_char (d : Z) : ascii := ascii_of_N (Z.to_N (48 + d)).

(** [n] written with exactly two decimal digits, [0 <= n < 100]. *)
Definition two_digits (n : Z) : string :=
  String (digit_char (n / 10)) (String (digit_char (n mod 10)) EmptyString).

(** [n] in decimal without padding, [0 <= n < 10000]. *)
Definition decimal (n : Z) : string :=
  if n <? 10 then String (digit_char n) EmptyString
  else if n <? 100 then two_digits n
  else if n <? 1000 then String (digit_char (n / 100)) (two_digits (n mod 100))
  else two_digits (n / 100) ++ two_digits (n mod 100).

(** [s.replace(old, new)] for [old] and [new] of one character each. *)
Fixpoint replace (s : string) (old new : ascii) : string :=
  match s with
  | EmptyString => EmptyString
  | String c t =>
      String (if Ascii.eqb c old then new else c) (replace t old new)
  end.

End Str.

(* ================================================================== *)
(** * [datetime] and [timedelta] *)
(* ================================================================== *)

Module Datetime.
Import Calendar.

(** A naive [datetime]; the microsecond field is 0 throughout the scripts
    and is left out. *)
Record datetime : Type := mkdt {
  year : Z; month : Z; day : Z;
  hour : Z; minute : Z; second : Z
}.

(** [datetime(year, month, day, hour, minute, second)] *)
Definition new (y m d H M S : Z) : result datetime :=
  _ <- _check_date_fields y m d ;;
  _ <- _check_time_fields H M S ;;
  Ok (mkdt y m d H M S).

Definition toordinal (dt : datetime) : Z :=
  _ymd2ord (year dt) (month dt) (day dt).

(** A [timedelta] of whole days, the only kind the scripts build, is its
    number of days; the constructor refuses more than 999999999 of them. *)
Definition timedelta (days : Z) : result Z :=
  if 999999999 <? Z.abs days then Raise OverflowError else Ok days.

(** [timedelta(weeks=w)] *)
Definition timedelta_weeks (w : Z) : result Z := timedelta (w * 7).

(** [self + other]: the sum is formed as a [timedelta] counted from
    ordinal 0 and must land in [1 .. _MAXORDINAL]. *)
Definition add (self : datetime) (other : Z) : result datetime :=
  delta <- timedelta (toordinal self + other) ;;
  if (0 <? delta) && (delta <=? _MAXORDINAL) then
    let '(y, m, d) := _ord2ymd delta in
    new y m d (hour self) (minute self) (second self)
  else Raise OverflowError.

(** [self - other] is [self + -other]. *)
Definition sub (self : datetime) (other : Z) : result datetime :=
  neg <- timedelta (- other) ;;
  add self neg.

(** [dt.strftime('%Y-%m-%d')].  Month and day are two digits.  The year is
    rendered by the C library: four digits from 1000 on; below, glibc
    prints it without padding (other C libraries pad with zeros), and the
    model follows glibc. *)
Definition strftime_Ymd (dt : datetime) : string :=
  Str.decimal (year dt) ++ "-" ++ Str.two_digits (month dt) ++ "-"
  ++ Str.two_digits (day dt).

Definition valid (dt : datetime) : Prop :=
  new (year dt) (month dt) (day dt) (hour dt) (minute dt) (second dt) = Ok dt.

End Datetime.

(* ================================================================== *)
(** * [datetime.strptime] *)
(* ================================================================== *)

Module Strptime.
Import Calendar Datetime.

(** One position of a regular expression: a literal character, a range
    [[lo-hi]] or the class [\d]. *)
Inductive cls : Type :=
| Lit (c : ascii)
| Range (lo hi : ascii)
| Dec.

Definition cls_match (k : cls) (c : ascii) : bool :=
  match k with
  | Lit a => Ascii.eqb a c
  | Range lo hi => Str.between (Str.code lo) (Str.code hi) c
  | Dec => Str.isdecimal_char c
  end.

(** The regular expression of a directive, as the list of its
    alternatives in the order of [TimeRE.__init__]:
    - [%d]: [3[0-1]|[1-2]\d|0[1-9]|[1-9]| [1-9]]
    - [%H]: [2[0-3]|[0-1]\d|\d]
    - [%m]: [1[0-2]|0[1-9]|[1-9]]
    - [%M]: [[0-5]\d|\d]
    - [%S]: [6[0-1]|[0-5]\d|\d]
    - [%Y]: [\d\d\d\d]
    The other directives do not occur in the formats of the scripts. *)
Definition directive_re (name : ascii) : option (list (list cls)) :=
  match name with
  | "d"%char =>
      Some [[Lit "3"; Range "0" "1"]; [Range "1" "2"; Dec];
            [Lit "0"; Range "1" "9"]; [Range "1" "9"];
            [Lit " "; Range "1" "9"]]
  | "H"%char => Some [[Lit "2"; Range "0" "3"]; [Range "0" "1"; Dec]; [Dec]]
  | "m"%char =>
      Some [[Lit "1"; Range "0" "2"]; [Lit "0"; Range "1" "9"]; [Range "1" "9"]]
  | "M"%char => Some [[Range "0" "5"; Dec]; [Dec]]
  | "S"%char => Some [[Lit "6"; Range "0" "1"]; [Range "0" "5"; Dec]; [Dec]]
  | "Y"%char => Some [[Dec; Dec; Dec; Dec]]
  | _ => None
  end.

(** A compiled format: named groups, literal characters and [\s+]. *)
Inductive item : Type :=
| Directive (name : ascii)
| Char (c : ascii)
| Spaces.

(** [TimeRE.pattern]: a run of whitespace in the format becomes [\s+],
    [%x] becomes the group of directive [x], and any other character
    stands for itself.  An unknown directive and a stray [%] are
    [ValueError]s of [strptime]. *)
Fixpoint pattern (format : string) : result (list item) :=
  match format with
  | EmptyString => Ok []
  | String c t =>
      if Ascii.eqb c "%" then
        match t with
        | EmptyString => Raise ValueError
        | String d t' =>
            match directive_re d with
            | None => Raise ValueError
            | Some _ => rest <- pattern t' ;; Ok (Directive d :: rest)
            end
        end
      else if Str.isspace_char c then
        rest <- pattern t ;;
        match rest with
        | Spaces :: _ => Ok rest
        | _ => Ok (Spaces :: rest)
        end
      else rest <- pattern t ;; Ok (Char c :: rest)
  end.

(** One alternative against the head of [s]: the matched text and the
    rest of the string. *)
Fixpoint match_seq (ks : list cls) (s : string) : option (string * string) :=
  match ks with
  | [] => Some (EmptyString, s)
  | k :: ks' =>
      match s with
      | EmptyString => None
      | String c t =>
          if cls_match k c then
            match match_seq ks' t with
            | Some (txt, rest) => Some (String c txt, rest)
            | None => None
            end
          else None
      end
  end.

(** The ways a group can match at the head of [s], in the order in which
    the backtracking matcher tries them. *)
Fixpoint alternatives (alts : list (list cls)) (s : string)
  : list (string * string) :=
  match alts with
  | [] => []
  | a :: alts' =>
      match match_seq a s with
      | Some r => r :: alternatives alts' s
      | None => alternatives alts' s
      end
  end.

(** The rests of [s] after [\s+], the longest run first (the quantifier
    is greedy). *)
Fixpoint spaces_rests (s : string) : list string :=
  match s with
  | EmptyString => []
  | String c t => if Str.isspace_char c then spaces_rests t ++ [t] else []
  end.

Definition groupdict : Type := list (ascii * string).

(** All the matches of the compiled format at the start of [s], each with
    its groups and the unmatched rest, in the matcher's order of
    preference: [re.match] returns the first. *)
Fixpoint match_items (fmt : list item) (s : string)
  : list (groupdict * string) :=
  match fmt with
  | [] => [([], s)]
  | Directive name :: fmt' =>
      match directive_re name with
      | None => []
      | Some alts =>
          flat_map
            (fun tr : string * string =>
               map (fun gr : groupdict * string =>
                      ((name, fst tr) :: fst gr, snd gr))
                   (match_items fmt' (snd tr)))
            (alternatives alts s)
      end
  | Char c :: fmt' =>
      match s with
      | EmptyString => []
      | String c' t => if Ascii.eqb c c' then match_items fmt' t else []
      end
  | Spaces :: fmt' => flat_map (match_items fmt') (spaces_rests s)
  end.

Fixpoint group (name : ascii) (g : groupdict) : option string :=
  match g with
  | [] => None
  | (k, v) :: g' => if Ascii.eqb k name then Some v else group name g'
  end.

(** The value of a numeric group, or the default of [_strptime] when the
    format has no such directive. *)
Definition field (name : ascii) (default : Z) (g : groupdict) : result Z :=
  match group name g with
  | Some txt => Str.int txt
  | None => Ok default
  end.

(** [datetime.strptime(data_string, format)] for formats made of
    [%Y %m %d %H %M %S], literals and whitespace.  No match and unconverted
    trailing data are [ValueError]s; so are a date that does not exist
    ([datetime_date(year, month, day)]) and a time field out of range
    (the constructor call that ends [_strptime_datetime]).  A format
    without [%Y] means the year 1900. *)
Definition strptime (data_string format : string) : result datetime :=
  fmt <- pattern format ;;
  match match_items fmt data_string with
  | [] => Raise ValueError
  | (found, rest) :: _ =>
      if Str.truthy rest then Raise ValueError
      else
        y <- field "Y" 1900 found ;;
        m <- field "m" 1 found ;;
        d <- field "d" 1 found ;;
        H <- field "H" 0 found ;;
        M <- field "M" 0 found ;;
        S <- field "S" 0 found ;;
        _ <- _check_date_fields y m d ;;
        new y m d H M S
  end.

End Strptime.

(** The loop
[[
    for fmt in date_formats:
        try:
            return datetime.strptime(s, fmt)
        except ValueError:
            continue
]]
    followed by the [return None] that ends every copy of
    [parse_launch_date]. *)
Fixpoint try_formats (s : string) (date_formats : list string)
  : result (option Datetime.datetime) :=
  match date_formats with
  | [] => Ok None
  | fmt :: rest =>
      match Strptime.strptime s fmt with
      | Ok dt => Ok (Some dt)
      | Raise ValueError => try_formats s rest
      | Raise e => Raise e
      end
  end.

(* ================================================================== *)
(** * Dictionaries and the board service *)
(* ================================================================== *)

Module Board.

(** A Python [dict] with string keys and values, in insertion order. *)
Definition dict : Type := list (string * string).

(** [d.get(key, default)] *)
Fixpoint get (d : dict) (key default : string) : string :=
  match d with
  | [] => default
  | (k, v) :: d' => if String.eqb k key then v else get d' key default
  end.

Fixpoint has_key (d : dict) (key : string) : bool :=
  match d with
  | [] => false
  | (k, _) :: d' => String.eqb k key || has_key d' key
  end.

(** [d[key] = value]: an existing key keeps its place. *)
Fixpoint set (d : dict) (key value : string) : dict :=
  match d with
  | [] => [(key, value)]
  | (k, v) :: d' =>
      if String.eqb k key then (k, value) :: d' else (k, v) :: set d' key value
  end.

(** [{k: v for k, v in d.items() if v}] *)
Definition drop_empty (d : dict) : dict :=
  filter (fun kv : string * string => Str.truthy (snd kv)) d.

(** What the service is asked to create. *)
Record item_request : Type := mk_item_request {
  ir_board : string;
  ir_group : option Z;
  ir_name : string;
  ir_values : dict
}.

Record subitem_request : Type := mk_subitem_request {
  sr_parent : Z;
  sr_name : string;
  sr_values : dict
}.

(** The board service seen from the scripts: the groups of the
    destination board, the requests received so far, each with the id the
    service answered, and the next free id.  The service answers every
    request; transport and GraphQL failures are outside the model. *)
Record service : Type := mk_service {
  next_id : Z;
  groups : list (string * Z);
  created_items : list (Z * item_request);
  created_subitems : list (Z * subitem_request)
}.

Definition create_item (rq : item_request) (s : service) : Z * service :=
  (next_id s,
   mk_service (next_id s + 1) (groups s)
              (created_items s ++ [(next_id s, rq)]) (created_subitems s)).

Definition create_subitem (rq : subitem_request) (s : service) : Z * service :=
  (next_id s,
   mk_service (next_id s + 1) (groups s)
              (created_items s) (created_subitems s ++ [(next_id s, rq)])).

Fixpoint find_group (gs : list (string * Z)) (title : string) : option Z :=
  match gs with
  | [] => None
  | (t, id) :: gs' => if String.eqb t title then Some id else find_group gs' title
  end.

(** [get_or_create_group]: the id of the group of that title, created
    when the board has none. *)
Definition get_or_create_group (title : string) (s : service) : Z * service :=
  match find_group (groups s) title with
  | Some id => (id, s)
  | None =>
      (next_id s,
       mk_service (next_id s + 1) (groups s ++ [(title, next_id s)])
                  (created_items s) (created_subitems s))
  end.

End Board.

(* ================================================================== *)
(** * [csv.DictWriter] *)
(* ================================================================== *)

Module Csv.
Import Board.

(** A file being written: its records, each the list of its fields.
    Quoting and line ends are below the level of the model. *)
Definition file : Type := list (list string).

(** [d.keys()] *)
Definition keys (d : dict) : list string := map fst d.

(** [DictWriter._dict_to_list] with the defaults [extrasaction='raise']
    and [restval='']: a key of the row that is not a field name is a
    [ValueError]; a field name that the row lacks is written empty. *)
Definition _dict_to_list (fieldnames : list string) (rowdict : dict)
  : result (list string) :=
  if forallb (fun k => existsb (String.eqb k) fieldnames) (keys rowdict)
  then Ok (map (fun key => get rowdict key "") fieldnames)
  else Raise ValueError.

(** [writer.writeheader()] *)
Definition writeheader (fieldnames : list string) (f : file) : file :=
  (f ++ [fieldnames])%list.

(** [writer.writerows(rowdicts)]: the rows are converted and written one
    after the other, so the rows before one that is refused are in the
    file. *)
Fixpoint writerows (fieldnames : list string) (rowdicts : list dict) (f : file)
  : result unit * file :=
  match rowdicts with
  | [] => (Ok tt, f)
  | rowdict :: rowdicts' =>
      match _dict_to_list fieldnames rowdict with
      | Ok record => writerows fieldnames rowdicts' (f ++ [record])%list
      | Raise e => (Raise e, f)
      end
  end.

End Csv.

(* ================================================================== *)
(** * generate_monday_boards.py *)
(* ================================================================== *)

Module GenerateMondayBoards.
Import Datetime Board.

(** [parse_launch_date].  The warning printed before the final
    [return None] is not modelled. *)
Definition parse_launch_date (launch_date_str : string)
  : result (option datetime) :=
  if negb (Str.truthy launch_date_str)
     || String.eqb (Str.strip launch_date_str) ""
  then Ok None
  else
    match
      except_ValueError
        (if Str.isdigit launch_date_str then
           excel_date <- Str.int launch_date_str ;;
           base_date <- new 1899 12 30 0 0 0 ;;
           days <- timedelta excel_date ;;
           r <- add base_date days ;;
           Ok (Some r)
         else Ok None)
        (Ok None)
    with
    | Ok (Some r) => Ok (Some r)
    | Ok None =>
        try_formats (Str.strip launch_date_str)
          ["%Y-%m-%d"; "%m/%d/%Y"; "%d/%m/%Y"; "%Y-%m-%d %H:%M:%S"]
    | Raise e => Raise e
    end.

Definition calculate_due_date (launch_date : option datetime)
  (lead_time_weeks : Z) : result (option string) :=
  match launch_date with
  | None => Ok None
  | Some d =>
      weeks <- timedelta_weeks lead_time_weeks ;;
      due_date <- sub d weeks ;;
      Ok (Some (strftime_Ymd due_date))
  end.

(** One entry of [sub_items] in the configuration. *)
Record sub_item : Type := mk_sub_item {
  task_name : string;
  lead_time_weeks : Z;
  description : option string
}.

(** [config['settings']]: the names of the columns of the master CSV. *)
Record settings : Type := mk_settings {
  item_name_column : string;
  launch_date_column : string;
  style_name_column : string;
  color_name_column : string;
  priority_column : string;
  status_column : string;
  platform_column : string
}.

(** [config]: the departments with their sub-items, and the settings. *)
Record config : Type := mk_config {
  departments : list (string * list sub_item);
  config_settings : settings
}.

Fixpoint find_department (ds : list (string * list sub_item)) (name : string)
  : option (list sub_item) :=
  match ds with
  | [] => None
  | (n, subs) :: ds' =>
      if String.eqb n name then Some subs else find_department ds' name
  end.

Definition main_item_row (st : settings) (row : dict) (launch_date : datetime)
  : dict :=
  [("Item", get row (item_name_column st) "");
   ("Style Name", get row (style_name_column st) "");
   ("Color Name", get row (color_name_column st) "");
   ("Priority", get row (priority_column st) "");
   ("Status", get row (status_column st) "");
   ("Platform", get row (platform_column st) "");
   ("Launch Date", strftime_Ymd launch_date);
   ("Type", "Main Item")].

Definition sub_item_row (si : sub_item) (due_date : option string) : dict :=
  [("Item", "  " ++ task_name si);
   ("Style Name", ""); ("Color Name", ""); ("Priority", "");
   ("Status", "Not Started"); ("Platform", ""); ("Launch Date", "");
   ("Due Date", match due_date with
                | Some d => if Str.truthy d then d else ""
                | None => ""
                end);
   ("Type", "Sub Item");
   ("Description", match description si with Some d => d | None => "" end)].

(** The inner loop over [dept_config['sub_items']]. *)
Fixpoint sub_item_rows (launch_date : datetime) (subs : list sub_item)
  : result (list dict) :=
  match subs with
  | [] => Ok []
  | si :: subs' =>
      due_date <- calculate_due_date (Some launch_date) (lead_time_weeks si) ;;
      rest <- sub_item_rows launch_date subs' ;;
      Ok (sub_item_row si due_date :: rest)
  end.

(** The loop over [master_data]: the rows appended to [csv_data]. *)
Fixpoint department_rows (st : settings) (subs : list sub_item)
  (master_data : list dict) : result (list dict) :=
  match master_data with
  | [] => Ok []
  | row :: master_data' =>
      if match row with [] => true | _ => false end
         || negb (Str.truthy (get row (item_name_column st) ""))
      then department_rows st subs master_data'
      else
        launch_date <- parse_launch_date (get row (launch_date_column st) "") ;;
        match launch_date with
        | None => department_rows st subs master_data'
        | Some d =>
            sub_rows <- sub_item_rows d subs ;;
            rest <- department_rows st subs master_data' ;;
            Ok (main_item_row st row d :: sub_rows ++ rest)
        end
  end.

(** [generate_department_csv]; [None] for an unknown department.  A
    field that the CSV reader left unset reads as the empty string. *)
Definition generate_department_csv (master_data : list dict) (cfg : config)
  (department_name : string) : result (option (list dict)) :=
  match find_department (departments cfg) department_name with
  | None => Ok None
  | Some subs =>
      csv_data <- department_rows (config_settings cfg) subs master_data ;;
      Ok (Some csv_data)
  end.

(** [write_csv]: nothing is written for no data; otherwise the field
    names are the keys of the first row.  The answer is the outcome and
    the file, if one was opened. *)
Definition write_csv (data : list dict) : result unit * option Csv.file :=
  match data with
  | [] => (Ok tt, None)
  | first :: _ =>
      let fieldnames := Csv.keys first in
      let (r, f) := Csv.writerows fieldnames data
                      (Csv.writeheader fieldnames []) in
      (r, Some f)
  end.

(** [main]: the name of the file of a department in the output
    directory. *)
Definition output_file (dept_name : string) : string :=
  Str.lower (Str.replace dept_name " " "_") ++ "_board.csv".

(** [main]: the body of the loop over the departments. *)
Definition generate_board (master_data : list dict) (cfg : config)
  (dept_name : string) : result unit * option Csv.file :=
  match generate_department_csv master_data cfg dept_name with
  | Ok (Some csv_data) => write_csv csv_data
  | Ok None => (Ok tt, None)
  | Raise e => (Raise e, None)
  end.

End GenerateMondayBoards.

(* ================================================================== *)
(** * generate_product_dev.py *)
(* ================================================================== *)

Module GenerateProductDev.
Import Datetime.

Definition parse_launch_date (launch_date_str : string)
  : result (option datetime) :=
  if negb (Str.truthy launch_date_str)
     || String.eqb (Str.strip launch_date_str) ""
  then Ok None
  else
    match
      except_ValueError
        (if Str.isdigit launch_date_str then
           excel_date <- Str.int launch_date_str ;;
           base_date <- new 1899 12 30 0 0 0 ;;
           days <- timedelta excel_date ;;
           r <- add base_date days ;;
           Ok (Some r)
         else Ok None)
        (Ok None)
    with
    | Ok (Some r) => Ok (Some r)
    | Ok None =>
        try_formats (Str.strip launch_date_str)
          ["%Y-%m-%d"; "%m/%d/%Y"; "%d/%m/%Y"]
    | Raise e => Raise e
    end.

Definition calculate_due_date (launch_date : option datetime)
  (lead_time_weeks : Z) : result (option string) :=
  match launch_date with
  | None => Ok None
  | Some d =>
      weeks <- timedelta_weeks lead_time_weeks ;;
      due_date <- sub d weeks ;;
      Ok (Some (strftime_Ymd due_date))
  end.

(** The rest of the script works on the rows of the master sheet. *)

Definition sub_items : list (string * Z) :=
  [("Fabric Approved", 40); ("Design Approved", 26); ("Fit Approved", 18);
   ("Color Approved", 16); ("Production Approved", 12)].

Definition main_item_row (row : Board.dict) (launch_date : datetime)
  : Board.dict :=
  [("Item", Board.get row "Item" "");
   ("Style Name", Board.get row "Style Name" "");
   ("Color Name", Board.get row "Color Name" "");
   ("Priority", Board.get row "Priority" "");
   ("Status", Board.get row "Exec Status" "");
   ("Platform", Board.get row "Platform" "");
   ("Launch Date", strftime_Ymd launch_date);
   ("Type", "Main Item")].

Definition sub_item_row (task_name : string) (due_date : option string)
  : Board.dict :=
  [("Item", "  " ++ task_name);
   ("Style Name", ""); ("Color Name", ""); ("Priority", "");
   ("Status", "Not Started"); ("Platform", ""); ("Launch Date", "");
   ("Due Date", match due_date with
                | Some d => if Str.truthy d then d else ""
                | None => ""
                end);
   ("Type", "Sub Item")].

(** The loop over [sub_items]. *)
Fixpoint sub_item_rows (launch_date : datetime) (subs : list (string * Z))
  : result (list Board.dict) :=
  match subs with
  | [] => Ok []
  | (task_name, lead_time_weeks) :: subs' =>
      due_date <- calculate_due_date (Some launch_date) lead_time_weeks ;;
      rest <- sub_item_rows launch_date subs' ;;
      Ok (sub_item_row task_name due_date :: rest)
  end.

(** The loop over [master_data]: the rows appended to [csv_data]. *)
Fixpoint csv_data (master_data : list Board.dict) : result (list Board.dict) :=
  match master_data with
  | [] => Ok []
  | row :: master_data' =>
      if negb (Str.truthy (Board.get row "Item" ""))
      then csv_data master_data'
      else
        launch_date <- parse_launch_date (Board.get row "Launch Date" "") ;;
        match launch_date with
        | None => csv_data master_data'
        | Some d =>
            sub_rows <- sub_item_rows d sub_items ;;
            rest <- csv_data master_data' ;;
            Ok (main_item_row row d :: sub_rows ++ rest)
        end
  end.

(** The end of the script: [if csv_data:] the file is written with the
    keys of the first row as field names. *)
Definition write (rows : list Board.dict) : result unit * option Csv.file :=
  match rows with
  | [] => (Ok tt, None)
  | first :: _ =>
      let fieldnames := Csv.keys first in
      let (r, f) := Csv.writerows fieldnames rows
                      (Csv.writeheader fieldnames []) in
      (r, Some f)
  end.

(** The script from the rows of the master sheet on. *)
Definition script (master_data : list Board.dict)
  : result unit * option Csv.file :=
  match csv_data master_data with
  | Ok rows => write rows
  | Raise e => (Raise e, None)
  end.

End GenerateProductDev.

(* ================================================================== *)
(** * scripts/create_product_dev_csv.py *)
(* ================================================================== *)

Module CreateProductDevCsv.
Import Datetime Board.

Definition excel_to_date (excel_date : Z) : result datetime :=
  base_date <- new 1899 12 30 0 0 0 ;;
  days <- timedelta excel_date ;;
  add base_date days.

Definition calculate_due_date (launch_date : datetime) (weeks_before : Z)
  : result datetime :=
  weeks <- timedelta_weeks weeks_before ;;
  sub launch_date weeks.

Definition sub_items : list (string * Z) :=
  [("Fabric Approved", 40); ("Design Approved", 26); ("Fit Approved", 18);
   ("Color Approved", 16); ("Production Approved", 12)].

(** [row[key]] *)
Definition getitem (row : dict) (key : string) : result string :=
  if has_key row key then Ok (get row key "") else Raise KeyError.

(** The loop that reads the master sheet: the rows with an item and a
    launch date made of digits. *)
Fixpoint rows (reader : list dict) : result (list dict) :=
  match reader with
  | [] => Ok []
  | row :: reader' =>
      item <- getitem row "Item" ;;
      keep <- (if Str.truthy item then
                 launch_date <- getitem row "Launch Date" ;;
                 Ok (Str.truthy launch_date && Str.isdigit launch_date)
               else Ok false) ;;
      rest <- rows reader' ;;
      Ok (if keep then row :: rest else rest)
  end.

Definition sub_item_row (task_name : string) (due_date : datetime) : dict :=
  [("Item", "  " ++ task_name);
   ("Style Name", ""); ("Color Name", ""); ("Priority", "");
   ("Status", "Not Started"); ("Platform", ""); ("Launch Date", "");
   ("Due Date", strftime_Ymd due_date);
   ("Type", "Sub Item")].

(** The loop over [sub_items]. *)
Fixpoint sub_item_rows (launch_date : datetime) (subs : list (string * Z))
  : result (list dict) :=
  match subs with
  | [] => Ok []
  | (task_name, weeks_before) :: subs' =>
      due_date <- calculate_due_date launch_date weeks_before ;;
      rest <- sub_item_rows launch_date subs' ;;
      Ok (sub_item_row task_name due_date :: rest)
  end.

(** The loop over [rows]: the rows appended to [output_rows]. *)
Fixpoint output_rows (rs : list dict) : result (list dict) :=
  match rs with
  | [] => Ok []
  | row :: rs' =>
      text <- getitem row "Launch Date" ;;
      excel_date <- Str.int text ;;
      launch_date <- excel_to_date excel_date ;;
      item <- getitem row "Item" ;;
      style_name <- getitem row "Style Name" ;;
      color_name <- getitem row "Color Name" ;;
      priority <- getitem row "Priority" ;;
      status <- getitem row "Exec Status" ;;
      platform <- getitem row "Platform" ;;
      sub_rows <- sub_item_rows launch_date sub_items ;;
      rest <- output_rows rs' ;;
      Ok ([("Item", item); ("Style Name", style_name);
           ("Color Name", color_name); ("Priority", priority);
           ("Status", status); ("Platform", platform);
           ("Launch Date", strftime_Ymd launch_date);
           ("Type", "Main Item")] :: sub_rows ++ rest)
  end.

(** The end of the script: the file is opened in any case, and written
    when there are rows. *)
Definition write (rs : list dict) : result unit * Csv.file :=
  match rs with
  | [] => (Ok tt, [])
  | first :: _ =>
      let fieldnames := Csv.keys first in
      Csv.writerows fieldnames rs (Csv.writeheader fieldnames [])
  end.

(** The script from the rows of the master sheet on; no file is touched
    before the rows are built. *)
Definition script (reader : list dict) : result unit * option Csv.file :=
  match (kept <- rows reader ;; output_rows kept) with
  | Ok rs => let (r, f) := write rs in (r, Some f)
  | Raise e => (Raise e, None)
  end.

End CreateProductDevCsv.

(* ================================================================== *)
(** * scripts/monday_subitem_manager.py *)
(* ================================================================== *)

Module MondaySubitemManager.
Import Datetime.

Definition parse_launch_date (launch_date_str : string)
  : result (option datetime) :=
  if negb (Str.truthy launch_date_str)
     || String.eqb (Str.strip launch_date_str) ""
  then Ok None
  else
    match
      except_ValueError
        (if Str.isdigit launch_date_str then
           excel_date <- Str.int launch_date_str ;;
           base_date <- new 1899 12 30 0 0 0 ;;
           days <- timedelta excel_date ;;
           r <- add base_date days ;;
           Ok (Some r)
         else Ok None)
        (Ok None)
    with
    | Ok (Some r) => Ok (Some r)
    | Ok None =>
        try_formats (Str.strip launch_date_str)
          ["%Y-%m-%d"; "%m/%d/%Y"; "%d/%m/%Y"; "%Y-%m-%d %H:%M:%S"]
    | Raise e => Raise e
    end.

Definition calculate_due_date (launch_date : option datetime)
  (lead_time_weeks : Z) : result (option string) :=
  match launch_date with
  | None => Ok None
  | Some d =>
      weeks <- timedelta_weeks lead_time_weeks ;;
      due_date <- sub d weeks ;;
      Ok (Some (strftime_Ymd due_date))
  end.

End MondaySubitemManager.

(* ================================================================== *)
(** * Loops that talk to the board service *)
(* ================================================================== *)

Module Run.
Import Board.

(** The state of a run: the service and the two counters that the
    scripts print at the end. *)
Record run : Type := mk_run {
  svc : service;
  items_created : Z;
  subitems_created : Z
}.

(** A step of a run may raise, and what it did before raising stays
    done. *)
Definition M (A : Type) : Type := run -> result A * run.

Definition ret {A : Type} (a : A) : M A := fun r => (Ok a, r).

Definition bindM {A B : Type} (m : M A) (k : A -> M B) : M B :=
  fun r =>
    match m r with
    | (Ok a, r') => k a r'
    | (Raise e, r') => (Raise e, r')
    end.

Definition lift {A : Type} (x : result A) : M A := fun r => (x, r).

Definition api {A : Type} (call : service -> A * service) : M A :=
  fun r =>
    let (a, s') := call (svc r) in
    (Ok a, mk_run s' (items_created r) (subitems_created r)).

Definition count_item : M unit :=
  fun r => (Ok tt, mk_run (svc r) (items_created r + 1) (subitems_created r)).

Definition count_subitem : M unit :=
  fun r => (Ok tt, mk_run (svc r) (items_created r) (subitems_created r + 1)).

(** [try: body  except Exception as e: print(...); continue] *)
Definition try_continue (body : M unit) : M unit :=
  fun r => (Ok tt, snd (body r)).

End Run.

Declare Scope run_scope.
Delimit Scope run_scope with run.
Notation "x <~ m ;; k" := (Run.bindM m (fun x => k))
  (at level 61, m at next level, right associativity) : run_scope.
Open Scope run_scope.

(* ================================================================== *)
(** * scripts/monday_subitem_manager.py: the work on the board *)
(* ================================================================== *)

(** The methods of [MondaySubitemManager] that talk to the board
    service.  [due_date_column_id] is the attribute of that name: [None]
    until [setup_board_for_subitems] has stored the id of the column. *)
Module SubitemManager.
Import Datetime Board Run.

(** A row as [csv.DictReader] gives it: the cell of a column for which
    the line had no field is [None]. *)
Definition csv_row : Type := list (string * option string).

(** [row.get(key, default)] *)
Fixpoint get_cell (row : csv_row) (key : string) (default : option string)
  : option string :=
  match row with
  | [] => default
  | (k, v) :: row' =>
      if String.eqb k key then v else get_cell row' key default
  end.

(** Truth of a cell: [None] and the empty string are false. *)
Definition cell_truthy (c : option string) : bool :=
  match c with
  | Some s => Str.truthy s
  | None => false
  end.

(** A cell where the code only tests it for truth, or hands it to
    [parse_launch_date], whose first test is [not launch_date_str]:
    [None] fares like the empty string there. *)
Definition cell_text (c : option string) : string :=
  match c with
  | Some s => s
  | None => ""
  end.

(** [row.get(key, '')] read that way. *)
Definition text (row : csv_row) (key : string) : string :=
  cell_text (get_cell row key (Some "")).

(** The values of a sub-item: the status, the due date when there is a
    column for it, the description when the configuration has one; empty
    values are removed. *)
Definition subitem_column_values (due_date_column_id : option string)
  (due_date : option string) (subitem_config : GenerateMondayBoards.sub_item)
  : dict :=
  let values := [("status", "Not Started")] in
  let values :=
    match due_date_column_id, due_date with
    | Some col, Some d =>
        if Str.truthy col && Str.truthy d then set values col d else values
    | _, _ => values
    end in
  let values :=
    match GenerateMondayBoards.description subitem_config with
    | Some text => set values "text" text
    | None => values
    end in
  drop_empty values.

(** The loop over [subitems_config]. *)
Fixpoint create_subitems (due_date_column_id : option string) (parent : Z)
  (launch_date : datetime) (subitems_config : list GenerateMondayBoards.sub_item)
  : M unit :=
  match subitems_config with
  | [] => ret tt
  | subitem_config :: subitems_config' =>
      due_date <~ lift (MondaySubitemManager.calculate_due_date
                          (Some launch_date)
                          (GenerateMondayBoards.lead_time_weeks subitem_config)) ;;
      _ <~ api (create_subitem
                  (mk_subitem_request parent
                     (GenerateMondayBoards.task_name subitem_config)
                     (subitem_column_values due_date_column_id due_date
                        subitem_config))) ;;
      create_subitems due_date_column_id parent launch_date subitems_config'
  end.

(** [create_main_item_with_subitems]; its [except] clause prints and
    raises again.  The answer is the id of the main item.  The name of
    the item is a string whenever the loop of [process_csv_data] calls
    the function, which is how the function is used. *)
Definition create_main_item_with_subitems (due_date_column_id : option string)
  (board_id : string) (item_data : csv_row)
  (subitems_config : list GenerateMondayBoards.sub_item) : M Z :=
  let main_item_name := text item_data "Item" in
  let main_column_values :=
    drop_empty
      [("text", text item_data "Style Name");
       ("text1", text item_data "Color Name");
       ("text2", text item_data "Priority");
       ("text3", text item_data "Status");
       ("text4", text item_data "Platform");
       ("date", text item_data "Launch Date")] in
  main_item <~ api (create_item
                      (mk_item_request board_id None main_item_name
                         main_column_values)) ;;
  launch_date <~ lift (MondaySubitemManager.parse_launch_date
                         (text item_data "Launch Date")) ;;
  match launch_date with
  | Some d =>
      _ <~ create_subitems due_date_column_id main_item d subitems_config ;;
      ret main_item
  | None => ret main_item
  end.

(** [time.sleep(0.5)]: the module [time] is not imported in this file,
    so the call is a [NameError]. *)
Definition sleep : M unit := lift (Raise NameError).

(** The loop of [process_csv_data] over the rows of the CSV file;
    [items_created] of the run is [main_items_created].  The first test
    calls [startswith] on the cell of the item, outside the [try]: on a
    cell that is [None] that is an [AttributeError], which ends the loop.
    The [NameError] of [sleep] comes after the counting and is answered,
    like any exception of the [try], by going on with the next row. *)
Fixpoint process_rows (due_date_column_id : option string) (board_id : string)
  (subitems_config : list GenerateMondayBoards.sub_item)
  (csv_data : list csv_row) : M unit :=
  match csv_data with
  | [] => ret tt
  | row :: csv_data' =>
      match get_cell row "Item" (Some "") with
      | None => lift (Raise AttributeError)
      | Some item =>
          if Str.startswith item "  "
          then process_rows due_date_column_id board_id subitems_config
                 csv_data'
          else if negb (cell_truthy (get_cell row "Item" None))
          then process_rows due_date_column_id board_id subitems_config
                 csv_data'
          else if match get_cell row "Type" None with
                  | Some type => String.eqb type "Main Item"
                  | None => false
                  end
          then
            _ <~ try_continue
                   (_ <~ create_main_item_with_subitems due_date_column_id
                           board_id row subitems_config ;;
                    _ <~ count_item ;;
                    sleep) ;;
            process_rows due_date_column_id board_id subitems_config csv_data'
          else process_rows due_date_column_id board_id subitems_config
                 csv_data'
      end
  end.

(** [main]: the file that is read for a department. *)
Definition csv_file (dept_name : string) : string :=
  Str.replace (Str.lower dept_name) " " "_" ++ "_board.csv".

End SubitemManager.

(* ================================================================== *)
(** * scripts/add_subitems_to_monday.py *)
(* ================================================================== *)

Module AddSubitems.
Import Datetime Board Run.

Definition parse_launch_date (launch_date_str : string)
  : result (option datetime) :=
  if negb (Str.truthy launch_date_str)
     || String.eqb (Str.strip launch_date_str) ""
  then Ok None
  else
    match
      except_ValueError
        (if Str.isdigit launch_date_str then
           excel_date <- Str.int launch_date_str ;;
           base_date <- new 1899 12 30 0 0 0 ;;
           days <- timedelta excel_date ;;
           r <- add base_date days ;;
           Ok (Some r)
         else Ok None)
        (Ok None)
    with
    | Ok (Some r) => Ok (Some r)
    | Ok None =>
        try_formats (Str.strip launch_date_str)
          ["%Y-%m-%d"; "%m/%d/%Y"; "%d/%m/%Y"]
    | Raise e => Raise e
    end.

Definition calculate_due_date (launch_date : option datetime)
  (lead_time_weeks : Z) : result (option string) :=
  match launch_date with
  | None => Ok None
  | Some d =>
      weeks <- timedelta_weeks lead_time_weeks ;;
      due_date <- sub d weeks ;;
      Ok (Some (strftime_Ymd due_date))
  end.

(** The sub-items of [main], name and lead time in weeks. *)
Definition subitems_config : list (string * Z) :=
  [("Fabric Approved", 40); ("Design Approved", 26); ("Fit Approved", 18);
   ("Color Approved", 16); ("Production Approved", 12)].

(** The values of a sub-item: the status, and the due date when the
    board has a due-date column. *)
Definition subitem_values (due_date_column_id : option string)
  (due_date : option string) : dict :=
  let values := [("status", "Not Started")] in
  drop_empty
    match due_date_column_id, due_date with
    | Some col, Some d =>
        if Str.truthy col && Str.truthy d then set values col d else values
    | _, _ => values
    end.

Fixpoint create_subitems (due_date_column_id : option string) (parent : Z)
  (launch_date : datetime) (cfgs : list (string * Z)) : M unit :=
  match cfgs with
  | [] => ret tt
  | (subitem_name, lead_time_weeks) :: cfgs' =>
      due_date <~ lift (calculate_due_date (Some launch_date) lead_time_weeks) ;;
      _ <~ api (create_subitem
                  (mk_subitem_request parent subitem_name
                     (subitem_values due_date_column_id due_date))) ;;
      _ <~ count_subitem ;;
      create_subitems due_date_column_id parent launch_date cfgs'
  end.

(** The body of the [try] of one row: the main item, then its
    sub-items. *)
Definition create_row (board_id : string) (due_date_column_id : option string)
  (row : dict) (item_name : string) (launch_date : datetime) : M unit :=
  let column_values :=
    drop_empty
      [("text", get row "Style-Color" "");
       ("text1", get row "Color Name" "");
       ("text2", get row "Person" "");
       ("text3", get row "Status" "");
       ("date", strftime_Ymd launch_date)] in
  main_item <~ api (create_item
                      (mk_item_request board_id None item_name column_values)) ;;
  _ <~ count_item ;;
  create_subitems due_date_column_id main_item launch_date subitems_config.

(** The loop of [main] over the rows of the CSV.  The launch date is
    parsed outside the [try], so an exception of [parse_launch_date]
    ends the loop. *)
Fixpoint process_rows (board_id : string) (due_date_column_id : option string)
  (csv_data : list dict) : M unit :=
  match csv_data with
  | [] => ret tt
  | row :: csv_data' =>
      if negb (Str.truthy (get row "Name" ""))
         || Str.startswith (get row "Name" "") "Subitems"
      then process_rows board_id due_date_column_id csv_data'
      else
        let item_name := Str.strip (get row "Name" "") in
        if negb (Str.truthy item_name)
        then process_rows board_id due_date_column_id csv_data'
        else
          launch_date <~ lift (parse_launch_date (get row "Launch Date" "")) ;;
          match launch_date with
          | None => process_rows board_id due_date_column_id csv_data'
          | Some d =>
              _ <~ try_continue
                     (create_row board_id due_date_column_id row item_name d) ;;
              process_rows board_id due_date_column_id csv_data'
          end
  end.

End AddSubitems.

(* ================================================================== *)
(** * duplicate_master_to_proddev.py *)
(* ================================================================== *)

Module Duplicator.
Import Datetime Board Run.

Definition parse_launch_date (launch_date_str : string)
  : result (option datetime) :=
  if negb (Str.truthy launch_date_str)
     || String.eqb (Str.strip launch_date_str) ""
  then Ok None
  else
    match
      except_ValueError
        (if Str.isdigit launch_date_str then
           excel_date <- Str.int launch_date_str ;;
           base_date <- new 1899 12 30 0 0 0 ;;
           days <- timedelta excel_date ;;
           r <- add base_date days ;;
           Ok (Some r)
         else Ok None)
        (Ok None)
    with
    | Ok (Some r) => Ok (Some r)
    | Ok None =>
        try_formats (Str.strip launch_date_str)
          ["%Y-%m-%d"; "%m/%d/%Y"; "%d/%m/%Y"]
    | Raise e => Raise e
    end.

Definition calculate_due_date (launch_date : option datetime)
  (lead_time_weeks : Z) : result (option string) :=
  match launch_date with
  | None => Ok None
  | Some d =>
      weeks <- timedelta_weeks lead_time_weeks ;;
      due_date <- sub d weeks ;;
      Ok (Some (strftime_Ymd due_date))
  end.

(** A column of a board, as [get_board_columns] returns it. *)
Record column : Type := mk_column {
  col_id : string;
  col_title : string
}.

(** A cell of an item; a [text] that the service left null reads as the
    empty string (the code only tests it for truth and parses it, and
    both treat the two alike). *)
Record column_value : Type := mk_column_value {
  cv_id : string;
  cv_text : string
}.

(** An item of the master board. *)
Record item : Type := mk_item {
  item_name : string;
  item_group_title : string;
  item_column_values : list column_value
}.

(** An entry of
    [config['departments']['Product Development']['sub_items']]. *)
Record subitem_config : Type := mk_subitem_config {
  task_name : string;
  lead_time_weeks : Z
}.

(** The first column whose title contains "platform", whatever the
    case. *)
Fixpoint find_platform_col (columns : list column) : option column :=
  match columns with
  | [] => None
  | col :: columns' =>
      if Str.contains "platform" (Str.lower (col_title col)) then Some col
      else find_platform_col columns'
  end.

Definition target_groups : list string :=
  ["SS26 New Colors"; "SS26 New Styles"; "End of Life Products"].

(** The group of the destination board for an item of the given group
    of the master board. *)
Definition target_group_name (current_group : string) : string :=
  if Str.contains "new colors" (Str.lower current_group) then "SS26 New Colors"
  else if Str.contains "new styles" (Str.lower current_group)
       then "SS26 New Styles"
  else if Str.contains "end of life" (Str.lower current_group)
       then "End of Life Products"
  else "SS26 New Colors".

(** [group_mapping[name]] *)
Definition group_id (group_mapping : list (string * Z)) (name : string)
  : result Z :=
  match find_group group_mapping name with
  | Some id => Ok id
  | None => Raise KeyError
  end.

(** The loop that fills [column_values] and [platform_value] from the
    cells of the item.  The second test subscripts [master_platform_col]
    without looking whether there is one: with no platform column on the
    master board that is a [TypeError] as soon as a cell has an id and a
    text. *)
Fixpoint extract_column_values (master_platform_col : option column)
  (cells : list column_value) (column_values : dict)
  (platform_value : option string) : result (dict * option string) :=
  match cells with
  | [] => Ok (column_values, platform_value)
  | col :: cells' =>
      let col_text := cv_text col in
      let col_id := cv_id col in
      let platform_value :=
        match master_platform_col with
        | Some mc =>
            if String.eqb col_id (Duplicator.col_id mc) then Some col_text
            else platform_value
        | None => platform_value
        end in
      if Str.truthy col_text && Str.truthy col_id then
        match master_platform_col with
        | None => Raise TypeError
        | Some mc =>
            if negb (String.eqb col_id (Duplicator.col_id mc))
            then extract_column_values master_platform_col cells'
                   (set column_values col_id col_text) platform_value
            else extract_column_values master_platform_col cells'
                   column_values platform_value
        end
      else extract_column_values master_platform_col cells'
             column_values platform_value
  end.

(** [if platform_value and proddev_platform_col: ...] *)
Definition add_platform (proddev_platform_col : option column)
  (column_values : dict) (platform_value : option string) : dict :=
  match platform_value, proddev_platform_col with
  | Some v, Some pc =>
      if Str.truthy v then set column_values (col_id pc) v else column_values
  | _, _ => column_values
  end.

(** The search for the launch date among the cells of the item;
    [launch_date] is the variable of that name, [None] before the
    loop. *)
Fixpoint find_launch_date (launch_date : option datetime)
  (cells : list column_value) : result (option datetime) :=
  match cells with
  | [] => Ok launch_date
  | col :: cells' =>
      if Str.contains "launch" (Str.lower (cv_id col))
         || Str.contains "date" (Str.lower (cv_id col))
      then
        launch_date <- parse_launch_date (cv_text col) ;;
        match launch_date with
        | Some _ => Ok launch_date
        | None => find_launch_date launch_date cells'
        end
      else find_launch_date launch_date cells'
  end.

(** The values of a sub-item of an item with a launch date. *)
Definition dated_values (due_date : option string) : dict :=
  let values := [("status", "Working on it")] in
  match due_date with
  | Some d => if Str.truthy d then set values "date" d else values
  | None => values
  end.

(** The loop over [subitems_config] of an item with a launch date. *)
Fixpoint create_dated_subitems (parent : Z) (launch_date : datetime)
  (cfgs : list subitem_config) : M unit :=
  match cfgs with
  | [] => ret tt
  | cfg :: cfgs' =>
      due_date <~ lift (calculate_due_date (Some launch_date)
                          (lead_time_weeks cfg)) ;;
      _ <~ api (create_subitem
                  (mk_subitem_request parent (task_name cfg)
                     (dated_values due_date))) ;;
      _ <~ count_subitem ;;
      create_dated_subitems parent launch_date cfgs'
  end.

(** The loop over [subitems_config] of an item without one. *)
Fixpoint create_undated_subitems (parent : Z) (cfgs : list subitem_config)
  : M unit :=
  match cfgs with
  | [] => ret tt
  | cfg :: cfgs' =>
      _ <~ api (create_subitem
                  (mk_subitem_request parent (task_name cfg)
                     [("status", "Working on it")])) ;;
      _ <~ count_subitem ;;
      create_undated_subitems parent cfgs'
  end.

(** [if launch_date: ... else: ...]: the sub-items of the item just
    created, with due dates when there is a launch date. *)
Definition create_subitems (parent : Z) (launch_date : option datetime)
  (cfgs : list subitem_config) : M unit :=
  match launch_date with
  | Some d => create_dated_subitems parent d cfgs
  | None => create_undated_subitems parent cfgs
  end.

(** The part of the loop body under the comment [# Add subitems]. *)
Definition add_subitems (parent : Z) (cells : list column_value)
  (cfgs : list subitem_config) : M unit :=
  launch_date <~ lift (find_launch_date None cells) ;;
  create_subitems parent launch_date cfgs.

(** The body of the [try] for one item of the master board. *)
Definition process_item (proddev_board_id : string)
  (master_platform_col proddev_platform_col : option column)
  (group_mapping : list (string * Z)) (cfgs : list subitem_config)
  (it : item) : M unit :=
  target_group_id <~ lift (group_id group_mapping
                             (target_group_name (item_group_title it))) ;;
  extracted <~ lift (extract_column_values master_platform_col
                       (item_column_values it) [] None) ;;
  let column_values :=
    add_platform proddev_platform_col (fst extracted) (snd extracted) in
  new_item <~ api (create_item
                     (mk_item_request proddev_board_id (Some target_group_id)
                        (item_name it) column_values)) ;;
  _ <~ count_item ;;
  add_subitems new_item (item_column_values it) cfgs.

(** The loop over the items of the master board: an exception ends the
    work on the item at hand, not the run. *)
Fixpoint process_items (proddev_board_id : string)
  (master_platform_col proddev_platform_col : option column)
  (group_mapping : list (string * Z)) (cfgs : list subitem_config)
  (master_items : list item) : M unit :=
  match master_items with
  | [] => ret tt
  | it :: master_items' =>
      _ <~ try_continue
             (process_item proddev_board_id master_platform_col
                proddev_platform_col group_mapping cfgs it) ;;
      process_items proddev_board_id master_platform_col proddev_platform_col
        group_mapping cfgs master_items'
  end.

(** The loop that makes the three target groups ready and fills
    [group_mapping]. *)
Fixpoint setup_groups (names : list string) : M (list (string * Z)) :=
  match names with
  | [] => ret []
  | group_name :: names' =>
      id <~ api (get_or_create_group group_name) ;;
      rest <~ setup_groups names' ;;
      ret ((group_name, id) :: rest)
  end.

(** [duplicate_master_to_proddev] once the configuration is loaded and
    both boards are found: the columns of the two boards, the sub-items of
    the configuration and the items of the master board are what the
    service and the configuration file returned. *)
Definition duplicate_master_to_proddev (proddev_board_id : string)
  (master_columns proddev_columns : list column)
  (cfgs : list subitem_config) (master_items : list item) : M unit :=
  let master_platform_col := find_platform_col master_columns in
  let proddev_platform_col := find_platform_col proddev_columns in
  group_mapping <~ setup_groups target_groups ;;
  process_items proddev_board_id master_platform_col proddev_platform_col
    group_mapping cfgs master_items.

(** [monday_config.json] as far as this script reads it: each level is
    a JSON object that may lack the key that is looked up. *)
Record department : Type := mk_department {
  sub_items : option (list subitem_config)
}.

Record config : Type := mk_config {
  departments : option (list (string * department))
}.

Fixpoint find_department (ds : list (string * department)) (name : string)
  : option department :=
  match ds with
  | [] => None
  | (n, d) :: ds' => if String.eqb n name then Some d else find_department ds' name
  end.

(** [config['departments']['Product Development']['sub_items']] *)
Definition subitems_config (cfg : config) : result (list subitem_config) :=
  match departments cfg with
  | None => Raise KeyError
  | Some ds =>
      match find_department ds "Product Development" with
      | None => Raise KeyError
      | Some d =>
          match sub_items d with
          | None => Raise KeyError
          | Some cfgs => Ok cfgs
          end
      end
  end.

(** [duplicate_master_to_proddev] from the configuration as it was
    loaded: the sub-items are looked up after the groups are made ready
    and before the loop over the items, outside any [try]. *)
Definition duplicate_from_config (proddev_board_id : string)
  (master_columns proddev_columns : list column) (cfg : config)
  (master_items : list item) : M unit :=
  let master_platform_col := find_platform_col master_columns in
  let proddev_platform_col := find_platform_col proddev_columns in
  group_mapping <~ setup_groups target_groups ;;
  cfgs <~ lift (subitems_config cfg) ;;
  process_items proddev_board_id master_platform_col proddev_platform_col
    group_mapping cfgs master_items.

End Duplicator.

(* ================================================================== *)
(** * Definitions used to state the properties *)
(* ================================================================== *)

Module Spec.
Import Calendar Datetime Strptime.

(** ** Checks by enumeration *)

(** [p] on [r], [r + 1], ... ([fuel] of them). *)
Fixpoint check_from (fuel : nat) (r : Z) (p : Z -> bool) : bool :=
  match fuel with
  | O => true
  | S k => if p r then check_from k (r + 1) p else false
  end.

(** ** The calendar *)

(** The end of [_ord2ymd]: month and day of day [n] (from 0) of a year. *)
Definition month_day (leapyear : bool) (n : Z) : Z * Z :=
  let month := Z.shiftr (n + 50) 5 in
  let preceding :=
    index _DAYS_BEFORE_MONTH month + bool_to_Z ((2 <? month) && leapyear) in
  if n <? preceding then
    let month := month - 1 in
    let preceding :=
      preceding
      - (index _DAYS_IN_MONTH month + bool_to_Z ((month =? 2) && leapyear)) in
    (month, n - preceding + 1)
  else (month, n - preceding + 1).

(** [month_day] gives a month, a day of that month, and the two add up
    to day [n] of the year. *)
Definition month_day_ok (leapyear : bool) (n : Z) : bool :=
  let '(m, d) := month_day leapyear n in
  (1 <=? m) && (m <=? 12) && (1 <=? d)
  && (d <=? (if (m =? 2) && leapyear then 29 else index _DAYS_IN_MONTH m))
  && (index _DAYS_BEFORE_MONTH m + bool_to_Z ((2 <? m) && leapyear) + d
      =? n + 1).

(** ** Strings *)

(** A non-empty string of decimal digits. *)
Definition decimal_string (s : string) : bool :=
  Str.truthy s && Str.all_chars Str.isdecimal_char s.

(** [needle] occurs in [s] when case is ignored: a part of [s] is
    [needle] once lowered. *)
Definition ci_contains (needle s : string) : Prop :=
  exists pre mid post, s = pre ++ mid ++ post /\ Str.lower mid = needle.

(** [two_digits n] is two characters that denote [n]. *)
Definition two_digits_ok (n : Z) : bool :=
  match Str.int (Str.two_digits n) with
  | Ok v =>
      (v =? n) && Nat.eqb (String.length (Str.two_digits n)) 2
      && Str.all_chars Str.isdecimal_char (Str.two_digits n)
  | Raise _ => false
  end.

(** [decimal n] is four characters that denote [n]. *)
Definition four_digits_ok (n : Z) : bool :=
  match Str.int (Str.decimal n) with
  | Ok v =>
      (v =? n) && Nat.eqb (String.length (Str.decimal n)) 4
      && Str.all_chars Str.isdecimal_char (Str.decimal n)
  | Raise _ => false
  end.

(** ** The matcher of [strptime] *)

(** The widths of the alternatives of a directive. *)
Definition alt_widths (name : ascii) : list nat :=
  match directive_re name with
  | Some alts => map (@List.length cls) alts
  | None => []
  end.

Definition max_alt_width (name : ascii) : nat :=
  fold_right Nat.max 0%nat (alt_widths name).

Definition min_alt_width (name : ascii) : nat :=
  match alt_widths name with
  | [] => 0%nat
  | w :: ws => fold_right Nat.min w ws
  end.

(** The least and, for a format without whitespace, the greatest number
    of characters that a match consumes. *)
Fixpoint min_width (fmt : list item) : nat :=
  match fmt with
  | [] => 0
  | Directive n :: f => min_alt_width n + min_width f
  | _ :: f => 1 + min_width f
  end.

Fixpoint max_width (fmt : list item) : nat :=
  match fmt with
  | [] => 0
  | Directive n :: f => max_alt_width n + max_width f
  | _ :: f => 1 + max_width f
  end.

Fixpoint no_spaces (fmt : list item) : bool :=
  match fmt with
  | [] => true
  | Spaces :: _ => false
  | _ :: f => no_spaces f
  end.

(** ** [parse_launch_date] *)

(** The body that the five copies of [parse_launch_date] share; they
    differ in the list of formats only. *)
Definition parse_launch_date_with (date_formats : list string)
  (launch_date_str : string) : result (option datetime) :=
  if negb (Str.truthy launch_date_str)
     || String.eqb (Str.strip launch_date_str) ""
  then Ok None
  else
    match
      except_ValueError
        (if Str.isdigit launch_date_str then
           excel_date <- Str.int launch_date_str ;;
           base_date <- new 1899 12 30 0 0 0 ;;
           days <- timedelta excel_date ;;
           r <- add base_date days ;;
           Ok (Some r)
         else Ok None)
        (Ok None)
    with
    | Ok (Some r) => Ok (Some r)
    | Ok None => try_formats (Str.strip launch_date_str) date_formats
    | Raise e => Raise e
    end.

Definition formats3 : list string := ["%Y-%m-%d"; "%m/%d/%Y"; "%d/%m/%Y"].

Definition formats4 : list string :=
  ["%Y-%m-%d"; "%m/%d/%Y"; "%d/%m/%Y"; "%Y-%m-%d %H:%M:%S"].

(** Every copy of [parse_launch_date] answers [r] for [s]. *)
Definition every_copy (s : string) (r : result (option datetime)) : Prop :=
  GenerateMondayBoards.parse_launch_date s = r
  /\ MondaySubitemManager.parse_launch_date s = r
  /\ Duplicator.parse_launch_date s = r
  /\ GenerateProductDev.parse_launch_date s = r
  /\ AddSubitems.parse_launch_date s = r.

(** The three copies without the format with a time. *)
Definition date_only_copies (s : string) (r : result (option datetime))
  : Prop :=
  Duplicator.parse_launch_date s = r
  /\ GenerateProductDev.parse_launch_date s = r
  /\ AddSubitems.parse_launch_date s = r.

(** The two copies that also try [%Y-%m-%d %H:%M:%S]. *)
Definition date_time_copies (s : string) (r : result (option datetime))
  : Prop :=
  GenerateMondayBoards.parse_launch_date s = r
  /\ MondaySubitemManager.parse_launch_date s = r.

(** The day that the serial number 0 stands for. *)
Definition excel_epoch : datetime := mkdt 1899 12 30 0 0 0.

(** The last serial number that [datetime] can hold: 9999-12-31. *)
Definition max_serial : Z := 2958465.

(** [r] is what trying the formats in their order answers for [s]: the
    date of the first format that parses [s], or nothing when none
    does. *)
Definition first_parse (date_formats : list string) (s : string)
  (r : option datetime) : Prop :=
  match r with
  | Some dt =>
      exists k fmt,
        nth_error date_formats k = Some fmt
        /\ strptime s fmt = Ok dt
        /\ forall j fj, (j < k)%nat -> nth_error date_formats j = Some fj ->
                        strptime s fj = Raise ValueError
  | None =>
      forall fmt, In fmt date_formats -> strptime s fmt = Raise ValueError
  end.

(** The ways to write a month or a day from 1 to 12 in a slash date. *)
Definition small_fields : list (string * Z) :=
  [("1", 1); ("2", 2); ("3", 3); ("4", 4); ("5", 5); ("6", 6); ("7", 7);
   ("8", 8); ("9", 9); ("01", 1); ("02", 2); ("03", 3); ("04", 4); ("05", 5);
   ("06", 6); ("07", 7); ("08", 8); ("09", 9); ("10", 10); ("11", 11);
   ("12", 12)].

(** A year written with four decimal digits. *)
Definition year_text (t : string) : Prop :=
  String.length t = 4%nat /\ Str.all_chars Str.isdecimal_char t = true.

(** ** [calculate_due_date] *)

(** Every copy of [calculate_due_date] answers [r]. *)
Definition every_due_date (launch_date : option datetime) (w : Z)
  (r : result (option string)) : Prop :=
  GenerateMondayBoards.calculate_due_date launch_date w = r
  /\ MondaySubitemManager.calculate_due_date launch_date w = r
  /\ Duplicator.calculate_due_date launch_date w = r
  /\ GenerateProductDev.calculate_due_date launch_date w = r
  /\ AddSubitems.calculate_due_date launch_date w = r.

(** [txt] is the date of [dt] written [YYYY-MM-DD]: four, two and two
    characters that denote its year, month and day, with dashes
    between. *)
Definition is_YYYY_MM_DD (dt : datetime) (txt : string) : Prop :=
  exists Y M D,
    txt = Y ++ "-" ++ M ++ "-" ++ D
    /\ String.length Y = 4%nat /\ String.length M = 2%nat
    /\ String.length D = 2%nat
    /\ Str.int Y = Ok (year dt) /\ Str.int M = Ok (month dt)
    /\ Str.int D = Ok (day dt).

(** The [datetime] on day [n] of the calendar at the time of day of
    [d]. *)
Definition on_day (n : Z) (d : datetime) : datetime :=
  let '(y, m, dd) := _ord2ymd n in
  mkdt y m dd (hour d) (minute d) (second d).

(** The due date of a task: [w] weeks before the launch date, as
    [strftime('%Y-%m-%d')] writes it. *)
Definition due_date_text (d : datetime) (w : Z) : string :=
  strftime_Ymd (on_day (toordinal d - 7 * w) d).

(** ** The schedule of an item *)

(** The sub-item that the schedule of an item has for one entry of the
    configuration: its name and status, and its due date when the item
    has a launch date. *)
Definition scheduled_task (parent : Z) (launch_date : option datetime)
  (cfg : Duplicator.subitem_config) : Board.subitem_request :=
  Board.mk_subitem_request parent (Duplicator.task_name cfg)
    match launch_date with
    | Some d =>
        [("status", "Working on it");
         ("date", due_date_text d (Duplicator.lead_time_weeks cfg))]
    | None => [("status", "Working on it")]
    end.

(** Every due date of the schedule is a day that [datetime] has. *)
Definition due_dates_in_range (launch_date : option datetime)
  (cfgs : list Duplicator.subitem_config) : Prop :=
  match launch_date with
  | None => True
  | Some d =>
      valid d
      /\ Forall (fun cfg =>
                   0 <= Duplicator.lead_time_weeks cfg
                   /\ 1 <= toordinal d - 7 * Duplicator.lead_time_weeks cfg)
                cfgs
  end.

(** The ids that the service gives to requests made one after the
    other, the first of them [n]. *)
Fixpoint numbered {A : Type} (n : Z) (l : list A) : list (Z * A) :=
  match l with
  | [] => []
  | x :: l' => (n, x) :: numbered (n + 1) l'
  end.

(** The run after the service has created the sub-items [reqs] and the
    script has counted them. *)
Definition after_subitems (r : Run.run) (reqs : list Board.subitem_request)
  : Run.run :=
  let s := Run.svc r in
  Run.mk_run
    (Board.mk_service
       (Board.next_id s + Z.of_nat (List.length reqs))
       (Board.groups s) (Board.created_items s)
       (Board.created_subitems s ++ numbered (Board.next_id s) reqs)%list)
    (Run.items_created r)
    (Run.subitems_created r + Z.of_nat (List.length reqs)).

(** The sub-items asked of the service between the runs [r0] and
    [r1], in the order of the requests. *)
Definition requested_since (r0 r1 : Run.run) : list Board.subitem_request :=
  map snd
    (skipn (List.length (Board.created_subitems (Run.svc r0)))
           (Board.created_subitems (Run.svc r1))).

(** The run after the service has created the item [req] and the script
    has counted it. *)
Definition after_item (r : Run.run) (req : Board.item_request) : Run.run :=
  let s := Run.svc r in
  Run.mk_run
    (Board.mk_service
       (Board.next_id s + 1) (Board.groups s)
       (Board.created_items s ++ [(Board.next_id s, req)])%list
       (Board.created_subitems s))
    (Run.items_created r + 1)
    (Run.subitems_created r).

(** ** The launch date of an item *)

(** The id of a cell says "launch" or "date", case ignored. *)
Definition date_cell (c : Duplicator.column_value) : bool :=
  Str.contains "launch" (Str.lower (Duplicator.cv_id c))
  || Str.contains "date" (Str.lower (Duplicator.cv_id c)).

(** [r] is the launch date of the cells: the date of the first cell, in
    their order, whose id says "launch" or "date" and whose text is a
    date; nothing when there is no such cell. *)
Definition first_launch_date (cells : list Duplicator.column_value)
  (r : option datetime) : Prop :=
  match r with
  | Some d =>
      exists pre c post,
        cells = (pre ++ c :: post)%list
        /\ date_cell c = true
        /\ Duplicator.parse_launch_date (Duplicator.cv_text c) = Ok (Some d)
        /\ Forall (fun c' =>
                     date_cell c' = true ->
                     Duplicator.parse_launch_date (Duplicator.cv_text c')
                     = Ok None) pre
  | None =>
      Forall (fun c =>
                date_cell c = true ->
                Duplicator.parse_launch_date (Duplicator.cv_text c) = Ok None)
             cells
  end.

(** ** Sample data *)

(** The settings and a configuration with one department. *)
Definition sample_settings : GenerateMondayBoards.settings :=
  GenerateMondayBoards.mk_settings
    "Item" "Launch Date" "Style Name" "Color Name" "Priority" "Status"
    "Platform".

Definition sample_config : GenerateMondayBoards.config :=
  GenerateMondayBoards.mk_config
    [("Product Development",
      [GenerateMondayBoards.mk_sub_item "Fabric Approved" 40 None;
       GenerateMondayBoards.mk_sub_item "Production Approved" 12 None])]
    sample_settings.

(** Rows of a master sheet: one whose launch date is a serial number
    beyond the year 9999, one whose launch date is no date. *)
Definition row_with_huge_serial : Board.dict :=
  [("Item", "Jacket"); ("Launch Date", "9999999")].

Definition row_without_date : Board.dict :=
  [("Item", "Jacket"); ("Launch Date", "tbd")].

(** A run that has done nothing yet, two sub-items, the columns of a
    board with and without a platform column, and items of the master
    board. *)
Definition fresh_run : Run.run :=
  Run.mk_run (Board.mk_service 1 [] [] []) 0 0.

Definition two_subitems : list Duplicator.subitem_config :=
  [Duplicator.mk_subitem_config "Fabric Approved" 40;
   Duplicator.mk_subitem_config "Production Approved" 12].

Definition columns_with_platform : list Duplicator.column :=
  [Duplicator.mk_column "name" "Name";
   Duplicator.mk_column "text7" "Target Platform"].

Definition columns_without_platform : list Duplicator.column :=
  [Duplicator.mk_column "name" "Name"; Duplicator.mk_column "text1" "Color"].

Definition jacket : Duplicator.item :=
  Duplicator.mk_item "Jacket" "SS26 New Styles"
    [Duplicator.mk_column_value "text1" "Blue";
     Duplicator.mk_column_value "text7" "Web"].

Definition jacket_undated : Duplicator.item :=
  Duplicator.mk_item "Jacket" "SS26 New Styles"
    [Duplicator.mk_column_value "text1" "Blue";
     Duplicator.mk_column_value "launch_date" "tbd"].

Definition jacket_with_huge_serial : Duplicator.item :=
  Duplicator.mk_item "Jacket" "SS26 New Styles"
    [Duplicator.mk_column_value "date4" "9999999"].

(** ** The copies of [parse_launch_date] taken one by one *)

(** One of the copies of [parse_launch_date] answers [r] for [s]. *)
Definition some_copy (s : string) (r : result (option datetime)) : Prop :=
  GenerateMondayBoards.parse_launch_date s = r
  \/ MondaySubitemManager.parse_launch_date s = r
  \/ Duplicator.parse_launch_date s = r
  \/ GenerateProductDev.parse_launch_date s = r
  \/ AddSubitems.parse_launch_date s = r.

(** Each copy answers for [s] what it answers for [t]. *)
Definition copies_agree (s t : string) : Prop :=
  GenerateMondayBoards.parse_launch_date s
    = GenerateMondayBoards.parse_launch_date t
  /\ MondaySubitemManager.parse_launch_date s
    = MondaySubitemManager.parse_launch_date t
  /\ Duplicator.parse_launch_date s = Duplicator.parse_launch_date t
  /\ GenerateProductDev.parse_launch_date s
    = GenerateProductDev.parse_launch_date t
  /\ AddSubitems.parse_launch_date s = AddSubitems.parse_launch_date t.

(** ** Writing the rows *)

(** Every key of the row is one of the field names. *)
Definition fits (fieldnames : list string) (row : Board.dict) : bool :=
  forallb (fun k => existsb (String.eqb k) fieldnames) (Csv.keys row).

(** The record of a row: its value for each field name, empty where the
    row has none. *)
Definition record (fieldnames : list string) (row : Board.dict)
  : list string :=
  map (fun key => Board.get row key "") fieldnames.

(** The keys of the row of a main item, in their order. *)
Definition main_item_keys : list string :=
  ["Item"; "Style Name"; "Color Name"; "Priority"; "Status"; "Platform";
   "Launch Date"; "Type"].

(** A row of the master sheet has the columns that
    [create_product_dev_csv.py] subscripts. *)
Definition has_master_columns (row : Board.dict) : bool :=
  forallb (Board.has_key row)
    ["Item"; "Launch Date"; "Style Name"; "Color Name"; "Priority";
     "Exec Status"; "Platform"].

(** The text of a launch date is blank, or a serial number that [int]
    reads. *)
Definition blank_or_serial (text : string) : bool :=
  String.eqb (Str.strip text) ""
  || Str.isdigit text
     && match Str.int text with Ok _ => true | Raise _ => false end.

(** The text of a launch date is blank, or a serial number up to
    9999-12-31. *)
Definition blank_or_date_serial (text : string) : bool :=
  String.eqb (Str.strip text) ""
  || Str.isdigit text
     && match Str.int text with
        | Ok n => n <=? max_serial
        | Raise _ => false
        end.

(** ** The rows of a department *)

Definition is_main_row (row : Board.dict) : bool :=
  String.eqb (Board.get row "Type" "") "Main Item".

Definition is_sub_row (row : Board.dict) : bool :=
  String.eqb (Board.get row "Type" "") "Sub Item".

(** The rows of the master sheet with a name and a serial number for
    launch date. *)
Definition dated_rows (st : GenerateMondayBoards.settings)
  (master_data : list Board.dict) : list Board.dict :=
  filter
    (fun row =>
       Str.truthy (Board.get row (GenerateMondayBoards.item_name_column st) "")
       && Str.isdigit
            (Board.get row (GenerateMondayBoards.launch_date_column st) ""))
    master_data.

(** The longest lead time, in weeks, that keeps the due date of every
    serial number within the calendar: 1899-12-30 is day 693594. *)
Definition max_lead_time_weeks : Z := 99084.

(** The day of [d] at midnight. *)
Definition midnight (d : datetime) : datetime :=
  mkdt (year d) (month d) (day d) 0 0 0.

(** ** What the board was asked for *)

(** The items and the sub-items that the service has created, in the
    order of the requests, each with its name and its values. *)
Definition item_log (s : Board.service) : list (string * Board.dict) :=
  map (fun x => (Board.ir_name (snd x), Board.ir_values (snd x)))
      (Board.created_items s).

Definition subitem_log (s : Board.service) : list (string * Board.dict) :=
  map (fun x => (Board.sr_name (snd x), Board.sr_values (snd x)))
      (Board.created_subitems s).

(** The item that [process_csv_data] makes of a row. *)
Definition item_of_row (row : SubitemManager.csv_row) : string * Board.dict :=
  (SubitemManager.text row "Item",
   Board.drop_empty
     [("text", SubitemManager.text row "Style Name");
      ("text1", SubitemManager.text row "Color Name");
      ("text2", SubitemManager.text row "Priority");
      ("text3", SubitemManager.text row "Status");
      ("text4", SubitemManager.text row "Platform");
      ("date", SubitemManager.text row "Launch Date")]).

(** Between the runs [r] and [r'] the service created the items [its]
    and the sub-items [subs], in that order, and the script counted [ci]
    items and [cs] sub-items. *)
Definition progress (r r' : Run.run) (its subs : list (string * Board.dict))
  (ci cs : Z) : Prop :=
  item_log (Run.svc r') = (item_log (Run.svc r) ++ its)%list
  /\ subitem_log (Run.svc r') = (subitem_log (Run.svc r) ++ subs)%list
  /\ Run.items_created r' = Run.items_created r + ci
  /\ Run.subitems_created r' = Run.subitems_created r + cs.

(** No value of the request is empty. *)
Definition nonempty_values (x : string * Board.dict) : Prop :=
  Forall (fun kv : string * string => Str.truthy (snd kv) = true) (snd x).

(** The cell of the item of the row is a string. *)
Definition item_is_text (row : SubitemManager.csv_row) : bool :=
  match SubitemManager.get_cell row "Item" (Some "") with
  | Some _ => true
  | None => false
  end.


(** The rows of a CSV file for which [process_csv_data] creates an
    item: the type is [Main Item], and the name is a string that is not
    empty and does not start with two spaces. *)
Definition manager_row (row : SubitemManager.csv_row) : bool :=
  match SubitemManager.get_cell row "Item" (Some "") with
  | Some item => negb (Str.startswith item "  ") && Str.truthy item
  | None => false
  end
  && match SubitemManager.get_cell row "Type" None with
     | Some type => String.eqb type "Main Item"
     | None => false
     end.



(** ** [add_subitems_to_monday.py] *)





(** ** The duplication of the master board *)


(** The ids of the groups of the given titles. *)
Definition group_ids (gs : list (string * Z)) (names : list string)
  : list (string * Z) :=
  map (fun n => (n, match Board.find_group gs n with
                    | Some id => id
                    | None => 0
                    end)) names.



End Spec.

(* ================================================================== *)
(** * The calendar: ordinals and dates correspond *)
(* ================================================================== *)

Section CalendarFacts.
Import Calendar.

Lemma check_from_spec fuel p : forall r0,
  Spec.check_from fuel r0 p = true ->
  forall r, r0 <= r < r0 + Z.of_nat fuel -> p r = true.
Proof.
  induction fuel as [|k IH]; intros r0 H r Hr; [lia|].
  cbn [Spec.check_from] in H.
  destruct (p r0) eqn:E; [|discriminate].
  destruct (Z.eq_dec r r0) as [->|]; [assumption|].
  apply (IH (r0 + 1)); [assumption|lia].
Qed.

Ltac divmod := Z.div_mod_to_equations; lia.

(** Month and day are right on each day of a year of 365 days, and on
    the first 365 days of a leap year; checked by running [month_day] on
    each of them. *)
Lemma month_day_checked :
  Spec.check_from 365 0 (Spec.month_day_ok false) = true
  /\ Spec.check_from 365 0 (Spec.month_day_ok true) = true.
Proof. split; vm_cast_no_check (eq_refl true). Qed.

Lemma month_day_correct leapyear n :
  0 <= n < 365 ->
  let '(m, d) := Spec.month_day leapyear n in
  1 <= m <= 12
  /\ 1 <= d <= (if (m =? 2) && leapyear then 29 else index _DAYS_IN_MONTH m)
  /\ index _DAYS_BEFORE_MONTH m + bool_to_Z ((2 <? m) && leapyear) + d = n + 1.
Proof.
  intros H.
  assert (Spec.month_day_ok leapyear n = true) as C.
  { destruct month_day_checked as [F T].
    destruct leapyear; [apply (check_from_spec _ _ _ T)|apply (check_from_spec _ _ _ F)];
      cbn; lia. }
  unfold Spec.month_day_ok in C. destruct (Spec.month_day leapyear n) as [m d].
  repeat (apply andb_prop in C; destruct C as [C ?]). lia.
Qed.

(** The year reached after [q] cycles of 400 years, [a] centuries, [b]
    cycles of 4 years and [c] years: the days before it, and whether it
    is a leap year. *)
Lemma year_of_cycles q a b c :
  0 <= a <= 3 -> 0 <= b <= 24 -> 0 <= c <= 3 ->
  let y := q * 400 + 1 + (a * 100 + b * 4 + c) in
  _days_before_year y = 146097 * q + 36524 * a + 1461 * b + 365 * c
  /\ _is_leap y = (c =? 3) && (negb (b =? 24) || (a =? 3)).
Proof.
  intros Ha Hb Hc y. split.
  - unfold _days_before_year, y. cbv zeta. divmod.
  - unfold _is_leap, y.
    destruct (Z.eqb_spec c 3), (Z.eqb_spec b 24), (Z.eqb_spec a 3);
      cbn [negb andb orb];
      repeat match goal with
      | |- context [?x =? 0] => destruct (Z.eqb_spec x 0)
      end; cbn [negb andb orb]; try reflexivity; exfalso; divmod.
Qed.

(** [_ord2ymd] with its steps named. *)
Lemma ord2ymd_unfold n :
  _ord2ymd n =
  let q := (n - 1) / 146097 in
  let r := (n - 1) mod 146097 in
  let a := r / 36524 in
  let r1 := r mod 36524 in
  let b := r1 / 1461 in
  let r2 := r1 mod 1461 in
  let c := r2 / 365 in
  let k := r2 mod 365 in
  let year := q * 400 + 1 + (a * 100 + b * 4 + c) in
  if (c =? 4) || (a =? 4) then (year - 1, 12, 31)
  else
    let '(m, d) := Spec.month_day ((c =? 3) && (negb (b =? 24) || (a =? 3))) k in
    (year, m, d).
Proof.
  unfold _ord2ymd, Spec.month_day. cbv zeta. unfold _DI400Y, _DI100Y, _DI4Y.
  repeat match goal with
  | |- context [if ?b then _ else _] => destruct b
  end; reflexivity.
Qed.

(** [_ord2ymd] yields a month, a day of that month, and the date whose
    ordinal is the argument. *)
Theorem ord2ymd_correct n :
  let '(y, m, d) := _ord2ymd n in
  1 <= m <= 12 /\ 1 <= d <= _days_in_month y m /\ _ymd2ord y m d = n.
Proof.
  rewrite ord2ymd_unfold. cbv zeta.
  pose proof (Z.div_mod (n - 1) 146097 ltac:(lia)) as E0.
  pose proof (Z.mod_pos_bound (n - 1) 146097 ltac:(lia)) as B0.
  set (q := (n - 1) / 146097) in *. set (r := (n - 1) mod 146097) in *.
  pose proof (Z.div_mod r 36524 ltac:(lia)) as E1.
  pose proof (Z.mod_pos_bound r 36524 ltac:(lia)) as B1.
  set (a := r / 36524) in *. set (r1 := r mod 36524) in *.
  pose proof (Z.div_mod r1 1461 ltac:(lia)) as E2.
  pose proof (Z.mod_pos_bound r1 1461 ltac:(lia)) as B2.
  set (b := r1 / 1461) in *. set (r2 := r1 mod 1461) in *.
  pose proof (Z.div_mod r2 365 ltac:(lia)) as E3.
  pose proof (Z.mod_pos_bound r2 365 ltac:(lia)) as B3.
  set (c := r2 / 365) in *. set (k := r2 mod 365) in *.
  assert (0 <= a <= 4 /\ 0 <= b <= 24 /\ 0 <= c <= 4) as (Ha & Hb & Hc) by lia.
  destruct ((c =? 4) || (a =? 4)) eqn:Last.
  - (* the last day of a leap year *)
    assert (c = 4 \/ a = 4) as Hl
      by (apply orb_prop in Last as [L|L]; apply Z.eqb_eq in L; auto).
    assert (exists a' b', 0 <= a' <= 3 /\ 0 <= b' <= 24
              /\ q * 400 + 1 + (a * 100 + b * 4 + c) - 1
                 = q * 400 + 1 + (a' * 100 + b' * 4 + 3)
              /\ ((negb (b' =? 24) || (a' =? 3)) = true)
              /\ n = 146097 * q + 36524 * a' + 1461 * b' + 365 * 3 + 366)
      as (a' & b' & Ha' & Hb' & Ey & Lp & En).
    { destruct (Z.eq_dec a 4) as [A4|A4].
      - exists 3, 24. repeat split; lia.
      - exists a, b. assert (c = 4) by lia.
        assert (b <> 24) as Nb by lia.
        repeat split; lia. }
    rewrite Ey.
    destruct (year_of_cycles q a' b' 3 Ha' Hb' ltac:(lia)) as (Dy & Ly).
    cbv zeta in Dy, Ly. rewrite Lp in Ly. cbn in Ly.
    unfold _days_in_month, _ymd2ord, _days_before_month.
    rewrite Dy, Ly.
    change (index _DAYS_IN_MONTH 12) with 31.
    change (index _DAYS_BEFORE_MONTH 12) with 334.
    cbn [Z.eqb Z.ltb Z.compare Pos.compare Pos.compare_cont andb bool_to_Z Pos.eqb].
    lia.
  - apply orb_false_elim in Last as [L1 L2].
    apply Z.eqb_neq in L1, L2.
    destruct (year_of_cycles q a b c ltac:(lia) Hb ltac:(lia)) as (Dy & Ly).
    cbv zeta in Dy, Ly.
    pose proof (month_day_correct
                  ((c =? 3) && (negb (b =? 24) || (a =? 3))) k B3) as M.
    destruct (Spec.month_day _ k) as [m d]. destruct M as (M1 & M2 & M3).
    unfold _days_in_month, _ymd2ord, _days_before_month.
    rewrite Dy, Ly. repeat split; try lia.
Qed.

Lemma days_before_year_mono a b :
  a <= b -> _days_before_year a <= _days_before_year b.
Proof. unfold _days_before_year. cbv zeta. intros. divmod. Qed.

Lemma days_before_month_bounds y m :
  1 <= m <= 12 ->
  0 <= _days_before_month y m
  /\ _days_before_month y m + _days_in_month y m <= 366
  /\ (_is_leap y = false -> _days_before_month y m + _days_in_month y m <= 365).
Proof.
  intros H. unfold _days_before_month, _days_in_month.
  assert (m = 1 \/ m = 2 \/ m = 3 \/ m = 4 \/ m = 5 \/ m = 6 \/ m = 7 \/ m = 8
          \/ m = 9 \/ m = 10 \/ m = 11 \/ m = 12) as Hm by lia.
  destruct (_is_leap y);
  repeat (destruct Hm as [->|Hm];
          [cbn; repeat split; intros; try discriminate; lia|]);
  subst; cbn; repeat split; intros; try discriminate; lia.
Qed.

Lemma days_in_month_min y m : 1 <= m <= 12 -> 28 <= _days_in_month y m.
Proof.
  intros H. unfold _days_in_month.
  destruct ((m =? 2) && _is_leap y); [lia|].
  assert (m = 1 \/ m = 2 \/ m = 3 \/ m = 4 \/ m = 5 \/ m = 6 \/ m = 7 \/ m = 8
          \/ m = 9 \/ m = 10 \/ m = 11 \/ m = 12) as Hm by lia.
  repeat (destruct Hm as [->|Hm]; [apply Z.leb_le; reflexivity|]).
  subst. apply Z.leb_le. reflexivity.
Qed.

Lemma days_in_month_max y m : 1 <= m <= 12 -> _days_in_month y m <= 31.
Proof.
  intros H. unfold _days_in_month.
  destruct ((m =? 2) && _is_leap y); [lia|].
  assert (m = 1 \/ m = 2 \/ m = 3 \/ m = 4 \/ m = 5 \/ m = 6 \/ m = 7 \/ m = 8
          \/ m = 9 \/ m = 10 \/ m = 11 \/ m = 12) as Hm by lia.
  repeat (destruct Hm as [->|Hm]; [apply Z.leb_le; reflexivity|]).
  subst. apply Z.leb_le. reflexivity.
Qed.

Lemma year_length y :
  _days_before_year (y + 1) = _days_before_year y + 365 + bool_to_Z (_is_leap y).
Proof.
  unfold _days_before_year, _is_leap. cbv zeta.
  destruct (Z.eqb_spec (y mod 4) 0), (Z.eqb_spec (y mod 100) 0),
    (Z.eqb_spec (y mod 400) 0); cbn [negb andb orb bool_to_Z]; divmod.
Qed.

(** A date lies after the last day of the year before and not after the
    last day of its own year. *)
Lemma ymd2ord_bounds y m d :
  1 <= m <= 12 -> 1 <= d <= _days_in_month y m ->
  _days_before_year y < _ymd2ord y m d <= _days_before_year (y + 1).
Proof.
  intros Hm Hd. unfold _ymd2ord. rewrite year_length.
  pose proof (days_before_month_bounds y m Hm) as (B0 & B1 & B2).
  destruct (_is_leap y); cbn [bool_to_Z]; [lia|].
  specialize (B2 eq_refl). lia.
Qed.

Lemma ymd2ord_range y m d :
  MINYEAR <= y <= MAXYEAR -> 1 <= m <= 12 -> 1 <= d <= _days_in_month y m ->
  1 <= _ymd2ord y m d <= _MAXORDINAL.
Proof.
  intros Hy Hm Hd. pose proof (ymd2ord_bounds y m d Hm Hd) as B.
  unfold MINYEAR, MAXYEAR, _MAXORDINAL in *.
  pose proof (days_before_year_mono 1 y ltac:(lia)) as L.
  pose proof (days_before_year_mono (y + 1) 10000 ltac:(lia)) as U.
  change (_days_before_year 1) with 0 in L.
  change (_days_before_year 10000) with 3652059 in U. lia.
Qed.

(** The ordinals of [1 .. _MAXORDINAL] are the days of the years
    [MINYEAR .. MAXYEAR]. *)
Theorem ord2ymd_year_range n :
  1 <= n <= _MAXORDINAL -> MINYEAR <= fst (fst (_ord2ymd n)) <= MAXYEAR.
Proof.
  intros Hn. pose proof (ord2ymd_correct n) as C.
  destruct (_ord2ymd n) as [[y m] d]. cbn [fst].
  destruct C as (Hm & Hd & E).
  pose proof (ymd2ord_bounds y m d Hm Hd) as B. rewrite E in B.
  unfold MINYEAR, MAXYEAR, _MAXORDINAL in *.
  split.
  - destruct (Z_lt_le_dec y 1) as [L|]; [|assumption].
    pose proof (days_before_year_mono (y + 1) 1 ltac:(lia)) as M.
    change (_days_before_year 1) with 0 in M. lia.
  - destruct (Z_lt_le_dec 9999 y) as [L|]; [|assumption].
    pose proof (days_before_year_mono 10000 y ltac:(lia)) as M.
    change (_days_before_year 10000) with 3652059 in M. lia.
Qed.

Lemma days_before_year_next a b :
  a < b -> _days_before_year (a + 1) <= _days_before_year b.
Proof. intros H. apply days_before_year_mono. lia. Qed.

(** A month ends before the later months begin. *)
Lemma months_in_order y m m' :
  1 <= m -> m < m' -> m' <= 12 ->
  _days_before_month y m + _days_in_month y m <= _days_before_month y m'.
Proof.
  intros H1 H2 H3. unfold _days_before_month, _days_in_month.
  assert (m = 1 \/ m = 2 \/ m = 3 \/ m = 4 \/ m = 5 \/ m = 6 \/ m = 7 \/ m = 8
          \/ m = 9 \/ m = 10 \/ m = 11) as Hm by lia.
  assert (m' = 2 \/ m' = 3 \/ m' = 4 \/ m' = 5 \/ m' = 6 \/ m' = 7 \/ m' = 8
          \/ m' = 9 \/ m' = 10 \/ m' = 11 \/ m' = 12) as Hm' by lia.
  destruct (_is_leap y);
    repeat (destruct Hm as [->|Hm]);
    try subst m;
    repeat (destruct Hm' as [->|Hm']);
    try subst m';
    try lia; apply Z.leb_le; reflexivity.
Qed.

(** A date is the only one with its ordinal: [_ord2ymd] gives back the
    date that [_ymd2ord] was given. *)
Theorem ord2ymd_ymd2ord y m d :
  1 <= m <= 12 -> 1 <= d <= _days_in_month y m ->
  _ord2ymd (_ymd2ord y m d) = (y, m, d).
Proof.
  intros Hm Hd. pose proof (ord2ymd_correct (_ymd2ord y m d)) as C.
  destruct (_ord2ymd (_ymd2ord y m d)) as [[y' m'] d'].
  destruct C as (Hm' & Hd' & E).
  pose proof (ymd2ord_bounds y m d Hm Hd) as B.
  pose proof (ymd2ord_bounds y' m' d' Hm' Hd') as B'.
  assert (y' = y) as ->.
  { destruct (Z.lt_trichotomy y' y) as [L|[L|L]]; [|assumption|].
    - pose proof (days_before_year_next y' y L). lia.
    - pose proof (days_before_year_next y y' L). lia. }
  assert (m' = m) as ->.
  { unfold _ymd2ord in E.
    destruct (Z.lt_trichotomy m' m) as [L|[L|L]]; [|assumption|].
    - pose proof (months_in_order y m' m ltac:(lia) L ltac:(lia)). lia.
    - pose proof (months_in_order y m m' ltac:(lia) L ltac:(lia)). lia. }
  unfold _ymd2ord in E. do 2 f_equal. lia.
Qed.

End CalendarFacts.

(* ================================================================== *)
(** * [datetime]: construction and arithmetic *)
(* ================================================================== *)

Section DatetimeFacts.
Import Calendar Datetime.

Lemma check_date_fields_ok y m d :
  MINYEAR <= y <= MAXYEAR -> 1 <= m <= 12 -> 1 <= d <= _days_in_month y m ->
  _check_date_fields y m d = Ok tt.
Proof.
  intros Hy Hm Hd. unfold _check_date_fields.
  replace ((MINYEAR <=? y) && (y <=? MAXYEAR)) with true by (symmetry; apply andb_true_intro; split; lia).
  replace ((1 <=? m) && (m <=? 12)) with true by (symmetry; apply andb_true_intro; split; lia).
  replace ((1 <=? d) && (d <=? _days_in_month y m)) with true by (symmetry; apply andb_true_intro; split; lia).
  reflexivity.
Qed.

Lemma check_date_fields_inv y m d :
  _check_date_fields y m d = Ok tt ->
  MINYEAR <= y <= MAXYEAR /\ 1 <= m <= 12 /\ 1 <= d <= _days_in_month y m.
Proof.
  unfold _check_date_fields.
  destruct ((MINYEAR <=? y) && (y <=? MAXYEAR)) eqn:E1; cbn [negb]; [|discriminate].
  destruct ((1 <=? m) && (m <=? 12)) eqn:E2; cbn [negb]; [|discriminate].
  destruct ((1 <=? d) && (d <=? _days_in_month y m)) eqn:E3; cbn [negb]; [|discriminate].
  intros _. apply andb_prop in E1, E2, E3. lia.
Qed.

Lemma check_time_fields_inv H M S :
  _check_time_fields H M S = Ok tt ->
  0 <= H <= 23 /\ 0 <= M <= 59 /\ 0 <= S <= 59.
Proof.
  unfold _check_time_fields.
  destruct ((0 <=? H) && (H <=? 23)) eqn:E1; cbn [negb]; [|discriminate].
  destruct ((0 <=? M) && (M <=? 59)) eqn:E2; cbn [negb]; [|discriminate].
  destruct ((0 <=? S) && (S <=? 59)) eqn:E3; cbn [negb]; [|discriminate].
  intros _. apply andb_prop in E1, E2, E3. lia.
Qed.

Lemma new_inv y m d H M S dt :
  new y m d H M S = Ok dt ->
  dt = mkdt y m d H M S /\ _check_date_fields y m d = Ok tt
  /\ _check_time_fields H M S = Ok tt.
Proof.
  unfold new, bind.
  destruct (_check_date_fields y m d) as [[]|]; [|discriminate].
  destruct (_check_time_fields H M S) as [[]|]; [|discriminate].
  intros E. injection E as <-. auto.
Qed.

Lemma new_raises y m d H M S e : new y m d H M S = Raise e -> e = ValueError.
Proof.
  unfold new, bind, _check_date_fields, _check_time_fields.
  repeat match goal with
  | |- context [if ?b then _ else _] => destruct b
  end; congruence.
Qed.

Lemma new_valid y m d H M S dt : new y m d H M S = Ok dt -> valid dt.
Proof.
  intros E. destruct (new_inv _ _ _ _ _ _ _ E) as (-> & _ & _). exact E.
Qed.

Lemma valid_inv dt :
  valid dt ->
  _check_date_fields (year dt) (month dt) (day dt) = Ok tt
  /\ _check_time_fields (hour dt) (minute dt) (second dt) = Ok tt.
Proof. intros V. apply new_inv in V. tauto. Qed.

Lemma toordinal_range dt : valid dt -> 1 <= toordinal dt <= _MAXORDINAL.
Proof.
  intros V. destruct (valid_inv _ V) as (D & _).
  apply check_date_fields_inv in D as (Hy & Hm & Hd).
  now apply ymd2ord_range.
Qed.

(** Two valid dates with the same ordinal are the same day. *)
Lemma toordinal_inj a b :
  valid a -> valid b -> toordinal a = toordinal b ->
  year a = year b /\ month a = month b /\ day a = day b.
Proof.
  intros Va Vb E.
  destruct (valid_inv _ Va) as (Da & _). destruct (valid_inv _ Vb) as (Db & _).
  apply check_date_fields_inv in Da as (_ & Ma & Dda).
  apply check_date_fields_inv in Db as (_ & Mb & Ddb).
  pose proof (ord2ymd_ymd2ord _ _ _ Ma Dda) as Ra.
  pose proof (ord2ymd_ymd2ord _ _ _ Mb Ddb) as Rb.
  unfold toordinal in E. rewrite E, Rb in Ra. now injection Ra as -> -> ->.
Qed.

(** Adding whole days inside the range of [datetime]. *)
Lemma add_in_range self k :
  valid self -> 1 <= toordinal self + k <= _MAXORDINAL ->
  exists r, add self k = Ok r /\ valid r
    /\ toordinal r = toordinal self + k
    /\ hour r = hour self /\ minute r = minute self /\ second r = second self.
Proof.
  intros V R. unfold add, timedelta, bind. unfold _MAXORDINAL in *.
  replace (999999999 <? Z.abs (toordinal self + k)) with false
    by (symmetry; apply Z.ltb_ge; lia).
  replace ((0 <? toordinal self + k) && (toordinal self + k <=? 3652059))
    with true by (symmetry; apply andb_true_intro; split; lia).
  pose proof (ord2ymd_correct (toordinal self + k)) as C.
  pose proof (ord2ymd_year_range (toordinal self + k) R) as Y.
  destruct (_ord2ymd (toordinal self + k)) as [[y m] d]. cbn [fst] in Y.
  destruct C as (Hm & Hd & E).
  destruct (valid_inv _ V) as (_ & T).
  unfold new, bind.
  rewrite (check_date_fields_ok y m d Y Hm Hd), T.
  eexists. split; [reflexivity|].
  repeat split; cbn; try assumption; try lia.
  unfold valid, new, bind. cbn.
  now rewrite (check_date_fields_ok y m d Y Hm Hd), T.
Qed.

Lemma add_out_of_range self k :
  ~ (1 <= toordinal self + k <= _MAXORDINAL) -> add self k = Raise OverflowError.
Proof.
  intros R. unfold add, timedelta, bind.
  destruct (999999999 <? Z.abs (toordinal self + k)); [reflexivity|].
  replace ((0 <? toordinal self + k) && (toordinal self + k <=? _MAXORDINAL))
    with false; [reflexivity|].
  symmetry. apply andb_false_iff.
  destruct (Z_lt_le_dec 0 (toordinal self + k)); [right|left].
  - apply Z.leb_gt. lia.
  - apply Z.ltb_ge. lia.
Qed.

Lemma sub_in_range self k :
  valid self -> 1 <= toordinal self - k <= _MAXORDINAL -> Z.abs k <= 999999999 ->
  exists r, sub self k = Ok r /\ valid r
    /\ toordinal r = toordinal self - k
    /\ hour r = hour self /\ minute r = minute self /\ second r = second self.
Proof.
  intros V R K. unfold sub, timedelta, bind.
  replace (999999999 <? Z.abs (- k)) with false by (symmetry; apply Z.ltb_ge; lia).
  apply add_in_range; [assumption|lia].
Qed.

End DatetimeFacts.

(* ================================================================== *)
(** * [str]: stripping and [int] *)
(* ================================================================== *)

Ltac by_cases_on_char c :=
  destruct c as [[] [] [] [] [] [] [] []]; vm_compute; congruence.

Lemma decimal_not_space c : Str.isdecimal_char c = true -> Str.isspace_char c = false.
Proof. by_cases_on_char c. Qed.

Lemma decimal_is_digit c : Str.isdecimal_char c = true -> Str.isdigit_char c = true.
Proof. unfold Str.isdigit_char. now intros ->. Qed.

Lemma digit_not_space c : Str.isdigit_char c = true -> Str.isspace_char c = false.
Proof. by_cases_on_char c. Qed.

Lemma digit_value_range c : Str.isdecimal_char c = true -> 0 <= Str.digit_value c <= 9.
Proof.
  unfold Str.isdecimal_char, Str.between, Str.digit_value. intros H.
  apply andb_prop in H. lia.
Qed.

Lemma all_chars_impl (p q : ascii -> bool) s :
  (forall c, p c = true -> q c = true) ->
  Str.all_chars p s = true -> Str.all_chars q s = true.
Proof.
  intros I. induction s as [|c t IH]; cbn; [reflexivity|].
  intros H. apply andb_prop in H as [Hc Ht]. now rewrite (I c Hc), (IH Ht).
Qed.

(** [rstrip] leaves alone a string that does not end with whitespace. *)
Lemma rstrip_no_space s :
  Str.all_chars (fun c => negb (Str.isspace_char c)) s = true -> Str.rstrip s = s.
Proof.
  induction s as [|c t IH]; cbn; [reflexivity|].
  intros H. apply andb_prop in H as [Hc Ht]. rewrite (IH Ht).
  apply negb_true_iff in Hc. rewrite Hc. now destruct t.
Qed.

Lemma lstrip_no_space s :
  Str.all_chars (fun c => negb (Str.isspace_char c)) s = true -> Str.lstrip s = s.
Proof.
  destruct s as [|c t]; cbn; [reflexivity|].
  intros H. apply andb_prop in H as [Hc _]. apply negb_true_iff in Hc. now rewrite Hc.
Qed.

Lemma strip_no_space s :
  Str.all_chars (fun c => negb (Str.isspace_char c)) s = true -> Str.strip s = s.
Proof. intros H. unfold Str.strip. now rewrite (lstrip_no_space s H), (rstrip_no_space s H). Qed.

Lemma strip_digits s : Str.all_chars Str.isdigit_char s = true -> Str.strip s = s.
Proof.
  intros H. apply strip_no_space. revert H. apply all_chars_impl.
  intros c Hc. now rewrite (digit_not_space c Hc).
Qed.

Lemma decimal_value_lower acc s :
  0 <= acc -> Str.all_chars Str.isdecimal_char s = true -> acc <= Str.decimal_value acc s.
Proof.
  revert acc. induction s as [|c t IH]; cbn; intros acc Ha H; [lia|].
  apply andb_prop in H as [Hc Ht]. pose proof (digit_value_range c Hc).
  specialize (IH (acc * 10 + Str.digit_value c) ltac:(lia) Ht). lia.
Qed.

(** [int] on a run of decimal digits. *)
Lemma int_decimal s :
  s <> EmptyString -> Str.all_chars Str.isdecimal_char s = true ->
  Z.of_nat (String.length s) <= Str.max_str_digits ->
  Str.int s = Ok (Str.decimal_value 0 s).
Proof.
  intros Hn Hd Hl. unfold Str.int.
  rewrite strip_digits
    by (revert Hd; apply all_chars_impl, decimal_is_digit).
  destruct s as [|c t]; [congruence|]. cbn [Str.truthy negb].
  rewrite Hd. cbn [negb].
  replace (Str.max_str_digits <? Z.of_nat (String.length (String c t))) with false
    by (symmetry; apply Z.ltb_ge; lia).
  reflexivity.
Qed.

Lemma int_raises s e : Str.int s = Raise e -> e = ValueError.
Proof.
  unfold Str.int.
  repeat match goal with
  | |- context [if ?b then _ else _] => destruct b
  end; congruence.
Qed.

Lemma int_inv s n : Str.int s = Ok n ->
  Str.all_chars Str.isdecimal_char (Str.strip s) = true /\ n = Str.decimal_value 0 (Str.strip s)
  /\ Str.strip s <> EmptyString.
Proof.
  unfold Str.int.
  destruct (Str.strip s) as [|c t] eqn:E; cbn [Str.truthy negb]; [discriminate|].
  destruct (Str.all_chars Str.isdecimal_char (String c t)); cbn [negb]; [|discriminate].
  destruct (Str.max_str_digits <? _); [discriminate|].
  intros H. injection H as <-. repeat split. discriminate.
Qed.

(* ================================================================== *)
(** * [strptime]: the matcher and its exceptions *)
(* ================================================================== *)

Section StrptimeFacts.
Import Calendar Datetime Strptime.

Lemma match_seq_spec ks : forall s txt rest,
  match_seq ks s = Some (txt, rest) ->
  s = txt ++ rest /\ String.length txt = List.length ks
  /\ Forall2 (fun k c => cls_match k c = true) ks (list_ascii_of_string txt).
Proof.
  induction ks as [|k ks IH]; intros s txt rest; cbn.
  - intros E. injection E as <- <-. repeat split. constructor.
  - destruct s as [|c t]; [discriminate|].
    destruct (cls_match k c) eqn:Ek; [|discriminate].
    destruct (match_seq ks t) as [[txt' rest']|] eqn:Et; [|discriminate].
    intros E. injection E as <- <-.
    destruct (IH _ _ _ Et) as (-> & L & F).
    cbn. repeat split; [now rewrite L|now constructor].
Qed.

Lemma alternatives_In alts s txt rest :
  In (txt, rest) (alternatives alts s) ->
  exists a, In a alts /\ match_seq a s = Some (txt, rest).
Proof.
  induction alts as [|a alts IH]; cbn; [tauto|].
  destruct (match_seq a s) as [r|] eqn:E.
  - intros [->|H]; [now exists a; auto|].
    destruct (IH H) as (a' & Ha & E'). exists a'. auto.
  - intros H. destruct (IH H) as (a' & Ha & E'). exists a'. auto.
Qed.

Lemma flat_map_nil {A B} (f : A -> list B) l :
  (forall x, In x l -> f x = []) -> flat_map f l = [].
Proof.
  induction l as [|x l IH]; cbn; intros H; [reflexivity|].
  rewrite (H x (or_introl eq_refl)). apply IH. intros; apply H; now right.
Qed.

Lemma spaces_rests_In s rest :
  In rest (spaces_rests s) -> (String.length rest < String.length s)%nat.
Proof.
  revert rest. induction s as [|c t IH]; cbn; [intros ? []|].
  destruct (Str.isspace_char c); [|intros ? []].
  intros rest H. apply in_app_or in H as [H|[<-|[]]]; [|lia].
  specialize (IH _ H). lia.
Qed.

Lemma fold_max_ge l n : In n l -> (n <= fold_right Nat.max 0 l)%nat.
Proof. induction l as [|x l IH]; cbn; [tauto|]. intros [->|H]; [lia|]. specialize (IH H). lia. Qed.

Lemma fold_min_le l w n : In n (w :: l) -> (fold_right Nat.min w l <= n)%nat.
Proof.
  induction l as [|x l IH]; cbn.
  - intros [->|[]]. lia.
  - intros [->|[->|H]].
    + specialize (IH (or_introl eq_refl)). lia.
    + lia.
    + specialize (IH (or_intror H)). lia.
Qed.

Lemma alternatives_width name alts s txt rest :
  directive_re name = Some alts ->
  In (txt, rest) (alternatives alts s) ->
  s = txt ++ rest
  /\ (Spec.min_alt_width name <= String.length txt <= Spec.max_alt_width name)%nat.
Proof.
  intros D H. destruct (alternatives_In _ _ _ _ H) as (a & Ha & E).
  destruct (match_seq_spec _ _ _ _ E) as (-> & L & _).
  split; [reflexivity|]. rewrite L.
  assert (In (List.length a) (Spec.alt_widths name)) as W
    by (unfold Spec.alt_widths; rewrite D; now apply in_map).
  split.
  - unfold Spec.min_alt_width. destruct (Spec.alt_widths name) as [|w ws]; [destruct W|].
    now apply fold_min_le.
  - now apply fold_max_ge.
Qed.

Lemma length_app a b : String.length (a ++ b) = (String.length a + String.length b)%nat.
Proof. induction a; cbn; congruence. Qed.

Lemma match_items_min_width fmt : forall s g rest,
  In (g, rest) (match_items fmt s) ->
  (String.length rest + Spec.min_width fmt <= String.length s)%nat.
Proof.
  induction fmt as [|it f IH]; intros s g rest; cbn [match_items Spec.min_width].
  - intros [E|[]]. injection E as <- <-. lia.
  - destruct it as [name|c|].
    + destruct (directive_re name) as [alts|] eqn:D; [|intros []].
      intros H. apply in_flat_map in H as ([txt r] & Ha & H).
      apply in_map_iff in H as ([g' r'] & E & H). cbn in E. injection E as <- <-.
      destruct (alternatives_width _ _ _ _ _ D Ha) as (-> & W & _).
      specialize (IH _ _ _ H). cbn [snd] in IH. rewrite length_app. lia.
    + destruct s as [|c' t]; [intros []|].
      destruct (Ascii.eqb c c'); [|intros []].
      intros H. specialize (IH _ _ _ H). cbn. lia.
    + intros H. apply in_flat_map in H as (r & Hr & H).
      apply spaces_rests_In in Hr. specialize (IH _ _ _ H). lia.
Qed.

Lemma match_items_max_width fmt : forall s g rest,
  Spec.no_spaces fmt = true ->
  In (g, rest) (match_items fmt s) ->
  (String.length s <= String.length rest + Spec.max_width fmt)%nat.
Proof.
  induction fmt as [|it f IH]; intros s g rest N; cbn [match_items Spec.max_width].
  - intros [E|[]]. injection E as <- <-. lia.
  - destruct it as [name|c|]; cbn in N; [| |discriminate].
    + destruct (directive_re name) as [alts|] eqn:D; [|intros []].
      intros H. apply in_flat_map in H as ([txt r] & Ha & H).
      apply in_map_iff in H as ([g' r'] & E & H). cbn in E. injection E as <- <-.
      destruct (alternatives_width _ _ _ _ _ D Ha) as (-> & _ & W).
      specialize (IH _ _ _ N H). cbn [snd] in IH. rewrite length_app. lia.
    + destruct s as [|c' t]; [intros []|].
      destruct (Ascii.eqb c c'); [|intros []].
      intros H. specialize (IH _ _ _ N H). cbn. lia.
Qed.

(** ** [strptime] *)

Lemma pattern_raises_upto n : forall format e,
  (String.length format <= n)%nat -> pattern format = Raise e -> e = ValueError.
Proof.
  induction n as [|n IH]; intros format e L.
  - destruct format; [discriminate|cbn in L; lia].
  - destruct format as [|c t]; [discriminate|]. cbn in L. cbn [pattern].
    destruct (Ascii.eqb c "%").
    + destruct t as [|d t']; [congruence|].
      destruct (directive_re d); [|congruence].
      destruct (pattern t') as [r|e'] eqn:E; cbn; [discriminate|].
      intros H. injection H as <-. apply (IH t'); [cbn in L; lia|assumption].
    + destruct (Str.isspace_char c); destruct (pattern t) as [r|e'] eqn:E; cbn;
        try (intros H; injection H as <-; apply (IH t); [lia|assumption]).
      * destruct r as [|[] ?]; discriminate.
      * discriminate.
Qed.

Lemma pattern_raises format e : pattern format = Raise e -> e = ValueError.
Proof. apply (pattern_raises_upto (String.length format)). lia. Qed.

Lemma field_raises name default g e : field name default g = Raise e -> e = ValueError.
Proof. unfold field. destruct (group name g); [apply int_raises|discriminate]. Qed.

Lemma check_date_fields_raises y m d e :
  _check_date_fields y m d = Raise e -> e = ValueError.
Proof.
  unfold _check_date_fields.
  repeat match goal with
  | |- context [if ?b then _ else _] => destruct b
  end; congruence.
Qed.

Ltac bind_raise lem :=
  match goal with
  | |- context [bind ?m _] =>
      let E := fresh "E" in
      destruct m eqn:E; cbn [bind];
      [|let H := fresh in intros H; injection H as <-; eapply lem; eassumption]
  end.

(** [strptime] raises nothing but [ValueError]. *)
Lemma strptime_raises s format e : strptime s format = Raise e -> e = ValueError.
Proof.
  unfold strptime.
  bind_raise pattern_raises.
  destruct (match_items _ s) as [|[found rest] more]; [congruence|].
  destruct (Str.truthy rest); [congruence|].
  do 6 bind_raise field_raises.
  bind_raise check_date_fields_raises.
  apply new_raises.
Qed.

Lemma strptime_ok s format dt : strptime s format = Ok dt -> valid dt.
Proof.
  unfold strptime.
  destruct (pattern format); cbn [bind]; [|discriminate].
  destruct (match_items _ s) as [|[found rest] more]; [discriminate|].
  destruct (Str.truthy rest); [discriminate|].
  do 7 match goal with
  | |- context [bind ?m _] => destruct m; cbn [bind]; [|discriminate]
  end.
  apply new_valid.
Qed.

End StrptimeFacts.

(* ================================================================== *)
(** * [parse_launch_date] *)
(* ================================================================== *)

Section ParseFacts.
Import Calendar Datetime Strptime.

(** The five copies are the shared body at their list of formats. *)
Lemma copies_unfold s :
  GenerateMondayBoards.parse_launch_date s
    = Spec.parse_launch_date_with Spec.formats4 s
  /\ MondaySubitemManager.parse_launch_date s
    = Spec.parse_launch_date_with Spec.formats4 s
  /\ Duplicator.parse_launch_date s
    = Spec.parse_launch_date_with Spec.formats3 s
  /\ GenerateProductDev.parse_launch_date s
    = Spec.parse_launch_date_with Spec.formats3 s
  /\ AddSubitems.parse_launch_date s
    = Spec.parse_launch_date_with Spec.formats3 s.
Proof. repeat split. Qed.

(** ** The loop over the formats *)

Lemma try_formats_total s fmts : exists r, try_formats s fmts = Ok r.
Proof.
  induction fmts as [|fmt rest IH]; cbn; [now exists None|].
  destruct (strptime s fmt) as [dt|e] eqn:E; [now exists (Some dt)|].
  now rewrite (strptime_raises _ _ _ E).
Qed.

Lemma try_formats_first s fmts r :
  try_formats s fmts = Ok r -> Spec.first_parse fmts s r.
Proof.
  revert r. induction fmts as [|fmt rest IH]; cbn; intros r.
  - intros E. injection E as <-. intros fmt [].
  - destruct (strptime s fmt) as [dt|e] eqn:E.
    + intros H. injection H as <-. exists 0%nat, fmt. cbn.
      repeat split; [assumption|]. intros j fj Hj. lia.
    + pose proof (strptime_raises _ _ _ E) as ->. intros H.
      specialize (IH r H). destruct r as [dt|]; cbn in *.
      * destruct IH as (k & f & Hk & Hf & Hfail).
        exists (S k), f. cbn. repeat split; [assumption..|].
        intros [|j] fj Hj; cbn; [intros Q; now injection Q as <-|].
        apply Hfail. lia.
      * intros f [<-|Hf]; [assumption|now apply IH].
Qed.

Lemma try_formats_app_fail s fmts fmt :
  strptime s fmt = Raise ValueError ->
  try_formats s (fmts ++ [fmt]) = try_formats s fmts.
Proof.
  intros F. induction fmts as [|f rest IH]; cbn; [now rewrite F|].
  destruct (strptime s f) as [dt|[]]; auto.
Qed.

Lemma try_formats_all_fail s fmts :
  (forall fmt, In fmt fmts -> strptime s fmt = Raise ValueError) ->
  try_formats s fmts = Ok None.
Proof.
  induction fmts as [|f rest IH]; cbn; intros H; [reflexivity|].
  rewrite (H f (or_introl eq_refl)). apply IH. intros; apply H; now right.
Qed.

(** ** The serial branch *)

Lemma epoch_ordinal : toordinal Spec.excel_epoch = 693594.
Proof. reflexivity. Qed.

Lemma epoch_valid : valid Spec.excel_epoch.
Proof. reflexivity. Qed.

Lemma serial_in_range n :
  0 <= n <= Spec.max_serial ->
  exists r, (days <- timedelta n ;; add Spec.excel_epoch days) = Ok r
    /\ valid r /\ toordinal r = toordinal Spec.excel_epoch + n
    /\ hour r = 0 /\ minute r = 0 /\ second r = 0.
Proof.
  intros Hn. unfold Spec.max_serial in Hn. unfold timedelta.
  replace (999999999 <? Z.abs n) with false by (symmetry; apply Z.ltb_ge; lia).
  cbn [bind].
  apply (add_in_range Spec.excel_epoch n epoch_valid).
  rewrite epoch_ordinal. unfold _MAXORDINAL. lia.
Qed.

Lemma serial_out_of_range n :
  Spec.max_serial < n ->
  (days <- timedelta n ;; add Spec.excel_epoch days) = Raise OverflowError.
Proof.
  intros Hn. unfold Spec.max_serial in Hn. unfold timedelta.
  destruct (999999999 <? Z.abs n); [reflexivity|]. cbn [bind].
  apply add_out_of_range. rewrite epoch_ordinal. unfold _MAXORDINAL. lia.
Qed.

Lemma isdigit_all s : Str.isdigit s = true -> Str.all_chars Str.isdigit_char s = true.
Proof. destruct s; [discriminate|auto]. Qed.

Lemma isdigit_truthy s : Str.isdigit s = true -> Str.truthy s = true.
Proof. destruct s; [discriminate|reflexivity]. Qed.

Lemma strip_empty_truthy s : Str.strip s <> "" -> Str.truthy s = true.
Proof. destruct s; [intros H; now contradiction H|reflexivity]. Qed.

(** What the shared body does with a string of digits: [int] turns down
    the superscripts and the literals that are too long, and the formats
    get their turn; otherwise the serial number decides. *)
Lemma parse_digits fmts s :
  Str.isdigit s = true ->
  Spec.parse_launch_date_with fmts s =
  match Str.int s with
  | Ok n =>
      r <- (days <- timedelta n ;; add Spec.excel_epoch days) ;; Ok (Some r)
  | Raise _ => try_formats (Str.strip s) fmts
  end.
Proof.
  intros D. unfold Spec.parse_launch_date_with.
  rewrite (isdigit_truthy s D), (strip_digits s (isdigit_all s D)), D.
  replace (String.eqb s "") with false by (now destruct s).
  cbn [negb orb].
  destruct (Str.int s) as [n|e] eqn:E; cbn [bind].
  - change (new 1899 12 30 0 0 0) with (Ok Spec.excel_epoch). cbn [bind].
    destruct (int_inv _ _ E) as (Hd & -> & _).
    pose proof (decimal_value_lower 0 _ ltac:(lia) Hd) as Hn.
    set (n := Str.decimal_value 0 (Str.strip s)) in *.
    replace (days <- timedelta n ;; r <- add Spec.excel_epoch days ;; Ok (Some r))
      with (r <- (days <- timedelta n ;; add Spec.excel_epoch days) ;; Ok (Some r))
      by (now destruct (timedelta n)).
    destruct (Z_le_gt_dec n Spec.max_serial) as [L|G].
    + destruct (serial_in_range n (conj Hn L)) as (r & -> & _). reflexivity.
    + now rewrite (serial_out_of_range n ltac:(lia)).
  - now rewrite (int_raises _ _ E).
Qed.

Lemma parse_not_digits fmts s :
  Str.isdigit s = false ->
  Spec.parse_launch_date_with fmts s =
  if negb (Str.truthy s) || String.eqb (Str.strip s) "" then Ok None
  else try_formats (Str.strip s) fmts.
Proof. intros D. unfold Spec.parse_launch_date_with. now rewrite D. Qed.

(** ** Building a successful [strptime] *)

Lemma strptime_intro s format fmt g more y m d H M S dt :
  pattern format = Ok fmt ->
  match_items fmt s = (g, "") :: more ->
  field "Y" 1900 g = Ok y -> field "m" 1 g = Ok m -> field "d" 1 g = Ok d ->
  field "H" 0 g = Ok H -> field "M" 0 g = Ok M -> field "S" 0 g = Ok S ->
  new y m d H M S = Ok dt ->
  strptime s format = Ok dt.
Proof.
  intros P Mt FY Fm Fd FH FM FS N. unfold strptime.
  rewrite P. cbn [bind]. rewrite Mt. cbn [Str.truthy].
  rewrite FY, Fm, Fd, FH, FM, FS. cbn [bind].
  destruct (new_inv _ _ _ _ _ _ _ N) as (_ & -> & _). exact N.
Qed.

Lemma match_items_directive name alts f s txt rest more g r more' :
  directive_re name = Some alts ->
  alternatives alts s = (txt, rest) :: more ->
  match_items f rest = (g, r) :: more' ->
  exists more'', match_items (Directive name :: f) s = ((name, txt) :: g, r) :: more''.
Proof.
  intros D A Mt. cbn [match_items]. rewrite D, A. cbn [flat_map fst snd].
  rewrite Mt. cbn [map fst snd app]. eexists. reflexivity.
Qed.

Lemma match_year t :
  Spec.year_text t -> alternatives [[Dec; Dec; Dec; Dec]] t = [(t, "")].
Proof.
  intros [L D].
  destruct t as [|c1 [|c2 [|c3 [|c4 [|c5 t]]]]]; try discriminate.
  cbn in D. repeat (apply andb_prop in D; destruct D as [? D]).
  cbn [alternatives match_seq cls_match].
  repeat match goal with H : Str.isdecimal_char _ = true |- _ => rewrite H; clear H end.
  reflexivity.
Qed.

Lemma year_value t :
  Spec.year_text t ->
  Str.int t = Ok (Str.decimal_value 0 t) /\ 0 <= Str.decimal_value 0 t <= 9999.
Proof.
  intros [L D]. split.
  - apply int_decimal; [now destruct t|assumption|].
    rewrite L. unfold Str.max_str_digits. lia.
  - destruct t as [|c1 [|c2 [|c3 [|c4 [|c5 t]]]]]; try discriminate.
    cbn in D. repeat (apply andb_prop in D; destruct D as [? D]).
    cbn [Str.decimal_value].
    repeat match goal with
    | H : Str.isdecimal_char _ = true |- _ => apply digit_value_range in H
    end. lia.
Qed.

(** A month or a day from 1 to 12, written as in [small_fields], is the
    first thing that the group of [%m] and the group of [%d] match in
    front of a slash. *)
Lemma small_field_matches fm m R :
  In (fm, m) Spec.small_fields ->
  (exists more,
     alternatives [[Lit "1"; Range "0" "2"]; [Lit "0"; Range "1" "9"];
                   [Range "1" "9"]] (fm ++ String "/" R)
     = (fm, String "/" R) :: more)
  /\ (exists more,
     alternatives [[Lit "3"; Range "0" "1"]; [Range "1" "2"; Dec];
                   [Lit "0"; Range "1" "9"]; [Range "1" "9"];
                   [Lit " "; Range "1" "9"]] (fm ++ String "/" R)
     = (fm, String "/" R) :: more)
  /\ Str.int fm = Ok m /\ 1 <= m <= 12
  /\ Str.all_chars (fun c => negb (Str.isspace_char c)) fm = true
  /\ strptime (fm ++ String "/" R) "%Y-%m-%d" = Raise ValueError.
Proof.
  intros H. cbn in H.
  repeat (destruct H as [H|H];
          [injection H as <- <-;
           repeat split; try (eexists; reflexivity); try reflexivity; lia|]).
  destruct H.
Qed.

Lemma all_chars_app p a b :
  Str.all_chars p (a ++ b) = Str.all_chars p a && Str.all_chars p b.
Proof.
  induction a as [|c a IH]; cbn; [reflexivity|].
  now rewrite IH, andb_assoc.
Qed.

(** A slash date with month and day both at most 12 is read month
    first. *)
Lemma slash_date_month_first fm m fd d t :
  In (fm, m) Spec.small_fields -> In (fd, d) Spec.small_fields ->
  Spec.year_text t -> 1 <= Str.decimal_value 0 t ->
  let s := fm ++ "/" ++ fd ++ "/" ++ t in
  Str.isdigit s = false /\ Str.strip s = s /\ s <> ""
  /\ strptime s "%Y-%m-%d" = Raise ValueError
  /\ strptime s "%m/%d/%Y" = Ok (mkdt (Str.decimal_value 0 t) m d 0 0 0).
Proof.
  intros Hm Hd Ht Hy s.
  destruct (small_field_matches fm m (fd ++ "/" ++ t) Hm)
    as ((mm & Am) & _ & Im & Rm & Sm & Fm).
  destruct (small_field_matches fd d t Hd) as (_ & (md & Ad) & Id & Rd & Sd & _).
  destruct (year_value t Ht) as (Iy & Ry).
  assert (Str.all_chars (fun c => negb (Str.isspace_char c)) t = true) as St.
  { destruct Ht as [_ D]. revert D. apply all_chars_impl.
    intros c Hc. now rewrite (decimal_not_space c Hc). }
  repeat split.
  - assert (Str.all_chars Str.isdigit_char s = false) as N.
    { unfold s. change (fm ++ "/" ++ fd ++ "/" ++ t)
        with (fm ++ String "/" (fd ++ "/" ++ t)).
      rewrite all_chars_app. cbn. apply andb_false_r. }
    unfold Str.isdigit. destruct s; [reflexivity|assumption].
  - apply strip_no_space. unfold s.
    rewrite !all_chars_app, Sm, Sd, St. reflexivity.
  - unfold s. destruct fm; [|discriminate].
    cbn in Sm. cbn. discriminate.
  - exact Fm.
  - destruct (match_items_directive "Y" _ [] t t "" [] [] "" []
                eq_refl (match_year t Ht) eq_refl) as (m1 & M1).
    destruct (match_items_directive "d" _ [Char "/"; Directive "Y"]
                (fd ++ String "/" t) fd (String "/" t) md _ _ _
                eq_refl Ad M1) as (m2 & M2).
    destruct (match_items_directive "m" _
                [Char "/"; Directive "d"; Char "/"; Directive "Y"]
                (fm ++ String "/" (fd ++ "/" ++ t)) fm _ mm _ _ _
                eq_refl Am M2) as (m3 & M3).
    eapply (strptime_intro s "%m/%d/%Y" _ _ _ _ m d 0 0 0);
      [reflexivity|exact M3|exact Iy|exact Im|exact Id|reflexivity..|].
    unfold new.
    rewrite check_date_fields_ok; [reflexivity| | |].
    + unfold MINYEAR, MAXYEAR. lia.
    + lia.
    + split; [lia|].
      pose proof (days_in_month_min (Str.decimal_value 0 t) m Rm). lia.
Qed.

(** ** A date with a time is no date for the other formats *)

Lemma strptime_inv s format dt :
  strptime s format = Ok dt ->
  exists fmt g more,
    pattern format = Ok fmt /\ match_items fmt s = (g, "") :: more.
Proof.
  unfold strptime. destruct (pattern format) as [fmt|]; cbn [bind]; [|discriminate].
  destruct (match_items fmt s) as [|[g rest] more] eqn:Mt; [discriminate|].
  destruct rest; cbn [Str.truthy]; [|discriminate].
  intros _. now exists fmt, g, more.
Qed.

Lemma match_year_shape f s g rest :
  In (g, rest) (match_items (Directive "Y" :: Char "-" :: f) s) ->
  exists c1 c2 c3 c4 t,
    s = String c1 (String c2 (String c3 (String c4 (String "-" t))))
    /\ Str.isdecimal_char c1 = true /\ Str.isdecimal_char c2 = true
    /\ Str.isdecimal_char c3 = true /\ Str.isdecimal_char c4 = true.
Proof.
  cbn [match_items directive_re]. intros H.
  apply in_flat_map in H as ([txt r] & Ha & H).
  apply in_map_iff in H as ([g' r'] & _ & H). cbn [snd] in H.
  cbn [alternatives] in Ha.
  destruct (match_seq [Dec; Dec; Dec; Dec] s) as [p|] eqn:E; [|destruct Ha].
  destruct Ha as [->|[]].
  destruct (match_seq_spec _ _ _ _ E) as (-> & L & F).
  destruct txt as [|c1 [|c2 [|c3 [|c4 [|c5 txt]]]]]; try discriminate.
  cbn in F.
  repeat match goal with
  | F : Forall2 _ (_ :: _) (_ :: _) |- _ =>
      apply Forall2_cons_iff in F; destruct F as [? F]
  end.
  cbn [append].
  destruct r as [|c t]; [destruct H|]. cbn [match_items] in H.
  destruct (Ascii.eqb_spec "-" c) as [<-|]; [|destruct H].
  now exists c1, c2, c3, c4, t.
Qed.

(** The slash formats want a slash in second or third place, where a
    string that starts with a year has a digit. *)
Lemma slash_format_fails n f c1 c2 c3 t :
  n = "m"%char \/ n = "d"%char ->
  Str.isdecimal_char c2 = true -> Str.isdecimal_char c3 = true ->
  match_items (Directive n :: Char "/" :: f)
    (String c1 (String c2 (String c3 t))) = [].
Proof.
  intros Hn H2 H3. cbn [match_items].
  destruct (directive_re n) as [alts|] eqn:D; [|reflexivity].
  apply flat_map_nil. intros [txt r] Ha. cbn [fst snd].
  destruct (alternatives_width _ _ _ _ _ D Ha) as (E & W1 & W2).
  assert (Spec.min_alt_width n = 1%nat /\ Spec.max_alt_width n = 2%nat) as [Wl Wu]
    by (destruct Hn as [->| ->]; split; reflexivity).
  rewrite Wl in W1. rewrite Wu in W2.
  assert (forall c, Str.isdecimal_char c = true -> Ascii.eqb "/" c = false) as NS.
  { intros c Hc. destruct (Ascii.eqb_spec "/" c) as [<-|]; [discriminate|reflexivity]. }
  destruct txt as [|a [|b [|? ?]]]; cbn in W1, W2; try lia; cbn in E.
  - injection E as _ <-. cbn [match_items]. now rewrite (NS c2 H2).
  - injection E as _ _ <-. cbn [match_items]. now rewrite (NS c3 H3).
Qed.

Lemma no_match_raises s format fmt :
  pattern format = Ok fmt -> match_items fmt s = [] ->
  strptime s format = Raise ValueError.
Proof. intros P Mt. unfold strptime. now rewrite P; cbn [bind]; rewrite Mt. Qed.

(** [%Y-%m-%d] matches ten characters at most. *)
Lemma date_format_fails_on_long s :
  (11 <= String.length s)%nat -> strptime s "%Y-%m-%d" = Raise ValueError.
Proof.
  intros L. unfold strptime.
  change (pattern "%Y-%m-%d")
    with (Ok [Directive "Y"; Char "-"; Directive "m"; Char "-"; Directive "d"]).
  cbn [bind].
  destruct (match_items _ s) as [|[g rest] more] eqn:Mt; [reflexivity|].
  assert (In (g, rest) (match_items
            [Directive "Y"; Char "-"; Directive "m"; Char "-"; Directive "d"] s))
    as I by (rewrite Mt; now left).
  apply match_items_max_width in I; [|reflexivity].
  change (Spec.max_width _) with 10%nat in I.
  destruct rest; [cbn in I; lia|reflexivity].
Qed.

Lemma date_time_excludes_others t dt :
  strptime t "%Y-%m-%d %H:%M:%S" = Ok dt ->
  (forall fmt, In fmt Spec.formats3 -> strptime t fmt = Raise ValueError)
  /\ Str.all_chars Str.isdigit_char t = false /\ t <> "".
Proof.
  intros P. destruct (strptime_inv _ _ _ P) as (fmt & g & more & Pf & Mt).
  change (pattern "%Y-%m-%d %H:%M:%S")
    with (Ok [Directive "Y"; Char "-"; Directive "m"; Char "-"; Directive "d";
              Spaces; Directive "H"; Char ":"; Directive "M"; Char ":";
              Directive "S"]) in Pf.
  injection Pf as <-.
  assert (In (g, "") (match_items
            [Directive "Y"; Char "-"; Directive "m"; Char "-"; Directive "d";
             Spaces; Directive "H"; Char ":"; Directive "M"; Char ":";
             Directive "S"] t)) as I by (rewrite Mt; now left).
  pose proof (match_items_min_width _ _ _ _ I) as W.
  change (Spec.min_width _) with 14%nat in W. cbn [String.length] in W.
  destruct (match_year_shape _ _ _ _ I)
    as (c1 & c2 & c3 & c4 & t' & -> & H1 & H2 & H3 & H4).
  repeat split.
  - intros f [<-|[<-|[<-|[]]]].
    + apply date_format_fails_on_long. lia.
    + apply (no_match_raises _ "%m/%d/%Y"
               [Directive "m"; Char "/"; Directive "d"; Char "/"; Directive "Y"]
               eq_refl).
      apply slash_format_fails; auto.
    + apply (no_match_raises _ "%d/%m/%Y"
               [Directive "d"; Char "/"; Directive "m"; Char "/"; Directive "Y"]
               eq_refl).
      apply slash_format_fails; auto.
  - cbn. rewrite !andb_false_r. reflexivity.
  - discriminate.
Qed.

Lemma strip_of_digits_or_not s :
  Str.all_chars Str.isdigit_char (Str.strip s) = false -> Str.isdigit s = false.
Proof.
  intros H. destruct (Str.isdigit s) eqn:D; [|reflexivity].
  now rewrite (strip_digits s (isdigit_all s D)), (isdigit_all s D) in H.
Qed.

Lemma parse_date_time fmts s dt :
  strptime (Str.strip s) "%Y-%m-%d %H:%M:%S" = Ok dt ->
  Spec.parse_launch_date_with fmts s = try_formats (Str.strip s) fmts.
Proof.
  intros P. destruct (date_time_excludes_others _ _ P) as (_ & N & E).
  rewrite (parse_not_digits fmts s (strip_of_digits_or_not s N)).
  rewrite (strip_empty_truthy s E).
  destruct (String.eqb_spec (Str.strip s) ""); [contradiction|reflexivity].
Qed.

Lemma parse_with_extra_format fmts f s :
  strptime (Str.strip s) f = Raise ValueError ->
  Spec.parse_launch_date_with (fmts ++ [f]) s = Spec.parse_launch_date_with fmts s.
Proof.
  intros F. unfold Spec.parse_launch_date_with.
  now rewrite (try_formats_app_fail _ fmts f F).
Qed.

End ParseFacts.

(* ================================================================== *)
(** * [parse_launch_date]: the properties *)
(* ================================================================== *)

Section ParseClaims.
Import Calendar Datetime Strptime.

Lemma every_copy_intro s r :
  Spec.parse_launch_date_with Spec.formats3 s = r ->
  Spec.parse_launch_date_with Spec.formats4 s = r ->
  Spec.every_copy s r.
Proof. intros H3 H4. repeat split; assumption. Qed.

(** What any copy can answer: a date, nothing, or the [OverflowError] of
    a serial number beyond 9999-12-31, which no [except] clause of the
    function catches. *)
Lemma parse_launch_date_outcomes fmts s :
  (exists r, Spec.parse_launch_date_with fmts s = Ok r)
  \/ (Spec.parse_launch_date_with fmts s = Raise OverflowError
      /\ Str.isdigit s = true
      /\ exists n, Str.int s = Ok n /\ Spec.max_serial < n).
Proof.
  destruct (Str.isdigit s) eqn:D.
  - rewrite (parse_digits fmts s D).
    destruct (Str.int s) as [n|e] eqn:E; [|left; apply try_formats_total].
    destruct (int_inv _ _ E) as (Hd & Hv & _).
    pose proof (decimal_value_lower 0 _ ltac:(lia) Hd) as Hn. rewrite <- Hv in Hn.
    destruct (Z_le_gt_dec n Spec.max_serial) as [L|G].
    + destruct (serial_in_range n (conj Hn L)) as (r & -> & _).
      left. now exists (Some r).
    + rewrite (serial_out_of_range n ltac:(lia)). right.
      repeat split. exists n. split; [reflexivity|lia].
  - rewrite (parse_not_digits fmts s D). left.
    destruct (negb _ || _); [now exists None|apply try_formats_total].
Qed.

(** Nothing but whitespace is no date. *)
Lemma parse_launch_date_blank fmts s :
  Str.strip s = "" -> Spec.parse_launch_date_with fmts s = Ok None.
Proof.
  intros E. unfold Spec.parse_launch_date_with. rewrite E.
  cbn [String.eqb]. now rewrite orb_true_r.
Qed.

(** The examples of dates that the scripts meet. *)
Example parse_launch_date_examples :
  Spec.every_copy "" (Ok None)
  /\ Spec.every_copy "   " (Ok None)
  /\ Spec.every_copy "2025-01-15" (Ok (Some (mkdt 2025 1 15 0 0 0)))
  /\ Spec.every_copy " 2025-01-15 " (Ok (Some (mkdt 2025 1 15 0 0 0)))
  /\ Spec.every_copy "not a date" (Ok None)
  /\ Spec.every_copy "02/30/2025" (Ok None)
  /\ Spec.every_copy "13/04/2025" (Ok (Some (mkdt 2025 4 13 0 0 0)))
  /\ Spec.date_time_copies "2025-01-15 10:30:00"
       (Ok (Some (mkdt 2025 1 15 10 30 0)))
  /\ Spec.date_only_copies "2025-01-15 10:30:00" (Ok None).
Proof. repeat split. Qed.

(** C2, as amended.  A string made of decimal digits only -- at most
    4300 of them, the longest literal that [int] converts -- and denoting
    a number [n] up to 2958465 is read by every copy of
    [parse_launch_date] as the date [n] days after 1899-12-30, at
    midnight; "46062" is 2026-02-09. *)
Theorem parse_launch_date_serial :
  (forall s,
     Spec.decimal_string s = true -> (String.length s <= 4300)%nat ->
     Str.decimal_value 0 s <= Spec.max_serial ->
     exists r,
       Spec.every_copy s (Ok (Some r))
       /\ valid r
       /\ toordinal r = toordinal Spec.excel_epoch + Str.decimal_value 0 s
       /\ hour r = 0 /\ minute r = 0 /\ second r = 0)
  /\ Spec.every_copy "46062" (Ok (Some (mkdt 2026 2 9 0 0 0)))
  /\ toordinal (mkdt 2026 2 9 0 0 0) = toordinal Spec.excel_epoch + 46062.
Proof.
  split; [|split; [repeat split|reflexivity]].
  intros s Hs Hl Hm.
  apply andb_prop in Hs as [Ht Hd].
  assert (s <> "") as Hn by (now destruct s).
  assert (Str.isdigit s = true) as D.
  { destruct s; [congruence|]. revert Hd. apply all_chars_impl, decimal_is_digit. }
  assert (Str.int s = Ok (Str.decimal_value 0 s)) as I
    by (apply int_decimal; [assumption..|unfold Str.max_str_digits; lia]).
  pose proof (decimal_value_lower 0 s ltac:(lia) Hd) as H0.
  destruct (serial_in_range _ (conj H0 Hm)) as (r & E & V & O & T).
  exists r. split; [|tauto].
  apply every_copy_intro; rewrite (parse_digits _ s D), I, E; reflexivity.
Qed.

Lemma parse_launch_date_serial_witness :
  exists r,
    Spec.every_copy "45930" (Ok (Some r))
    /\ valid r
    /\ toordinal r = toordinal Spec.excel_epoch + Str.decimal_value 0 "45930"
    /\ hour r = 0 /\ minute r = 0 /\ second r = 0.
Proof.
  apply (proj1 parse_launch_date_serial "45930").
  - reflexivity.
  - simpl. lia.
  - vm_compute. discriminate.
Defined.

(** C2 as stated fails twice: the digits are looked for in the string as
    it came, so a serial number with blanks around it is no date for any
    copy; and a serial number beyond 9999-12-31 is no [datetime]. *)
Lemma parse_launch_date_serial_counterexample :
  Str.strip " 46062 " = "46062"
  /\ Spec.every_copy " 46062 " (Ok None)
  /\ Spec.decimal_string "9999999" = true
  /\ Spec.every_copy "9999999" (Raise OverflowError).
Proof. repeat split. Qed.

(** C8.  [parse_launch_date] does not always return: the serial number
    9999999 makes every copy raise [OverflowError], which the
    [except ValueError] around the conversion lets through, and the CSV
    generator, which calls it outside any [try], ends with that
    exception. *)
Theorem parse_launch_date_overflow_escapes :
  Spec.every_copy "9999999" (Raise OverflowError)
  /\ GenerateMondayBoards.generate_department_csv
       [Spec.row_with_huge_serial] Spec.sample_config "Product Development"
     = Raise OverflowError.
Proof. repeat split. Qed.

(** C5.  A string that is not a non-empty run of decimal digits (the
    empty string among them) gets, from every copy, what the formats of
    the copy give when tried in their order on the stripped string:
    [%Y-%m-%d], [%m/%d/%Y], [%d/%m/%Y], and [%Y-%m-%d %H:%M:%S] last in
    the two copies that have it.  So a slash date whose two fields are
    both at most 12, written with or without a leading zero, is read
    month first; "03/04/2025" is the 4th of March. *)
Theorem parse_launch_date_format_order :
  (forall s,
     Spec.decimal_string s = false ->
     exists r3 r4,
       Spec.date_only_copies s (Ok r3)
       /\ Spec.first_parse Spec.formats3 (Str.strip s) r3
       /\ Spec.date_time_copies s (Ok r4)
       /\ Spec.first_parse Spec.formats4 (Str.strip s) r4)
  /\ (forall fm m fd d t,
        In (fm, m) Spec.small_fields -> In (fd, d) Spec.small_fields ->
        Spec.year_text t -> 1 <= Str.decimal_value 0 t ->
        Spec.every_copy (fm ++ "/" ++ fd ++ "/" ++ t)
          (Ok (Some (mkdt (Str.decimal_value 0 t) m d 0 0 0))))
  /\ Spec.every_copy "03/04/2025" (Ok (Some (mkdt 2025 3 4 0 0 0))).
Proof.
  split; [|split; [|repeat split]].
  - intros s N.
    assert (forall fmts, try_formats "" fmts = Ok None ->
            exists r,
              Spec.parse_launch_date_with fmts s = Ok r
              /\ try_formats (Str.strip s) fmts = Ok r) as A.
    { intros fmts Hb.
      destruct (try_formats_total (Str.strip s) fmts) as (r & E).
      destruct (Str.isdigit s) eqn:D.
      - rewrite (parse_digits fmts s D).
        assert (Str.int s = Raise ValueError) as ->; [|now exists r].
        unfold Str.int. rewrite (strip_digits s (isdigit_all s D)).
        unfold Spec.decimal_string in N.
        rewrite (isdigit_truthy s D) in *. cbn [negb andb] in *.
        now rewrite N.
      - rewrite (parse_not_digits fmts s D).
        destruct (negb (Str.truthy s) || String.eqb (Str.strip s) "") eqn:B;
          [|now exists r].
        assert (Str.strip s = "") as Z.
        { apply orb_prop in B as [B|B].
          - destruct s; [reflexivity|discriminate].
          - now apply String.eqb_eq. }
        rewrite Z. now exists None. }
    destruct (A Spec.formats3 eq_refl) as (r3 & P3 & T3).
    destruct (A Spec.formats4 eq_refl) as (r4 & P4 & T4).
    exists r3, r4. repeat split; try assumption; now apply try_formats_first.
  - intros fm m fd d t Hm Hd Ht Hy.
    destruct (slash_date_month_first fm m fd d t Hm Hd Ht Hy)
      as (D & S & N & F1 & F2).
    assert (forall more,
              Spec.parse_launch_date_with ("%Y-%m-%d" :: "%m/%d/%Y" :: more)
                (fm ++ "/" ++ fd ++ "/" ++ t)
              = Ok (Some (mkdt (Str.decimal_value 0 t) m d 0 0 0))) as A.
    { intros more. rewrite (parse_not_digits _ _ D), S.
      rewrite (strip_empty_truthy _ ltac:(now rewrite S)).
      destruct (String.eqb_spec (fm ++ "/" ++ fd ++ "/" ++ t) "");
        [contradiction|].
      cbn [negb orb try_formats]. now rewrite F1, F2. }
    apply every_copy_intro; apply A.
Qed.

Lemma parse_launch_date_format_order_witness :
  exists r3 r4,
    Spec.date_only_copies " 13/04/2025" (Ok r3)
    /\ Spec.first_parse Spec.formats3 (Str.strip " 13/04/2025") r3
    /\ Spec.date_time_copies " 13/04/2025" (Ok r4)
    /\ Spec.first_parse Spec.formats4 (Str.strip " 13/04/2025") r4.
Proof.
  apply (proj1 parse_launch_date_format_order " 13/04/2025").
  reflexivity.
Defined.

(** C9.  The copies of [duplicate_master_to_proddev.py],
    [generate_product_dev.py] and [add_subitems_to_monday.py] answer
    alike on every string, and so do the copies of
    [generate_monday_boards.py] and [monday_subitem_manager.py].  Where
    the stripped string is a date followed by a time, the first three
    answer nothing and the last two answer that date and time; on every
    other string all five answer alike. *)
Theorem parse_launch_date_copies (s : string) :
  (exists r, Spec.date_only_copies s r)
  /\ (exists r, Spec.date_time_copies s r)
  /\ match strptime (Str.strip s) "%Y-%m-%d %H:%M:%S" with
     | Ok dt =>
         Spec.date_only_copies s (Ok None)
         /\ Spec.date_time_copies s (Ok (Some dt))
     | Raise _ => exists r, Spec.every_copy s r
     end.
Proof.
  split; [eexists; repeat split|]. split; [eexists; repeat split|].
  destruct (strptime (Str.strip s) "%Y-%m-%d %H:%M:%S") as [dt|e] eqn:P.
  - destruct (date_time_excludes_others _ _ P) as (F & _ & _).
    assert (Spec.parse_launch_date_with Spec.formats3 s = Ok None) as A3.
    { rewrite (parse_date_time _ s dt P). now apply try_formats_all_fail. }
    assert (Spec.parse_launch_date_with Spec.formats4 s = Ok (Some dt)) as A4.
    { rewrite (parse_date_time _ s dt P).
      cbn [Spec.formats4 try_formats].
      rewrite !F by (cbn; tauto). now rewrite P. }
    repeat split; assumption.
  - pose proof (strptime_raises _ _ _ P) as ->.
    exists (Spec.parse_launch_date_with Spec.formats3 s).
    apply every_copy_intro; [reflexivity|].
    apply (parse_with_extra_format Spec.formats3 _ s P).
Qed.

End ParseClaims.

(* ================================================================== *)
(** * [calculate_due_date] *)
(* ================================================================== *)

Section DueDateFacts.
Import Calendar Datetime Strptime.

Lemma two_digits_checked : Spec.check_from 100 0 Spec.two_digits_ok = true.
Proof. vm_cast_no_check (eq_refl true). Qed.

Lemma four_digits_checked :
  Spec.check_from (Z.to_nat 9000) 1000 Spec.four_digits_ok = true.
Proof. vm_cast_no_check (eq_refl true). Qed.

Lemma two_digits_denote n :
  0 <= n < 100 ->
  Str.int (Str.two_digits n) = Ok n
  /\ String.length (Str.two_digits n) = 2%nat
  /\ Str.all_chars Str.isdecimal_char (Str.two_digits n) = true.
Proof.
  intros H. pose proof (check_from_spec _ _ _ two_digits_checked n ltac:(lia)) as C.
  unfold Spec.two_digits_ok in C.
  destruct (Str.int (Str.two_digits n)) as [v|]; [|discriminate].
  apply andb_prop in C as [C D]. apply andb_prop in C as [E L].
  apply Z.eqb_eq in E. apply Nat.eqb_eq in L. now subst.
Qed.

Lemma four_digits_denote n :
  1000 <= n <= 9999 ->
  Str.int (Str.decimal n) = Ok n /\ Spec.year_text (Str.decimal n).
Proof.
  intros H.
  pose proof (check_from_spec _ _ _ four_digits_checked n
                ltac:(rewrite Z2Nat.id; lia)) as C.
  unfold Spec.four_digits_ok in C.
  destruct (Str.int (Str.decimal n)) as [v|]; [|discriminate].
  apply andb_prop in C as [C D]. apply andb_prop in C as [E L].
  apply Z.eqb_eq in E. apply Nat.eqb_eq in L. subst. now repeat split.
Qed.

(** From the year 1000 on, [strftime('%Y-%m-%d')] writes a date as
    [YYYY-MM-DD]. *)
Lemma strftime_Ymd_format dt :
  valid dt -> 1000 <= year dt -> Spec.is_YYYY_MM_DD dt (strftime_Ymd dt).
Proof.
  intros V Hy. destruct (valid_inv _ V) as (D & _).
  apply check_date_fields_inv in D as (Y & M & Dd).
  unfold MINYEAR, MAXYEAR in Y.
  pose proof (days_in_month_max (year dt) (month dt) M) as B.
  destruct (four_digits_denote (year dt) ltac:(lia)) as (IY & LY & _).
  destruct (two_digits_denote (month dt) ltac:(lia)) as (IM & LM & _).
  destruct (two_digits_denote (day dt) ltac:(lia)) as (ID & LD & _).
  exists (Str.decimal (year dt)), (Str.two_digits (month dt)),
    (Str.two_digits (day dt)).
  repeat split; assumption.
Qed.

Lemma match_year_then t rest :
  Spec.year_text t ->
  alternatives [[Dec; Dec; Dec; Dec]] (t ++ rest) = [(t, rest)].
Proof.
  intros [L D].
  destruct t as [|c1 [|c2 [|c3 [|c4 [|c5 t]]]]]; try discriminate.
  cbn in D. repeat (apply andb_prop in D; destruct D as [? D]).
  cbn [append alternatives match_seq cls_match].
  repeat match goal with
  | H : Str.isdecimal_char _ = true |- _ => rewrite H; clear H
  end.
  reflexivity.
Qed.

(** The two digits of a month are the first thing that the group of
    [%m] matches, and the two digits of a day the first thing that the
    group of [%d] matches. *)
Lemma month_digits_match m rest :
  1 <= m <= 12 ->
  exists more,
    alternatives [[Lit "1"; Range "0" "2"]; [Lit "0"; Range "1" "9"];
                  [Range "1" "9"]] (Str.two_digits m ++ rest)
    = (Str.two_digits m, rest) :: more.
Proof.
  intros H.
  assert (m = 1 \/ m = 2 \/ m = 3 \/ m = 4 \/ m = 5 \/ m = 6 \/ m = 7 \/ m = 8
          \/ m = 9 \/ m = 10 \/ m = 11 \/ m = 12) as C by lia.
  repeat (destruct C as [->|C]; [eexists; reflexivity|]).
  subst. eexists; reflexivity.
Qed.

Lemma day_digits_match d :
  1 <= d <= 31 ->
  exists more,
    alternatives [[Lit "3"; Range "0" "1"]; [Range "1" "2"; Dec];
                  [Lit "0"; Range "1" "9"]; [Range "1" "9"];
                  [Lit " "; Range "1" "9"]] (Str.two_digits d)
    = (Str.two_digits d, "") :: more.
Proof.
  intros H.
  assert (Z.to_nat d < 32)%nat as B by lia.
  rewrite <- (Z2Nat.id d) by lia.
  assert (Z.to_nat d <> 0)%nat as N by lia.
  revert N. generalize (Z.to_nat d) B. clear.
  intros n B.
  do 32 (destruct n as [|n]; [intros N; try (now contradiction N);
                              eexists; reflexivity|]).
  lia.
Qed.

(** What [strftime('%Y-%m-%d')] writes for a date from the year 1000 on,
    [strptime] reads back with the same format as that date. *)
Theorem strptime_strftime_Ymd dt :
  valid dt -> 1000 <= year dt ->
  strptime (strftime_Ymd dt) "%Y-%m-%d"
  = Ok (mkdt (year dt) (month dt) (day dt) 0 0 0).
Proof.
  intros V Hy. destruct (valid_inv _ V) as (D & _).
  pose proof D as D'.
  apply check_date_fields_inv in D as (Y & M & Dd).
  unfold MINYEAR, MAXYEAR in Y.
  pose proof (days_in_month_max (year dt) (month dt) M) as B.
  destruct (four_digits_denote (year dt) ltac:(lia)) as (IY & TY).
  destruct (two_digits_denote (month dt) ltac:(lia)) as (IM & _).
  destruct (two_digits_denote (day dt) ltac:(lia)) as (ID & _).
  destruct (day_digits_match (day dt) ltac:(lia)) as (md & Ad).
  destruct (month_digits_match (month dt) ("-" ++ Str.two_digits (day dt)) M)
    as (mm & Am).
  destruct (match_items_directive "d" _ [] _ _ _ md [] "" []
              eq_refl Ad eq_refl) as (m1 & M1).
  destruct (match_items_directive "m" _ [Char "-"; Directive "d"]
              _ _ _ mm _ _ _ eq_refl Am M1) as (m2 & M2).
  destruct (match_items_directive "Y" _
              [Char "-"; Directive "m"; Char "-"; Directive "d"]
              _ _ _ [] _ _ _ eq_refl
              (match_year_then (Str.decimal (year dt))
                 ("-" ++ Str.two_digits (month dt) ++ "-"
                  ++ Str.two_digits (day dt)) TY) M2) as (m3 & M3).
  eapply (strptime_intro _ "%Y-%m-%d" _ _ _ (year dt) (month dt) (day dt) 0 0 0);
    [reflexivity|exact M3|exact IY|exact IM|exact ID|reflexivity..|].
  unfold new. now rewrite D'.
Qed.

Lemma every_due_date_intro ld w r :
  GenerateMondayBoards.calculate_due_date ld w = r -> Spec.every_due_date ld w r.
Proof. intros H. repeat split; exact H. Qed.

(** C1, as amended.  For a launch date [d] and [w >= 0] weeks such that
    the day [7 * w] days before [d] is not before 0001-01-01, every copy
    of [calculate_due_date] returns that day -- no other: nothing is
    clamped -- as [strftime('%Y-%m-%d')] writes it, which from the year
    1000 on is the form [YYYY-MM-DD]; when that day would be before
    0001-01-01 the subtraction raises [OverflowError]; no launch date
    gives no due date; and 12 weeks before 2025-12-01 is "2025-09-08". *)
Theorem calculate_due_date_correct :
  (forall d w,
     valid d -> 0 <= w -> 1 <= toordinal d - 7 * w ->
     exists due,
       Spec.every_due_date (Some d) w (Ok (Some (strftime_Ymd due)))
       /\ valid due
       /\ toordinal due = toordinal d - 7 * w
       /\ (1000 <= year due -> Spec.is_YYYY_MM_DD due (strftime_Ymd due)))
  /\ (forall d w,
        valid d -> 0 <= w -> toordinal d - 7 * w < 1 ->
        Spec.every_due_date (Some d) w (Raise OverflowError))
  /\ (forall w, Spec.every_due_date None w (Ok None))
  /\ Spec.every_due_date (Some (mkdt 2025 12 1 0 0 0)) 12
       (Ok (Some "2025-09-08")).
Proof.
  split; [|split; [|split; [intros; repeat split|repeat split]]].
  - intros d w V Hw R.
    pose proof (toordinal_range d V) as O. unfold _MAXORDINAL in O.
    destruct (sub_in_range d (w * 7) V ltac:(unfold _MAXORDINAL; lia) ltac:(lia))
      as (due & E & Vd & Od & _).
    exists due. repeat split; try (apply strftime_Ymd_format; assumption); try lia;
      try assumption;
      unfold GenerateMondayBoards.calculate_due_date,
        MondaySubitemManager.calculate_due_date, Duplicator.calculate_due_date,
        GenerateProductDev.calculate_due_date, AddSubitems.calculate_due_date,
        timedelta_weeks, timedelta;
      (replace (999999999 <? Z.abs (w * 7)) with false
         by (symmetry; apply Z.ltb_ge; lia));
      cbn [bind]; now rewrite E.
  - intros d w V Hw R. apply every_due_date_intro.
    unfold GenerateMondayBoards.calculate_due_date, timedelta_weeks, timedelta.
    destruct (999999999 <? Z.abs (w * 7)); [reflexivity|]. cbn [bind].
    unfold sub, timedelta.
    destruct (999999999 <? Z.abs (- (w * 7))); [reflexivity|]. cbn [bind].
    rewrite add_out_of_range; [reflexivity|lia].
Qed.

Example calculate_due_date_examples :
  Spec.every_due_date (Some (mkdt 2026 6 1 0 0 0)) 40 (Ok (Some "2025-08-25"))
  /\ Spec.every_due_date (Some (mkdt 2025 1 15 10 30 0)) 0
       (Ok (Some "2025-01-15"))
  /\ Spec.every_due_date (Some (mkdt 2024 3 1 0 0 0)) 1
       (Ok (Some "2024-02-23")).
Proof. repeat split. Qed.

Lemma calculate_due_date_correct_witness :
  exists due,
    Spec.every_due_date (Some (mkdt 2026 6 1 0 0 0)) 40
      (Ok (Some (strftime_Ymd due)))
    /\ valid due
    /\ toordinal due = toordinal (mkdt 2026 6 1 0 0 0) - 7 * 40
    /\ (1000 <= year due -> Spec.is_YYYY_MM_DD due (strftime_Ymd due)).
Proof.
  apply (proj1 calculate_due_date_correct (mkdt 2026 6 1 0 0 0) 40).
  - reflexivity.
  - lia.
  - vm_compute. discriminate.
Defined.

(** C1 as stated fails for a lead time that reaches before the year 1:
    200000 weeks before 2025-12-01 there is no [datetime], and the
    function raises instead of returning. *)
Lemma calculate_due_date_counterexample :
  valid (mkdt 2025 12 1 0 0 0) /\ 0 <= 200000
  /\ Spec.every_due_date (Some (mkdt 2025 12 1 0 0 0)) 200000
       (Raise OverflowError).
Proof. repeat split; discriminate. Qed.

End DueDateFacts.

(* ================================================================== *)
(** * The group of the destination board *)
(* ================================================================== *)

Lemma startswith_spec p : forall s,
  Str.startswith s p = true <-> exists post, s = p ++ post.
Proof.
  induction p as [|a p IH]; intros s; cbn.
  - split; [intros _; now exists s|reflexivity].
  - destruct s as [|b s].
    + split; [discriminate|intros [post E]; discriminate].
    + rewrite andb_true_iff, Ascii.eqb_eq, IH. split.
      * intros [-> [post ->]]. now exists post.
      * intros [post E]. injection E as -> ->. split; [reflexivity|now exists post].
Qed.

Lemma contains_spec needle : forall hay,
  Str.contains needle hay = true <-> exists pre post, hay = pre ++ needle ++ post.
Proof.
  induction hay as [|c t IH]; cbn [Str.contains]; rewrite orb_true_iff, startswith_spec.
  - split.
    + intros [[post E]|]; [|discriminate]. now exists "", post.
    + intros [pre [post E]]. left. destruct pre; [now exists post|discriminate].
  - rewrite IH. split.
    + intros [[post E]|[pre [post E]]].
      * now exists "", post.
      * exists (String c pre), post. cbn. now rewrite E.
    + intros [pre [post E]]. destruct pre as [|a pre]; cbn in E.
      * left. now exists post.
      * right. injection E as -> ->. now exists pre, post.
Qed.

Lemma lower_app a b : Str.lower (a ++ b) = Str.lower a ++ Str.lower b.
Proof. induction a as [|c a IH]; cbn; [reflexivity|now rewrite IH]. Qed.

Lemma lower_split a : forall s b,
  Str.lower s = a ++ b ->
  exists a' b', s = a' ++ b' /\ Str.lower a' = a /\ Str.lower b' = b.
Proof.
  induction a as [|c a IH]; intros s b E.
  - now exists "", s.
  - destruct s as [|c' s]; [discriminate|]. cbn in E. injection E as Ec E.
    destruct (IH s b E) as (a' & b' & -> & <- & <-).
    exists (String c' a'), b'. cbn. now rewrite Ec.
Qed.

Lemma ci_contains_iff needle s :
  Str.contains needle (Str.lower s) = true <-> Spec.ci_contains needle s.
Proof.
  rewrite contains_spec. split.
  - intros (pre & post & E).
    destruct (lower_split _ _ _ E) as (pre' & rest & -> & _ & E').
    destruct (lower_split _ _ _ E') as (mid & post' & -> & Hm & _).
    now exists pre', mid, post'.
  - intros (pre & mid & post & -> & <-).
    exists (Str.lower pre), (Str.lower post). now rewrite !lower_app.
Qed.

Lemma ci_contains_false needle s :
  Str.contains needle (Str.lower s) = false <-> ~ Spec.ci_contains needle s.
Proof. rewrite <- ci_contains_iff. now destruct (Str.contains _ _). Qed.

(** C4.  The group of the destination board is decided by what the
    title of the source group contains, case ignored, in this order:
    "new colors" gives "SS26 New Colors"; else "new styles" gives
    "SS26 New Styles"; else "end of life" gives "End of Life Products";
    else "SS26 New Colors".  So "Misc" goes to "SS26 New Colors" and
    "End of Life batch" to "End of Life Products". *)
Theorem target_group_name_rules (s : string) :
  (Spec.ci_contains "new colors" s -> Duplicator.target_group_name s = "SS26 New Colors") /\
  (~ Spec.ci_contains "new colors" s -> Spec.ci_contains "new styles" s ->
   Duplicator.target_group_name s = "SS26 New Styles") /\
  (~ Spec.ci_contains "new colors" s -> ~ Spec.ci_contains "new styles" s ->
   Spec.ci_contains "end of life" s -> Duplicator.target_group_name s = "End of Life Products") /\
  (~ Spec.ci_contains "new colors" s -> ~ Spec.ci_contains "new styles" s ->
   ~ Spec.ci_contains "end of life" s -> Duplicator.target_group_name s = "SS26 New Colors") /\
  Duplicator.target_group_name "Misc" = "SS26 New Colors" /\
  Duplicator.target_group_name "End of Life batch" = "End of Life Products".
Proof.
  unfold Duplicator.target_group_name.
  repeat split; try reflexivity;
    repeat match goal with
    | |- ~ _ -> _ => let H := fresh in intros H; apply ci_contains_false in H; rewrite H
    | |- _ -> _ => let H := fresh in intros H; apply ci_contains_iff in H; rewrite H
    end; reflexivity.
Qed.


Lemma target_group_name_rules_witness :
  Duplicator.target_group_name "SS26 NEW Styles - wave 2" = "SS26 New Styles".
Proof.
  apply (proj1 (proj2 (target_group_name_rules "SS26 NEW Styles - wave 2"))).
  - apply ci_contains_false. reflexivity.
  - exists "SS26 ", "NEW Styles", " - wave 2". split; reflexivity.
Defined.

(* ================================================================== *)
(** * The schedule of an item *)
(* ================================================================== *)

Section ScheduleFacts.
Import Calendar Datetime Strptime Board Run.

Lemma add_value self k r :
  add self k = Ok r -> r = Spec.on_day (toordinal self + k) self.
Proof.
  unfold add, timedelta, Spec.on_day.
  destruct (999999999 <? _); cbn [bind]; [discriminate|].
  destruct ((0 <? _) && _); [|discriminate].
  destruct (_ord2ymd _) as [[y m] d]. intros N.
  now destruct (new_inv _ _ _ _ _ _ _ N) as (-> & _).
Qed.

Lemma strftime_Ymd_truthy dt : Str.truthy (strftime_Ymd dt) = true.
Proof.
  unfold strftime_Ymd, Str.decimal.
  repeat match goal with
  | |- context [if ?b then _ else _] => destruct b
  end; reflexivity.
Qed.

(** The date that the CSV generator writes in the column "Launch Date"
    is read back by every copy of [parse_launch_date] as that day. *)
Theorem launch_date_read_back dt :
  valid dt -> 1000 <= year dt ->
  Spec.every_copy (strftime_Ymd dt)
    (Ok (Some (mkdt (year dt) (month dt) (day dt) 0 0 0))).
Proof.
  intros V Hy. pose proof (strptime_strftime_Ymd dt V Hy) as R.
  destruct (valid_inv _ V) as (D & _).
  apply check_date_fields_inv in D as (Y & M & Dd).
  unfold MINYEAR, MAXYEAR in Y.
  pose proof (days_in_month_max (year dt) (month dt) M) as B.
  destruct (four_digits_denote (year dt) ltac:(lia)) as (_ & _ & TY).
  destruct (two_digits_denote (month dt) ltac:(lia)) as (_ & _ & TM).
  destruct (two_digits_denote (day dt) ltac:(lia)) as (_ & _ & TD).
  assert (forall t, Str.all_chars Str.isdecimal_char t = true ->
            Str.all_chars (fun c => negb (Str.isspace_char c)) t = true) as NS.
  { intros t. apply all_chars_impl. intros c Hc.
    now rewrite (decimal_not_space c Hc). }
  assert (Str.strip (strftime_Ymd dt) = strftime_Ymd dt) as S.
  { apply strip_no_space. unfold strftime_Ymd.
    rewrite !all_chars_app, (NS _ TY), (NS _ TM), (NS _ TD). reflexivity. }
  assert (Str.isdigit (strftime_Ymd dt) = false) as N.
  { apply strip_of_digits_or_not. rewrite S. unfold strftime_Ymd.
    rewrite !all_chars_app. cbn. now rewrite !andb_false_r. }
  assert (forall more,
            Spec.parse_launch_date_with ("%Y-%m-%d" :: more) (strftime_Ymd dt)
            = Ok (Some (mkdt (year dt) (month dt) (day dt) 0 0 0))) as A.
  { intros more. rewrite (parse_not_digits _ _ N), S, strftime_Ymd_truthy.
    destruct (String.eqb_spec (strftime_Ymd dt) "") as [E|_].
    - pose proof (strftime_Ymd_truthy dt) as T. rewrite E in T. discriminate.
    - cbn [negb orb try_formats]. now rewrite R. }
  apply every_copy_intro; apply A.
Qed.

(** The due date of a sub-item whose day exists. *)
Lemma due_date_in_range d w :
  valid d -> 0 <= w -> 1 <= toordinal d - 7 * w ->
  Duplicator.calculate_due_date (Some d) w = Ok (Some (Spec.due_date_text d w)).
Proof.
  intros V Hw R. pose proof (toordinal_range d V) as O. unfold _MAXORDINAL in O.
  destruct (sub_in_range d (w * 7) V ltac:(unfold _MAXORDINAL; lia) ltac:(lia))
    as (due & E & _).
  unfold Duplicator.calculate_due_date, timedelta_weeks, timedelta.
  replace (999999999 <? Z.abs (w * 7)) with false
    by (symmetry; apply Z.ltb_ge; lia).
  cbn [bind]. rewrite E. cbn [bind]. unfold Spec.due_date_text.
  unfold sub, timedelta in E.
  destruct (999999999 <? _); cbn [bind] in E; [discriminate|].
  rewrite (add_value _ _ _ E).
  now replace (toordinal d + - (w * 7)) with (toordinal d - 7 * w) by lia.
Qed.

Lemma dated_values_due d w :
  Duplicator.dated_values (Some (Spec.due_date_text d w))
  = [("status", "Working on it"); ("date", Spec.due_date_text d w)].
Proof.
  unfold Duplicator.dated_values, Spec.due_date_text.
  now rewrite strftime_Ymd_truthy.
Qed.

Lemma after_subitems_nil r : Spec.after_subitems r [] = r.
Proof.
  destruct r as [[n g i s] ic sc]. unfold Spec.after_subitems. cbn.
  now rewrite !Z.add_0_r, app_nil_r.
Qed.

Lemma after_subitems_cons r req reqs :
  Spec.after_subitems (Spec.after_subitems r [req]) reqs
  = Spec.after_subitems r (req :: reqs).
Proof.
  destruct r as [[n g i s] ic sc]. unfold Spec.after_subitems.
  cbn [svc next_id groups created_items created_subitems items_created
       subitems_created List.length Spec.numbered].
  rewrite <- app_assoc. cbn [app].
  replace (n + Z.of_nat 1) with (n + 1) by lia.
  f_equal; [f_equal|]; lia.
Qed.

Lemma one_subitem req r :
  (_ <~ api (create_subitem req) ;; count_subitem) r
  = (Ok tt, Spec.after_subitems r [req]).
Proof. reflexivity. Qed.

Lemma create_undated_subitems_run parent cfgs : forall r,
  Duplicator.create_undated_subitems parent cfgs r
  = (Ok tt, Spec.after_subitems r (map (Spec.scheduled_task parent None) cfgs)).
Proof.
  induction cfgs as [|cfg cfgs IH]; intros r; cbn [Duplicator.create_undated_subitems map].
  - now rewrite after_subitems_nil.
  - unfold bindM, api, count_subitem. cbn [create_subitem fst snd].
    rewrite IH. f_equal.
    exact (after_subitems_cons r (Spec.scheduled_task parent None cfg) _).
Qed.

Lemma create_dated_subitems_run parent d cfgs : forall r,
  Spec.due_dates_in_range (Some d) cfgs ->
  Duplicator.create_dated_subitems parent d cfgs r
  = (Ok tt,
     Spec.after_subitems r (map (Spec.scheduled_task parent (Some d)) cfgs)).
Proof.
  induction cfgs as [|cfg cfgs IH]; intros r [V F];
    cbn [Duplicator.create_dated_subitems map].
  - now rewrite after_subitems_nil.
  - apply Forall_cons_iff in F as [[Hw Hr] F].
    unfold bindM at 1. unfold lift.
    rewrite (due_date_in_range d _ V Hw Hr), dated_values_due.
    unfold bindM, api, count_subitem. cbn [create_subitem fst snd].
    rewrite IH by (split; assumption). f_equal.
    exact (after_subitems_cons r (Spec.scheduled_task parent (Some d) cfg) _).
Qed.

Lemma numbered_snd {A} (l : list A) : forall n, map snd (Spec.numbered n l) = l.
Proof. induction l as [|x l IH]; intros n; cbn; [reflexivity|now rewrite IH]. Qed.

Lemma requested_since_after r reqs :
  Spec.requested_since r (Spec.after_subitems r reqs) = reqs.
Proof.
  unfold Spec.requested_since, Spec.after_subitems. cbn [svc created_subitems].
  rewrite skipn_app, skipn_all, Nat.sub_diag. cbn [skipn app].
  apply numbered_snd.
Qed.

(** C3, as amended.  When every due date of the schedule is a day that
    [datetime] has, the sub-items asked of the service for an item are
    one per entry of the configuration, in the order of the
    configuration, each with the name of its entry; with a launch date
    each carries its due date, and without one the status only.  They
    are the same whatever the service did before, so that a second run
    asks the same again. *)
Theorem create_subitems_schedule :
  forall parent launch_date cfgs r,
    Spec.due_dates_in_range launch_date cfgs ->
    let tasks := map (Spec.scheduled_task parent launch_date) cfgs in
    let out := Duplicator.create_subitems parent launch_date cfgs r in
    fst out = Ok tt
    /\ Spec.requested_since r (snd out) = tasks
    /\ List.length tasks = List.length cfgs
    /\ map sr_name tasks = map Duplicator.task_name cfgs
    /\ (launch_date = None ->
        Forall (fun t => sr_values t = [("status", "Working on it")]) tasks)
    /\ subitems_created (snd out)
       = subitems_created r + Z.of_nat (List.length cfgs).
Proof.
  intros parent launch_date cfgs r H tasks out.
  assert (out = (Ok tt, Spec.after_subitems r tasks)) as ->.
  { unfold out. destruct launch_date as [d|]; cbn [Duplicator.create_subitems].
    - now apply create_dated_subitems_run.
    - apply create_undated_subitems_run. }
  cbn [fst snd]. repeat split.
  - apply requested_since_after.
  - apply length_map.
  - unfold tasks. rewrite map_map. reflexivity.
  - intros ->. unfold tasks. apply Forall_map. now apply Forall_forall.
  - unfold Spec.after_subitems, tasks. cbn [subitems_created].
    now rewrite length_map.
Qed.

Lemma create_subitems_schedule_witness :
  let d := mkdt 2026 6 1 0 0 0 in
  let tasks := map (Spec.scheduled_task 7 (Some d)) Spec.two_subitems in
  let out :=
    Duplicator.create_subitems 7 (Some d) Spec.two_subitems Spec.fresh_run in
  fst out = Ok tt
  /\ Spec.requested_since Spec.fresh_run (snd out) = tasks
  /\ List.length tasks = List.length Spec.two_subitems
  /\ map sr_name tasks = map Duplicator.task_name Spec.two_subitems
  /\ (Some d = None ->
      Forall (fun t => sr_values t = [("status", "Working on it")]) tasks)
  /\ subitems_created (snd out)
     = subitems_created Spec.fresh_run
       + Z.of_nat (List.length Spec.two_subitems).
Proof.
  apply (create_subitems_schedule 7 (Some (mkdt 2026 6 1 0 0 0))
           Spec.two_subitems Spec.fresh_run).
  split; [reflexivity|].
  repeat constructor; vm_compute; discriminate.
Defined.

(** C3 as stated fails when a lead time reaches before the year 1: of
    two entries, the second 200000 weeks ahead, one sub-item is made and
    the work on the item ends with [OverflowError]. *)
Lemma create_subitems_counterexample :
  let cfgs := [Duplicator.mk_subitem_config "Fit Approved" 18;
               Duplicator.mk_subitem_config "Concept" 200000] in
  let out :=
    Duplicator.create_subitems 7 (Some (mkdt 2025 12 1 0 0 0)) cfgs
      Spec.fresh_run in
  fst out = Raise OverflowError
  /\ List.length (created_subitems (svc (snd out))) = 1%nat
  /\ List.length cfgs = 2%nat.
Proof. repeat split. Qed.

End ScheduleFacts.

(* ================================================================== *)
(** * Records without a launch date, and the duplication of an item *)
(* ================================================================== *)

Section DuplicationFacts.
Import Calendar Datetime Board Run.

(** ** The launch date of an item *)

(** When no cell that is looked at makes [parse_launch_date] raise, the
    search answers the date of the first cell whose id says "launch" or
    "date" and whose text is a date. *)
Lemma find_launch_date_first cells :
  Forall (fun c =>
            Spec.date_cell c = true ->
            exists r, Duplicator.parse_launch_date (Duplicator.cv_text c) = Ok r)
         cells ->
  exists r,
    Duplicator.find_launch_date None cells = Ok r
    /\ Spec.first_launch_date cells r.
Proof.
  induction cells as [|c cells IH]; intros F.
  - exists None. split; [reflexivity|constructor].
  - apply Forall_cons_iff in F as [Hc F].
    destruct (IH F) as (r & E & S). cbn [Duplicator.find_launch_date].
    fold (Spec.date_cell c).
    assert (Forall (fun c' => Spec.date_cell c' = true ->
                      Duplicator.parse_launch_date (Duplicator.cv_text c')
                      = Ok None) [c] ->
            Duplicator.find_launch_date None cells = Ok r ->
            Spec.first_launch_date (c :: cells) r) as Lift.
    { intros Fc _. destruct r as [d|]; cbn in S |- *.
      - destruct S as (pre & c0 & post & -> & Dc & Pc & Fp).
        exists (c :: pre), c0, post. repeat split; try assumption.
        apply Forall_cons_iff. split; [|assumption].
        now apply Forall_cons_iff in Fc as [Fc _].
      - apply Forall_cons_iff. split; [|assumption].
        now apply Forall_cons_iff in Fc as [Fc _]. }
    destruct (Spec.date_cell c) eqn:Dc.
    + destruct (Hc eq_refl) as ([d|] & P); rewrite P; cbn [bind].
      * exists (Some d). split; [reflexivity|].
        exists [], c, cells. repeat split; try assumption. constructor.
      * exists r. split; [assumption|].
        apply Lift; [|assumption]. constructor; [auto|constructor].
    + exists r. split; [assumption|].
      apply Lift; [|assumption]. constructor; [congruence|constructor].
Qed.

Lemma find_launch_date_none cells :
  Spec.first_launch_date cells None ->
  Duplicator.find_launch_date None cells = Ok None.
Proof.
  cbn. induction cells as [|c cells IH]; intros F; [reflexivity|].
  apply Forall_cons_iff in F as [Hc F]. cbn [Duplicator.find_launch_date].
  fold (Spec.date_cell c). destruct (Spec.date_cell c).
  - rewrite (Hc eq_refl). cbn [bind]. now apply IH.
  - now apply IH.
Qed.

(** ** The platform column *)

(** X17.  The platform column of a board is the first column whose title says
    "platform", case ignored. *)
Lemma find_platform_col_first columns :
  match Duplicator.find_platform_col columns with
  | Some col =>
      exists pre post,
        columns = (pre ++ col :: post)%list
        /\ Spec.ci_contains "platform" (Duplicator.col_title col)
        /\ Forall (fun c =>
                     ~ Spec.ci_contains "platform" (Duplicator.col_title c))
                  pre
  | None =>
      Forall (fun c => ~ Spec.ci_contains "platform" (Duplicator.col_title c))
             columns
  end.
Proof.
  induction columns as [|c columns IH]; cbn [Duplicator.find_platform_col];
    [constructor|].
  destruct (Str.contains "platform" (Str.lower (Duplicator.col_title c))) eqn:E.
  - exists [], columns. repeat split; [now apply ci_contains_iff|constructor].
  - apply ci_contains_false in E.
    destruct (Duplicator.find_platform_col columns) as [col|].
    + destruct IH as (pre & post & -> & H & F).
      exists (c :: pre), post. repeat split; [assumption|now constructor].
    + now constructor.
Qed.

(** ** The cells that are copied *)

(** With a platform column on the master board the loop over the cells
    raises nothing. *)
Lemma extract_with_platform_col mc cells : forall column_values platform_value,
  exists ex,
    Duplicator.extract_column_values (Some mc) cells column_values
      platform_value = Ok ex.
Proof.
  induction cells as [|c cells IH]; intros cv pv;
    cbn [Duplicator.extract_column_values]; [now eexists|].
  destruct (Str.truthy _ && Str.truthy _); [destruct (negb _)|]; apply IH.
Qed.

(** Without one it raises [TypeError] at the first cell that has an id
    and a text. *)
Lemma extract_without_platform_col cells : forall column_values platform_value,
  Exists (fun c =>
            Str.truthy (Duplicator.cv_text c)
            && Str.truthy (Duplicator.cv_id c) = true) cells ->
  Duplicator.extract_column_values None cells column_values platform_value
  = Raise TypeError.
Proof.
  induction cells as [|c cells IH]; intros cv pv E;
    [inversion E|]. cbn [Duplicator.extract_column_values].
  destruct (Str.truthy _ && Str.truthy _) eqn:T; [reflexivity|].
  apply Exists_cons in E as [E|E]; [congruence|now apply IH].
Qed.

(** A destination board without a platform column leaves the copied
    cells as they are. *)
Lemma add_platform_without_col column_values platform_value :
  Duplicator.add_platform None column_values platform_value = column_values.
Proof. unfold Duplicator.add_platform. now destruct platform_value. Qed.

Lemma process_item_run board mpc ppc gm cfgs it r gid ex ld :
  find_group gm (Duplicator.target_group_name (Duplicator.item_group_title it))
    = Some gid ->
  Duplicator.extract_column_values mpc (Duplicator.item_column_values it)
    [] None = Ok ex ->
  Duplicator.find_launch_date None (Duplicator.item_column_values it) = Ok ld ->
  Duplicator.process_item board mpc ppc gm cfgs it r
  = Duplicator.create_subitems (next_id (svc r)) ld cfgs
      (Spec.after_item r
         (mk_item_request board (Some gid) (Duplicator.item_name it)
            (Duplicator.add_platform ppc (fst ex) (snd ex)))).
Proof.
  intros G E L. unfold Duplicator.process_item, Duplicator.group_id.
  rewrite G, E. unfold Duplicator.add_subitems. rewrite L. reflexivity.
Qed.

(** C6, as amended.  In the duplication of the master board, take an
    item whose target group has an id in the group mapping, whose cells
    are copied without an exception, and for each of whose cells with
    "launch" or "date" in its id [parse_launch_date] answers [None]: the
    item is created, and after it one sub-item per entry of the
    configuration, each with the status only.  The copy of the cells
    raises nothing when the master board has a platform column.  The CSV
    generator of [generate_monday_boards.py] does otherwise: a row for
    whose launch date [parse_launch_date] answers [None] adds nothing to
    the output. *)
Theorem record_without_launch_date :
  (forall board mpc ppc gm cfgs it r gid ex,
     find_group gm
       (Duplicator.target_group_name (Duplicator.item_group_title it))
       = Some gid ->
     Duplicator.extract_column_values mpc (Duplicator.item_column_values it)
       [] None = Ok ex ->
     Spec.first_launch_date (Duplicator.item_column_values it) None ->
     let req :=
       mk_item_request board (Some gid) (Duplicator.item_name it)
         (Duplicator.add_platform ppc (fst ex) (snd ex)) in
     let tasks := map (Spec.scheduled_task (next_id (svc r)) None) cfgs in
     Duplicator.process_item board mpc ppc gm cfgs it r
     = (Ok tt, Spec.after_subitems (Spec.after_item r req) tasks)
     /\ List.length tasks = List.length cfgs
     /\ Forall (fun t => sr_values t = [("status", "Working on it")]) tasks)
  /\ (forall st subs row rest,
        GenerateMondayBoards.parse_launch_date
          (get row (GenerateMondayBoards.launch_date_column st) "") = Ok None ->
        GenerateMondayBoards.department_rows st subs (row :: rest)
        = GenerateMondayBoards.department_rows st subs rest)
  /\ (forall mc cells,
        exists ex,
          Duplicator.extract_column_values (Some mc) cells [] None = Ok ex).
Proof.
  split; [|split; [|intros mc cells; apply extract_with_platform_col]].
  - intros board mpc ppc gm cfgs it r gid ex G E F req tasks.
    rewrite (process_item_run _ _ _ _ _ _ _ _ _ None G E
               (find_launch_date_none _ F)).
    cbn [Duplicator.create_subitems].
    rewrite create_undated_subitems_run. repeat split.
    + apply length_map.
    + unfold tasks. apply Forall_map. now apply Forall_forall.
  - intros st subs row rest P. cbn [GenerateMondayBoards.department_rows].
    rewrite P. cbn [bind]. now destruct (_ || _).
Qed.

Lemma record_without_launch_date_witness :
  let r := Spec.fresh_run in
  let req :=
    mk_item_request "proddev" (Some 5) "Jacket"
      [("text1", "Blue"); ("launch_date", "tbd")] in
  let tasks := map (Spec.scheduled_task (next_id (svc r)) None)
                 Spec.two_subitems in
  Duplicator.process_item "proddev"
    (Some (Duplicator.mk_column "plat" "Platform")) None
    [("SS26 New Styles", 5)] Spec.two_subitems Spec.jacket_undated r
  = (Ok tt, Spec.after_subitems (Spec.after_item r req) tasks)
  /\ List.length tasks = List.length Spec.two_subitems
  /\ Forall (fun t => sr_values t = [("status", "Working on it")]) tasks.
Proof.
  apply (proj1 record_without_launch_date "proddev"
           (Some (Duplicator.mk_column "plat" "Platform")) None
           [("SS26 New Styles", 5)] Spec.two_subitems Spec.jacket_undated
           Spec.fresh_run 5 ([("text1", "Blue"); ("launch_date", "tbd")], None)).
  - reflexivity.
  - reflexivity.
  - simpl. repeat constructor; intros _; reflexivity.
Defined.

(** C6 as stated fails in the CSV generator: a row with a name and a
    launch date that does not parse gives no row at all, neither for the
    item nor for its tasks. *)
Lemma record_without_launch_date_counterexample :
  get Spec.row_without_date "Item" "" = "Jacket"
  /\ GenerateMondayBoards.parse_launch_date
       (get Spec.row_without_date "Launch Date" "") = Ok None
  /\ GenerateMondayBoards.generate_department_csv [Spec.row_without_date]
       Spec.sample_config "Product Development" = Ok (Some []).
Proof. repeat split. Qed.

(** The loop of [add_subitems_to_monday.py] also passes over a row
    without a launch date before it creates anything. *)
Lemma add_subitems_skips_undated board col row rest r :
  AddSubitems.parse_launch_date (get row "Launch Date" "") = Ok None ->
  AddSubitems.process_rows board col (row :: rest) r
  = AddSubitems.process_rows board col rest r.
Proof.
  intros P. cbn [AddSubitems.process_rows].
  destruct (_ || _); [reflexivity|].
  destruct (negb _); [reflexivity|].
  unfold bindM at 1, lift. now rewrite P.
Qed.

(** C7.  The platform column is looked for on each board by its title,
    case ignored.  When the destination board has none, the platform is
    left out and the item is copied; but when the master board has none,
    the loop over the cells subscripts the missing column at the first
    cell with an id and a text, the [TypeError] ends the work on the
    item, and the item is not copied. *)
Theorem missing_platform_column :
  Duplicator.find_platform_col Spec.columns_with_platform
    = Some (Duplicator.mk_column "text7" "Target Platform")
  /\ Duplicator.find_platform_col Spec.columns_without_platform = None
  /\ (let out :=
        Duplicator.duplicate_master_to_proddev "proddev"
          Spec.columns_with_platform Spec.columns_without_platform
          Spec.two_subitems [Spec.jacket] Spec.fresh_run in
      fst out = Ok tt
      /\ map snd (created_items (svc (snd out)))
         = [mk_item_request "proddev" (Some 2) "Jacket" [("text1", "Blue")]]
      /\ items_created (snd out) = 1)
  /\ (let out :=
        Duplicator.duplicate_master_to_proddev "proddev"
          Spec.columns_without_platform Spec.columns_with_platform
          Spec.two_subitems [Spec.jacket] Spec.fresh_run in
      fst out = Ok tt
      /\ created_items (svc (snd out)) = []
      /\ items_created (snd out) = 0)
  /\ fst (Duplicator.process_item "proddev" None
            (Some (Duplicator.mk_column "text7" "Target Platform"))
            [("SS26 New Styles", 2)] Spec.two_subitems Spec.jacket
            Spec.fresh_run)
     = Raise TypeError.
Proof. repeat split. Qed.

(** C10.  The launch date of a copied item is looked for in the cells
    whose id says "launch" or "date"; but a cell of that kind whose text
    is a serial number beyond 9999-12-31 makes [parse_launch_date] raise
    [OverflowError], which ends the work on the item: the item is there,
    no cell of it is a date, and no sub-item is made. *)
Theorem launch_date_search_overflow :
  Spec.date_cell (Duplicator.mk_column_value "date4" "9999999") = true
  /\ Duplicator.parse_launch_date "9999999" = Raise OverflowError
  /\ Duplicator.find_launch_date None
       (Duplicator.item_column_values Spec.jacket_with_huge_serial)
     = Raise OverflowError
  /\ (let out :=
        Duplicator.duplicate_master_to_proddev "proddev"
          Spec.columns_with_platform Spec.columns_with_platform
          Spec.two_subitems [Spec.jacket_with_huge_serial] Spec.fresh_run in
      fst out = Ok tt
      /\ items_created (snd out) = 1
      /\ created_subitems (svc (snd out)) = []
      /\ subitems_created (snd out) = 0).
Proof. repeat split. Qed.

(** What C10 says holds whenever no cell that is looked at makes
    [parse_launch_date] raise and the due dates are days that [datetime]
    has: the sub-items are scheduled from the first cell whose id says
    "launch" or "date" and whose text is a date, and carry the status
    only when there is no such cell. *)
Lemma add_subitems_schedule parent cells cfgs r :
  Forall (fun c =>
            Spec.date_cell c = true ->
            exists x, Duplicator.parse_launch_date (Duplicator.cv_text c) = Ok x)
         cells ->
  exists launch_date,
    Spec.first_launch_date cells launch_date
    /\ (Spec.due_dates_in_range launch_date cfgs ->
        Duplicator.add_subitems parent cells cfgs r
        = (Ok tt,
           Spec.after_subitems r
             (map (Spec.scheduled_task parent launch_date) cfgs))).
Proof.
  intros F. destruct (find_launch_date_first cells F) as (ld & E & S).
  exists ld. split; [assumption|]. intros R.
  unfold Duplicator.add_subitems, bindM at 1, lift. rewrite E.
  destruct ld as [d|]; cbn [Duplicator.create_subitems].
  - now apply create_dated_subitems_run.
  - apply create_undated_subitems_run.
Qed.

End DuplicationFacts.

(* ================================================================== *)
(** * More on [parse_launch_date]: what it returns and what it raises *)
(* ================================================================== *)

Section ParseOutcomes.
Import Calendar Datetime Strptime.

Lemma some_copy_unfold s r :
  Spec.some_copy s r ->
  exists fmts, Spec.parse_launch_date_with fmts s = r.
Proof.
  destruct (copies_unfold s) as (A & B & C & D & E).
  intros [H|[H|[H|[H|H]]]].
  - exists Spec.formats4. now rewrite <- A.
  - exists Spec.formats4. now rewrite <- B.
  - exists Spec.formats3. now rewrite <- C.
  - exists Spec.formats3. now rewrite <- D.
  - exists Spec.formats3. now rewrite <- E.
Qed.

Lemma try_formats_valid s fmts d : try_formats s fmts = Ok (Some d) -> valid d.
Proof.
  induction fmts as [|fmt rest IH]; cbn; [discriminate|].
  destruct (strptime s fmt) as [dt|e] eqn:E.
  - intros H. injection H as <-. exact (strptime_ok _ _ _ E).
  - rewrite (strptime_raises _ _ _ E). exact IH.
Qed.

(** A date that [parse_launch_date] returns went through the
    constructor of [datetime]. *)
Lemma parse_with_valid fmts s d :
  Spec.parse_launch_date_with fmts s = Ok (Some d) -> valid d.
Proof.
  destruct (Str.isdigit s) eqn:D.
  - rewrite (parse_digits fmts s D).
    destruct (Str.int s) as [n|e] eqn:E; [|apply try_formats_valid].
    destruct (int_inv _ _ E) as (Hd & Hv & _).
    pose proof (decimal_value_lower 0 _ ltac:(lia) Hd) as Hn. rewrite <- Hv in Hn.
    destruct (Z_le_gt_dec n Spec.max_serial) as [L|G].
    + destruct (serial_in_range n (conj Hn L)) as (r & -> & V & _).
      cbn. intros H. now injection H as <-.
    + now rewrite (serial_out_of_range n ltac:(lia)).
  - rewrite (parse_not_digits fmts s D).
    destruct (negb _ || _); [discriminate|apply try_formats_valid].
Qed.

(** X2.  The only exception that leaves a copy of [parse_launch_date] is the
    [OverflowError] of a serial number beyond 9999-12-31: the string
    is made of digits and denotes a number above 2958465. *)
Theorem parse_launch_date_raises s e :
  Spec.some_copy s (Raise e) ->
  e = OverflowError
  /\ Str.isdigit s = true
  /\ exists n, Str.int s = Ok n /\ Spec.max_serial < n.
Proof.
  intros H. destruct (some_copy_unfold _ _ H) as (fmts & E).
  destruct (parse_launch_date_outcomes fmts s) as [(r & R)|(R & D & N)].
  - rewrite R in E. discriminate.
  - rewrite R in E. injection E as <-. auto.
Qed.

Lemma parse_launch_date_raises_witness :
  OverflowError = OverflowError
  /\ Str.isdigit "2958466" = true
  /\ exists n, Str.int "2958466" = Ok n /\ Spec.max_serial < n.
Proof.
  apply (parse_launch_date_raises "2958466").
  left. reflexivity.
Defined.

(** ** Blanks around a date *)

Lemma rstrip_idem s : Str.rstrip (Str.rstrip s) = Str.rstrip s.
Proof.
  induction s as [|c t IH]; cbn [Str.rstrip]; [reflexivity|].
  destruct (Str.rstrip t) as [|c' t'] eqn:R.
  - destruct (Str.isspace_char c) eqn:S; cbn [Str.rstrip]; [reflexivity|].
    now rewrite S.
  - cbn [Str.rstrip]. cbn [Str.rstrip] in IH.
    destruct (Str.rstrip t') as [|c'' t''] eqn:R'.
    + destruct (Str.isspace_char c'); [discriminate|].
      now injection IH as <-.
    + now rewrite IH.
Qed.

Lemma lstrip_head s :
  match Str.lstrip s with
  | EmptyString => True
  | String c _ => Str.isspace_char c = false
  end.
Proof.
  induction s as [|c t IH]; cbn; [exact I|].
  destruct (Str.isspace_char c) eqn:S; [exact IH|exact S].
Qed.

Lemma rstrip_head c t :
  Str.isspace_char c = false -> exists t', Str.rstrip (String c t) = String c t'.
Proof.
  intros S. cbn [Str.rstrip]. destruct (Str.rstrip t) as [|c' t'].
  - rewrite S. now exists EmptyString.
  - now exists (String c' t').
Qed.

Lemma strip_idem s : Str.strip (Str.strip s) = Str.strip s.
Proof.
  unfold Str.strip. pose proof (lstrip_head s) as H.
  destruct (Str.lstrip s) as [|c t]; [reflexivity|].
  destruct (rstrip_head c t H) as (t' & E). rewrite E.
  cbn [Str.lstrip]. rewrite H, <- E. apply rstrip_idem.
Qed.

Lemma parse_with_stripped fmts s :
  Str.isdigit (Str.strip s) = false ->
  Spec.parse_launch_date_with fmts s
  = Spec.parse_launch_date_with fmts (Str.strip s).
Proof.
  intros N.
  assert (Str.isdigit s = false) as D.
  { destruct (Str.isdigit s) eqn:D; [|reflexivity].
    now rewrite (strip_digits s (isdigit_all s D)), D in N. }
  rewrite (parse_not_digits _ _ D), (parse_not_digits _ _ N), strip_idem.
  destruct (String.eqb_spec (Str.strip s) "") as [E|E].
  - rewrite E, orb_true_r. reflexivity.
  - rewrite (strip_empty_truthy s E).
    destruct (Str.strip s); [now contradiction E|reflexivity].
Qed.

(** X3.  Blanks before and after a date do not count: unless what is left
    without them is a run of digits, every copy of [parse_launch_date]
    answers for a string what it answers for the string stripped. *)
Theorem parse_launch_date_ignores_blanks s :
  Str.isdigit (Str.strip s) = false -> Spec.copies_agree s (Str.strip s).
Proof.
  intros N. pose proof (parse_with_stripped Spec.formats3 s N) as A3.
  pose proof (parse_with_stripped Spec.formats4 s N) as A4.
  destruct (copies_unfold s) as (A & B & C & D & E).
  destruct (copies_unfold (Str.strip s)) as (A' & B' & C' & D' & E').
  unfold Spec.copies_agree.
  rewrite A, B, C, D, E, A', B', C', D', E'. auto.
Qed.

Lemma parse_launch_date_ignores_blanks_witness :
  Spec.copies_agree "  2025-12-01 " (Str.strip "  2025-12-01 ").
Proof.
  apply (parse_launch_date_ignores_blanks "  2025-12-01 ").
  reflexivity.
Defined.

End ParseOutcomes.

(* ================================================================== *)
(** * The file of a department *)
(* ================================================================== *)

Lemma lower_replace_char c :
  Str.lower_char (if Ascii.eqb c " " then "_"%char else c)
  = if Ascii.eqb (Str.lower_char c) " " then "_"%char else Str.lower_char c.
Proof. destruct c as [[] [] [] [] [] [] [] []]; vm_compute; reflexivity. Qed.

Lemma lower_replace s :
  Str.lower (Str.replace s " " "_") = Str.replace (Str.lower s) " " "_".
Proof.
  induction s as [|c t IH]; cbn; [reflexivity|].
  now rewrite lower_replace_char, IH.
Qed.

(** X5.  The file that [monday_subitem_manager.py] opens for a department has
    the name of the file that [generate_monday_boards.py] writes for it:
    lowering the name and putting underscores for its spaces give the
    same in either order. *)
Theorem board_file_names_agree dept_name :
  SubitemManager.csv_file dept_name = GenerateMondayBoards.output_file dept_name.
Proof.
  unfold SubitemManager.csv_file, GenerateMondayBoards.output_file.
  now rewrite lower_replace.
Qed.

(* ================================================================== *)
(** * Writing the rows to a CSV file *)
(* ================================================================== *)

Section CsvFacts.
Import Calendar Datetime Board.

Lemma dict_to_list_fits names row :
  Spec.fits names row = true ->
  Csv._dict_to_list names row = Ok (Spec.record names row).
Proof. unfold Csv._dict_to_list, Spec.fits. now intros ->. Qed.

Lemma dict_to_list_misfit names row :
  Spec.fits names row = false -> Csv._dict_to_list names row = Raise ValueError.
Proof. unfold Csv._dict_to_list, Spec.fits. now intros ->. Qed.

Lemma writerows_fit names rows : forall f,
  Forall (fun row => Spec.fits names row = true) rows ->
  Csv.writerows names rows f
  = (Ok tt, (f ++ map (Spec.record names) rows)%list).
Proof.
  induction rows as [|row rows IH]; intros f F; cbn [Csv.writerows map].
  - now rewrite app_nil_r.
  - apply Forall_cons_iff in F as [Hr F].
    rewrite (dict_to_list_fits _ _ Hr), (IH _ F), <- app_assoc. reflexivity.
Qed.

Lemma writerows_misfit names pre bad post : forall f,
  Forall (fun row => Spec.fits names row = true) pre ->
  Spec.fits names bad = false ->
  Csv.writerows names (pre ++ bad :: post) f
  = (Raise ValueError, (f ++ map (Spec.record names) pre)%list).
Proof.
  induction pre as [|row pre IH]; intros f F B; cbn [Csv.writerows map app].
  - now rewrite (dict_to_list_misfit _ _ B), app_nil_r.
  - apply Forall_cons_iff in F as [Hr F].
    rewrite (dict_to_list_fits _ _ Hr), (IH _ F B), <- app_assoc. reflexivity.
Qed.

(** X6.  [write_csv] takes the keys of the first row as the field names.
    When every key of every row is among them, the file gets the header
    and one record per row, in the order of the rows, each with one field
    per field name.  Otherwise the first row with a key of its own makes
    [writerows] raise [ValueError], and the file is left with the header
    and the records of the rows before that one. *)
Theorem write_csv_outcome first rest :
  let names := Csv.keys first in
  (Forall (fun row => Spec.fits names row = true) (first :: rest) ->
   GenerateMondayBoards.write_csv (first :: rest)
   = (Ok tt, Some (names :: map (Spec.record names) (first :: rest))))
  /\ (forall pre bad post,
        first :: rest = (pre ++ bad :: post)%list ->
        Forall (fun row => Spec.fits names row = true) pre ->
        Spec.fits names bad = false ->
        GenerateMondayBoards.write_csv (first :: rest)
        = (Raise ValueError, Some (names :: map (Spec.record names) pre))).
Proof.
  intros names. unfold GenerateMondayBoards.write_csv. fold names. split.
  - intros F. now rewrite (writerows_fit _ _ _ F).
  - intros pre bad post E F B. rewrite E.
    now rewrite (writerows_misfit _ _ _ _ _ F B).
Qed.

Lemma write_csv_outcome_witness :
  GenerateMondayBoards.write_csv
    [[("Item", "Jacket"); ("Type", "Main Item")];
     [("Type", "Main Item"); ("Item", "Coat")];
     [("Item", "Hat")]]
  = (Ok tt, Some [["Item"; "Type"]; ["Jacket"; "Main Item"];
                  ["Coat"; "Main Item"]; ["Hat"; ""]])
  /\ GenerateMondayBoards.write_csv
       [[("Item", "Jacket"); ("Type", "Main Item")];
        [("Item", "  Fit"); ("Due Date", "2025-01-06"); ("Type", "Sub Item")];
        [("Item", "Coat"); ("Type", "Main Item")]]
     = (Raise ValueError, Some [["Item"; "Type"]; ["Jacket"; "Main Item"]]).
Proof.
  split.
  - apply (proj1 (write_csv_outcome
                    [("Item", "Jacket"); ("Type", "Main Item")]
                    [[("Type", "Main Item"); ("Item", "Coat")];
                     [("Item", "Hat")]])).
    repeat constructor.
  - apply (proj2 (write_csv_outcome
                    [("Item", "Jacket"); ("Type", "Main Item")]
                    [[("Item", "  Fit"); ("Due Date", "2025-01-06");
                      ("Type", "Sub Item")];
                     [("Item", "Coat"); ("Type", "Main Item")]])
             [[("Item", "Jacket"); ("Type", "Main Item")]]
             [("Item", "  Fit"); ("Due Date", "2025-01-06");
              ("Type", "Sub Item")]
             [[("Item", "Coat"); ("Type", "Main Item")]]).
    + reflexivity.
    + repeat constructor.
    + reflexivity.
Defined.

(** ** The rows of [generate_department_csv] *)

(** The rows begin with the row of a main item, and with sub-items in
    the configuration the row of a sub-item comes next. *)
Lemma department_rows_head st si subs master first more :
  GenerateMondayBoards.department_rows st (si :: subs) master
    = Ok (first :: more) ->
  exists row d due more',
    first = GenerateMondayBoards.main_item_row st row d
    /\ more = GenerateMondayBoards.sub_item_row si due :: more'.
Proof.
  induction master as [|row master IH]; cbn [GenerateMondayBoards.department_rows];
    [discriminate|].
  destruct (_ || _); [exact IH|].
  destruct (GenerateMondayBoards.parse_launch_date _) as [[d|]|e];
    cbn [bind]; [|exact IH|discriminate].
  cbn [GenerateMondayBoards.sub_item_rows].
  destruct (GenerateMondayBoards.calculate_due_date _ _) as [due|e];
    cbn [bind]; [|discriminate].
  destruct (GenerateMondayBoards.sub_item_rows d subs) as [srs|e];
    cbn [bind]; [|discriminate].
  destruct (GenerateMondayBoards.department_rows st (si :: subs) master)
    as [rest|e]; cbn [bind]; [|discriminate].
  intros H. injection H as <- <-.
  now exists row, d, due, (srs ++ rest)%list.
Qed.

(** X7.  [generate_monday_boards.py] cannot write the rows of a department
    with sub-items: the first row of [generate_department_csv] is the row
    of a main item, which has neither a [Due Date] nor a [Description],
    and the row of its first sub-item has both.  [write_csv] raises
    [ValueError] at that row, and the file holds the header and the first
    main item. *)
Theorem write_csv_refuses_sub_items master cfg dept_name si subs first more :
  GenerateMondayBoards.find_department
    (GenerateMondayBoards.departments cfg) dept_name = Some (si :: subs) ->
  GenerateMondayBoards.generate_department_csv master cfg dept_name
    = Ok (Some (first :: more)) ->
  GenerateMondayBoards.generate_board master cfg dept_name
  = (Raise ValueError, Some [Spec.main_item_keys; map snd first]).
Proof.
  intros D G. unfold GenerateMondayBoards.generate_board. rewrite G.
  unfold GenerateMondayBoards.generate_department_csv in G. rewrite D in G.
  destruct (GenerateMondayBoards.department_rows _ _ _) as [rows|e] eqn:R;
    cbn [bind] in G; [|discriminate].
  injection G as ->.
  destruct (department_rows_head _ _ _ _ _ _ R) as (row & d & due & more' & -> & ->).
  reflexivity.
Qed.

Lemma write_csv_refuses_sub_items_witness :
  GenerateMondayBoards.generate_board
    [[("Item", "Jacket"); ("Launch Date", "46062")]]
    Spec.sample_config "Product Development"
  = (Raise ValueError,
     Some [Spec.main_item_keys;
           map snd
             [("Item", "Jacket"); ("Style Name", ""); ("Color Name", "");
              ("Priority", ""); ("Status", ""); ("Platform", "");
              ("Launch Date", "2026-02-09"); ("Type", "Main Item")]]).
Proof.
  eapply (write_csv_refuses_sub_items
            [[("Item", "Jacket"); ("Launch Date", "46062")]]
            Spec.sample_config "Product Development"
            (GenerateMondayBoards.mk_sub_item "Fabric Approved" 40 None)
            [GenerateMondayBoards.mk_sub_item "Production Approved" 12 None]).
  - reflexivity.
  - vm_compute. reflexivity.
Defined.

End CsvFacts.

(* ================================================================== *)
(** * The two scripts that build the product development sheet *)
(* ================================================================== *)

Section ProductDevFacts.
Import Calendar Datetime Board.

(** ** What the steps can raise *)

Lemma timedelta_raises n e : timedelta n = Raise e -> e = OverflowError.
Proof. unfold timedelta. destruct (_ <? _); congruence. Qed.

Lemma add_raises self k e :
  valid self -> add self k = Raise e -> e = OverflowError.
Proof.
  intros V E.
  destruct (Z_le_gt_dec 1 (toordinal self + k)) as [L|G];
    [destruct (Z_le_gt_dec (toordinal self + k) _MAXORDINAL) as [U|G]|].
  - destruct (add_in_range self k V (conj L U)) as (r & R & _). congruence.
  - rewrite (add_out_of_range self k) in E by lia. congruence.
  - rewrite (add_out_of_range self k) in E by lia. congruence.
Qed.

Lemma add_valid self k r : valid self -> add self k = Ok r -> valid r.
Proof.
  intros V E.
  destruct (Z_le_gt_dec 1 (toordinal self + k)) as [L|G];
    [destruct (Z_le_gt_dec (toordinal self + k) _MAXORDINAL) as [U|G]|].
  - destruct (add_in_range self k V (conj L U)) as (r' & R & V' & _). congruence.
  - rewrite (add_out_of_range self k) in E by lia. discriminate.
  - rewrite (add_out_of_range self k) in E by lia. discriminate.
Qed.

Lemma sub_raises self k e :
  valid self -> sub self k = Raise e -> e = OverflowError.
Proof.
  intros V. unfold sub. destruct (timedelta (- k)) as [n|e'] eqn:T; cbn [bind].
  - apply add_raises, V.
  - intros H. injection H as <-. exact (timedelta_raises _ _ T).
Qed.

Lemma due_date_raises d w e :
  valid d ->
  GenerateProductDev.calculate_due_date (Some d) w = Raise e ->
  e = OverflowError.
Proof.
  intros V. unfold GenerateProductDev.calculate_due_date, timedelta_weeks.
  destruct (timedelta (w * 7)) as [n|e'] eqn:T; cbn [bind].
  - destruct (sub d n) as [r|e'] eqn:S; cbn [bind]; [discriminate|].
    intros H. injection H as <-. exact (sub_raises _ _ _ V S).
  - intros H. injection H as <-. exact (timedelta_raises _ _ T).
Qed.

Lemma product_dev_parse s :
  GenerateProductDev.parse_launch_date s
  = Spec.parse_launch_date_with Spec.formats3 s.
Proof. now destruct (copies_unfold s) as (_ & _ & _ & D & _). Qed.

Lemma sub_item_rows_raises d subs e :
  valid d ->
  GenerateProductDev.sub_item_rows d subs = Raise e -> e = OverflowError.
Proof.
  intros V. induction subs as [|[name w] subs IH];
    cbn [GenerateProductDev.sub_item_rows]; [discriminate|].
  destruct (GenerateProductDev.calculate_due_date (Some d) w) as [due|e'] eqn:C;
    cbn [bind].
  - destruct (GenerateProductDev.sub_item_rows d subs) as [rs|e']; cbn [bind];
      [discriminate|].
    intros H. injection H as <-. now apply IH.
  - intros H. injection H as <-. exact (due_date_raises _ _ _ V C).
Qed.

Lemma csv_data_raises master e :
  GenerateProductDev.csv_data master = Raise e -> e = OverflowError.
Proof.
  induction master as [|row master IH]; cbn [GenerateProductDev.csv_data];
    [discriminate|].
  destruct (negb _); [exact IH|].
  destruct (GenerateProductDev.parse_launch_date _) as [[d|]|e'] eqn:P;
    cbn [bind]; [|exact IH|].
  - rewrite product_dev_parse in P. pose proof (parse_with_valid _ _ _ P) as V.
    destruct (GenerateProductDev.sub_item_rows d _) as [srs|e'] eqn:S;
      cbn [bind].
    + destruct (GenerateProductDev.csv_data master) as [rest|e']; cbn [bind];
        [discriminate|].
      intros H. injection H as <-. now apply IH.
    + intros H. injection H as <-. exact (sub_item_rows_raises _ _ _ V S).
  - intros H. injection H as <-. rewrite product_dev_parse in P.
    destruct (parse_launch_date_outcomes Spec.formats3
                (get row "Launch Date" "")) as [(r & R)|(R & _)];
      congruence.
Qed.

Lemma sub_item_rows_head d name w subs rows :
  GenerateProductDev.sub_item_rows d ((name, w) :: subs) = Ok rows ->
  exists due rest, rows = GenerateProductDev.sub_item_row name due :: rest.
Proof.
  cbn [GenerateProductDev.sub_item_rows].
  destruct (GenerateProductDev.calculate_due_date _ _) as [due|e];
    cbn [bind]; [|discriminate].
  destruct (GenerateProductDev.sub_item_rows d subs) as [rest|e];
    cbn [bind]; [|discriminate].
  intros H. injection H as <-. now exists due, rest.
Qed.

Lemma csv_data_head master first more :
  GenerateProductDev.csv_data master = Ok (first :: more) ->
  exists row d due more',
    first = GenerateProductDev.main_item_row row d
    /\ more = GenerateProductDev.sub_item_row "Fabric Approved" due :: more'.
Proof.
  induction master as [|row master IH]; cbn [GenerateProductDev.csv_data];
    [discriminate|].
  destruct (negb _); [exact IH|].
  destruct (GenerateProductDev.parse_launch_date _) as [[d|]|e];
    cbn [bind]; [|exact IH|discriminate].
  destruct (GenerateProductDev.sub_item_rows d _) as [srs|e] eqn:S;
    cbn [bind]; [|discriminate].
  destruct (sub_item_rows_head d "Fabric Approved" 40 _ _ S) as (due & rs & ->).
  destruct (GenerateProductDev.csv_data master) as [rest|e]; cbn [bind];
    [|discriminate].
  intros H. injection H as <- <-.
  now exists row, d, due, (rs ++ rest)%list.
Qed.

(** X9.  [generate_product_dev.py] never leaves a finished sheet with an
    item in it.  Either no row of the master sheet has an item and a
    launch date, and nothing is written; or a launch date or a due date
    is out of the range of [datetime], and the script ends with
    [OverflowError] before the file is opened; or the rows are built, and
    then the write raises [ValueError] at the first sub-item, whose
    [Due Date] is no key of the first row, leaving the header and the
    first main item in the file. *)
Theorem generate_product_dev_outcomes master :
  (GenerateProductDev.csv_data master = Ok []
   /\ GenerateProductDev.script master = (Ok tt, None))
  \/ (GenerateProductDev.csv_data master = Raise OverflowError
      /\ GenerateProductDev.script master = (Raise OverflowError, None))
  \/ (exists first more,
        GenerateProductDev.csv_data master = Ok (first :: more)
        /\ GenerateProductDev.script master
           = (Raise ValueError, Some [Spec.main_item_keys; map snd first])).
Proof.
  unfold GenerateProductDev.script.
  destruct (GenerateProductDev.csv_data master) as [[|first more]|e] eqn:E.
  - now left.
  - right; right. exists first, more. split; [reflexivity|].
    destruct (csv_data_head _ _ _ E) as (row & d & due & more' & -> & ->).
    reflexivity.
  - right; left. now rewrite (csv_data_raises _ _ E).
Qed.

(** ** [create_product_dev_csv.py] *)

Lemma create_sub_item_rows_head d name w subs rows :
  CreateProductDevCsv.sub_item_rows d ((name, w) :: subs) = Ok rows ->
  exists due rest, rows = CreateProductDevCsv.sub_item_row name due :: rest.
Proof.
  cbn [CreateProductDevCsv.sub_item_rows].
  destruct (CreateProductDevCsv.calculate_due_date _ _) as [due|e];
    cbn [bind]; [|discriminate].
  destruct (CreateProductDevCsv.sub_item_rows d subs) as [rest|e];
    cbn [bind]; [|discriminate].
  intros H. injection H as <-. now exists due, rest.
Qed.

Ltac bind_ok H :=
  repeat match type of H with
         | bind ?m _ = Ok _ =>
             let E := fresh "E" in
             destruct m eqn:E; cbn [bind] in H; [|discriminate H]
         end.

Lemma output_rows_head rs first more :
  CreateProductDevCsv.output_rows rs = Ok (first :: more) ->
  exists due more',
    Csv.keys first = Spec.main_item_keys
    /\ more = CreateProductDevCsv.sub_item_row "Fabric Approved" due :: more'.
Proof.
  destruct rs as [|row rs]; cbn [CreateProductDevCsv.output_rows];
    [discriminate|].
  intros H. bind_ok H. injection H as <- <-.
  match goal with
  | S : CreateProductDevCsv.sub_item_rows _ _ = Ok _ |- _ =>
      destruct (create_sub_item_rows_head _ "Fabric Approved" 40 _ _ S)
        as (due & rest & ->)
  end.
  now eexists due, _.
Qed.

(** X10.  [create_product_dev_csv.py] never leaves a finished sheet with an item
    in it either.  With no row to write, the file is opened and left
    empty; an exception while the rows are built ends the script before
    the file is opened; and when rows are built, the write raises
    [ValueError] at the first sub-item and leaves the header and the first
    main item in the file. *)
Theorem create_product_dev_csv_outcomes reader :
  let built :=
    kept <- CreateProductDevCsv.rows reader ;;
    CreateProductDevCsv.output_rows kept in
  (built = Ok [] /\ CreateProductDevCsv.script reader = (Ok tt, Some []))
  \/ (exists e,
        built = Raise e /\ CreateProductDevCsv.script reader = (Raise e, None))
  \/ (exists first more,
        built = Ok (first :: more)
        /\ CreateProductDevCsv.script reader
           = (Raise ValueError, Some [Spec.main_item_keys; map snd first])).
Proof.
  intros built. unfold CreateProductDevCsv.script. fold built.
  destruct built as [[|first more]|e] eqn:E.
  - now left.
  - right; right. exists first, more. split; [reflexivity|].
    unfold built in E.
    destruct (CreateProductDevCsv.rows reader) as [kept|e]; cbn [bind] in E;
      [|discriminate].
    destruct (output_rows_head _ _ _ E) as (due & more' & K & ->).
    unfold CreateProductDevCsv.write. rewrite K.
    cbn [Csv.writerows Csv.writeheader app].
    assert (Csv._dict_to_list Spec.main_item_keys first = Ok (map snd first))
      as ->.
    { destruct first as [|[k1 v1] [|[k2 v2] [|[k3 v3] [|[k4 v4] [|[k5 v5]
        [|[k6 v6] [|[k7 v7] [|[k8 v8] [|]]]]]]]]]; try discriminate K.
      cbn in K. injection K as -> -> -> -> -> -> -> ->. reflexivity. }
    reflexivity.
  - right; left. now exists e.
Qed.

(** ** The two scripts build the same rows *)

Lemma getitem_has row key :
  has_key row key = true ->
  CreateProductDevCsv.getitem row key = Ok (get row key "").
Proof. unfold CreateProductDevCsv.getitem. now intros ->. Qed.

Lemma has_master_columns_inv row :
  Spec.has_master_columns row = true ->
  has_key row "Item" = true /\ has_key row "Launch Date" = true
  /\ has_key row "Style Name" = true /\ has_key row "Color Name" = true
  /\ has_key row "Priority" = true /\ has_key row "Exec Status" = true
  /\ has_key row "Platform" = true.
Proof.
  unfold Spec.has_master_columns. cbn [forallb]. rewrite !andb_true_iff. tauto.
Qed.

(** The rows that the reading loop keeps. *)
Lemma rows_kept reader :
  Forall (fun row => Spec.has_master_columns row = true) reader ->
  CreateProductDevCsv.rows reader
  = Ok (filter (fun row =>
                  Str.truthy (get row "Item" "")
                  && (Str.truthy (get row "Launch Date" "")
                      && Str.isdigit (get row "Launch Date" ""))) reader).
Proof.
  induction reader as [|row reader IH]; intros F; [reflexivity|].
  apply Forall_cons_iff in F as [Hr F].
  destruct (has_master_columns_inv _ Hr) as (HI & HL & _).
  cbn [CreateProductDevCsv.rows filter].
  rewrite (getitem_has _ _ HI), (getitem_has _ _ HL), (IH F). cbn [bind].
  destruct (Str.truthy (get row "Item" "")); reflexivity.
Qed.

Lemma sub_item_rows_agree d subs :
  CreateProductDevCsv.sub_item_rows d subs
  = GenerateProductDev.sub_item_rows d subs.
Proof.
  induction subs as [|[name w] subs IH];
    cbn [CreateProductDevCsv.sub_item_rows GenerateProductDev.sub_item_rows];
    [reflexivity|].
  unfold CreateProductDevCsv.calculate_due_date,
    GenerateProductDev.calculate_due_date.
  destruct (timedelta_weeks w) as [n|e]; cbn [bind]; [|reflexivity].
  destruct (sub d n) as [due|e]; cbn [bind]; [|reflexivity].
  rewrite IH. unfold GenerateProductDev.sub_item_row.
  now rewrite strftime_Ymd_truthy.
Qed.

Lemma blank_not_digits s : Str.strip s = "" -> Str.isdigit s = false.
Proof.
  intros B. destruct (Str.isdigit s) eqn:D; [|reflexivity].
  rewrite (strip_digits s (isdigit_all s D)) in B. now rewrite B in D.
Qed.

Lemma output_rows_agree reader :
  Forall (fun row =>
            Spec.has_master_columns row = true
            /\ Spec.blank_or_serial (get row "Launch Date" "") = true) reader ->
  CreateProductDevCsv.output_rows
    (filter (fun row =>
               Str.truthy (get row "Item" "")
               && (Str.truthy (get row "Launch Date" "")
                   && Str.isdigit (get row "Launch Date" ""))) reader)
  = GenerateProductDev.csv_data reader.
Proof.
  induction reader as [|row reader IH]; intros F; [reflexivity|].
  apply Forall_cons_iff in F as [[Hr Hs] F]. specialize (IH F).
  destruct (has_master_columns_inv _ Hr) as (HI & HL & HS & HC & HP & HE & HF).
  cbn [filter GenerateProductDev.csv_data].
  destruct (Str.truthy (get row "Item" "")); cbn [andb negb]; [|exact IH].
  rewrite product_dev_parse.
  unfold Spec.blank_or_serial in Hs. apply orb_prop in Hs as [B|S].
  - apply String.eqb_eq in B.
    rewrite (blank_not_digits _ B), andb_false_r.
    now rewrite (parse_launch_date_blank _ _ B).
  - apply andb_prop in S as [D S].
    destruct (Str.int (get row "Launch Date" "")) as [n|e] eqn:N;
      [clear S|discriminate].
    rewrite D, (isdigit_truthy _ D). cbn [andb].
    rewrite (parse_digits _ _ D), N.
    cbn [CreateProductDevCsv.output_rows].
    rewrite (getitem_has _ _ HL). cbn [bind]. rewrite N. cbn [bind].
    change (CreateProductDevCsv.excel_to_date n)
      with (days <- timedelta n ;; add Spec.excel_epoch days).
    destruct (days <- timedelta n ;; add Spec.excel_epoch days) as [d|e];
      cbn [bind]; [|reflexivity].
    rewrite (getitem_has _ _ HI), (getitem_has _ _ HS), (getitem_has _ _ HC),
      (getitem_has _ _ HP), (getitem_has _ _ HE), (getitem_has _ _ HF).
    cbn [bind]. rewrite sub_item_rows_agree, IH. reflexivity.
Qed.

(** X11.  On a master sheet that has the columns of the product development
    sheet, and whose launch dates are each blank or a serial number that
    [int] reads, [create_product_dev_csv.py] and [generate_product_dev.py]
    build the same rows, and fail alike when a serial number is beyond
    9999-12-31. *)
Theorem product_dev_scripts_agree reader :
  Forall (fun row =>
            Spec.has_master_columns row = true
            /\ Spec.blank_or_serial (get row "Launch Date" "") = true) reader ->
  (kept <- CreateProductDevCsv.rows reader ;;
   CreateProductDevCsv.output_rows kept)
  = GenerateProductDev.csv_data reader.
Proof.
  intros F. rewrite rows_kept.
  - cbn [bind]. now apply output_rows_agree.
  - revert F. apply Forall_impl. now intros row [H _].
Qed.

Lemma product_dev_scripts_agree_witness :
  let reader :=
    [[("Item", "Jacket"); ("Style Name", "J1"); ("Color Name", "Blue");
      ("Priority", "High"); ("Exec Status", "Go"); ("Platform", "Web");
      ("Launch Date", "46062")];
     [("Item", "Coat"); ("Style Name", "C1"); ("Color Name", "Red");
      ("Priority", ""); ("Exec Status", ""); ("Platform", "");
      ("Launch Date", " ")]] in
  (kept <- CreateProductDevCsv.rows reader ;;
   CreateProductDevCsv.output_rows kept)
  = GenerateProductDev.csv_data reader.
Proof.
  intros reader. apply (product_dev_scripts_agree reader).
  repeat constructor.
Defined.

End ProductDevFacts.

(* ================================================================== *)
(** * The rows of a department *)
(* ================================================================== *)

Section GeneratorFacts.
Import Calendar Datetime Board.

Lemma generator_parse s :
  GenerateMondayBoards.parse_launch_date s
  = Spec.parse_launch_date_with Spec.formats4 s.
Proof. now destruct (copies_unfold s) as (A & _). Qed.

Lemma generator_due_date d w :
  GenerateMondayBoards.calculate_due_date d w
  = Duplicator.calculate_due_date d w.
Proof. reflexivity. Qed.

(** ** The launch date that a script writes *)

(** X4.  The launch date in the row of a main item, which
    [generate_monday_boards.py] and [generate_product_dev.py] write with
    [strftime], is read by every copy of [parse_launch_date] as the day
    that was written, at midnight, when its year has four digits. *)
Theorem written_launch_date_read_back st row d :
  valid d -> 1000 <= year d ->
  Spec.every_copy
    (get (GenerateMondayBoards.main_item_row st row d) "Launch Date" "")
    (Ok (Some (Spec.midnight d)))
  /\ Spec.every_copy
       (get (GenerateProductDev.main_item_row row d) "Launch Date" "")
       (Ok (Some (Spec.midnight d))).
Proof.
  intros V Y. split; exact (launch_date_read_back d V Y).
Qed.

Lemma written_launch_date_read_back_witness :
  let d := mkdt 2026 2 9 13 45 0 in
  let row := [("Item", "Jacket"); ("Launch Date", "2026-02-09 13:45:00")] in
  Spec.every_copy
    (get (GenerateMondayBoards.main_item_row Spec.sample_settings row d)
         "Launch Date" "")
    (Ok (Some (Spec.midnight d)))
  /\ Spec.every_copy
       (get (GenerateProductDev.main_item_row row d) "Launch Date" "")
       (Ok (Some (Spec.midnight d))).
Proof.
  intros d row. apply (written_launch_date_read_back Spec.sample_settings row d).
  - reflexivity.
  - simpl. lia.
Defined.

(** ** A sheet of serial numbers *)

Lemma sub_item_rows_in_range d subs :
  valid d ->
  Forall (fun si =>
            0 <= GenerateMondayBoards.lead_time_weeks si
            /\ 1 <= toordinal d - 7 * GenerateMondayBoards.lead_time_weeks si)
         subs ->
  exists srs,
    GenerateMondayBoards.sub_item_rows d subs = Ok srs
    /\ List.length srs = List.length subs
    /\ Forall (fun row => Spec.is_main_row row = false
                          /\ Spec.is_sub_row row = true) srs.
Proof.
  intros V. induction subs as [|si subs IH]; intros F.
  - exists []. repeat split. constructor.
  - apply Forall_cons_iff in F as [[W R] F].
    destruct (IH F) as (srs & E & L & T).
    cbn [GenerateMondayBoards.sub_item_rows].
    rewrite generator_due_date, (due_date_in_range d _ V W R), E. cbn [bind].
    eexists. split; [reflexivity|]. split; [cbn; now rewrite L|].
    constructor; [split; reflexivity|exact T].
Qed.

Lemma filter_sub_rows (srs : list dict) :
  Forall (fun row => Spec.is_main_row row = false
                     /\ Spec.is_sub_row row = true) srs ->
  forall rest,
    filter Spec.is_main_row (srs ++ rest) = filter Spec.is_main_row rest
    /\ filter Spec.is_sub_row (srs ++ rest)
       = (srs ++ filter Spec.is_sub_row rest)%list.
Proof.
  induction 1 as [|row srs [M S] _ IH]; intros rest; [now split|].
  destruct (IH rest) as (IM & IS). cbn [app filter].
  now rewrite M, S, IM, IS.
Qed.

Lemma serial_parsed text :
  Str.isdigit text = true ->
  Spec.blank_or_date_serial text = true ->
  exists d,
    GenerateMondayBoards.parse_launch_date text = Ok (Some d)
    /\ valid d /\ toordinal Spec.excel_epoch <= toordinal d.
Proof.
  intros D B. unfold Spec.blank_or_date_serial in B.
  apply orb_prop in B as [B|B].
  - apply String.eqb_eq in B. now rewrite (blank_not_digits _ B) in D.
  - apply andb_prop in B as [_ B].
    destruct (Str.int text) as [n|e] eqn:N; [|discriminate].
    apply Z.leb_le in B.
    destruct (int_inv _ _ N) as (Hd & Hv & _).
    pose proof (decimal_value_lower 0 _ ltac:(lia) Hd) as Hn.
    rewrite <- Hv in Hn.
    destruct (serial_in_range n (conj Hn B)) as (r & R & V & O & _).
    exists r. rewrite generator_parse, (parse_digits _ _ D), N, R.
    repeat split; [exact V|lia].
Qed.

Lemma blank_parsed text :
  Str.isdigit text = false ->
  Spec.blank_or_date_serial text = true ->
  GenerateMondayBoards.parse_launch_date text = Ok None.
Proof.
  intros D B. unfold Spec.blank_or_date_serial in B. rewrite D in B.
  rewrite orb_false_r in B. apply String.eqb_eq in B.
  rewrite generator_parse. now apply parse_launch_date_blank.
Qed.

Lemma department_rows_serials st subs master :
  Forall (fun si =>
            0 <= GenerateMondayBoards.lead_time_weeks si
              <= Spec.max_lead_time_weeks) subs ->
  Forall (fun row =>
            Spec.blank_or_date_serial
              (get row (GenerateMondayBoards.launch_date_column st) "") = true)
         master ->
  exists rows,
    GenerateMondayBoards.department_rows st subs master = Ok rows
    /\ List.length rows
       = ((1 + List.length subs)
          * List.length (Spec.dated_rows st master))%nat
    /\ map (fun row => get row "Item" "") (filter Spec.is_main_row rows)
       = map (fun row => get row (GenerateMondayBoards.item_name_column st) "")
             (Spec.dated_rows st master)
    /\ List.length (filter Spec.is_sub_row rows)
       = (List.length subs * List.length (Spec.dated_rows st master))%nat.
Proof.
  intros W. induction master as [|row master IH]; intros F.
  - exists []. cbn. repeat split; lia.
  - apply Forall_cons_iff in F as [B F].
    destruct (IH F) as (rest & E & L & N & S).
    cbn [GenerateMondayBoards.department_rows]. unfold Spec.dated_rows.
    cbn [filter]. fold (Spec.dated_rows st master).
    destruct (Str.truthy (get row (GenerateMondayBoards.item_name_column st) ""))
      eqn:T.
    2:{ cbn [negb andb]. rewrite orb_true_r. now exists rest. }
    assert (match row with [] => true | _ :: _ => false end = false) as ->.
    { destruct row; [discriminate T|reflexivity]. }
    cbn [negb orb andb].
    destruct (Str.isdigit (get row (GenerateMondayBoards.launch_date_column st) ""))
      eqn:D.
    + destruct (serial_parsed _ D B) as (d & -> & V & O). cbn [bind].
      rewrite epoch_ordinal in O.
      destruct (sub_item_rows_in_range d subs V) as (srs & -> & Ls & Ts).
      { revert W. apply Forall_impl. unfold Spec.max_lead_time_weeks.
        intros si. lia. }
      rewrite E. cbn [bind]. eexists. split; [reflexivity|].
      destruct (filter_sub_rows srs Ts rest) as (FM & FS).
      cbn [filter]. change (Spec.is_main_row _) with true at 1.
      change (Spec.is_sub_row (GenerateMondayBoards.main_item_row st row d))
        with false.
      cbn [map List.length]. rewrite FM, FS, N, !List.length_app, L, Ls, S.
      repeat split; lia.
    + rewrite (blank_parsed _ D B). cbn [bind]. now exists rest.
Qed.

(** X8.  On a master sheet whose launch dates are each blank or a serial
    number up to 9999-12-31, and with lead times from 0 to 99084 weeks,
    [generate_department_csv] returns for a department of the
    configuration: one main item for every row with a name and a serial
    number, in the order of the sheet and under its name, and one
    sub-item for every entry of the configuration after each of them. *)
Theorem generate_department_csv_serials master cfg dept_name subs :
  let st := GenerateMondayBoards.config_settings cfg in
  GenerateMondayBoards.find_department
    (GenerateMondayBoards.departments cfg) dept_name = Some subs ->
  Forall (fun si =>
            0 <= GenerateMondayBoards.lead_time_weeks si
              <= Spec.max_lead_time_weeks) subs ->
  Forall (fun row =>
            Spec.blank_or_date_serial
              (get row (GenerateMondayBoards.launch_date_column st) "") = true)
         master ->
  exists rows,
    GenerateMondayBoards.generate_department_csv master cfg dept_name
      = Ok (Some rows)
    /\ List.length rows
       = ((1 + List.length subs)
          * List.length (Spec.dated_rows st master))%nat
    /\ map (fun row => get row "Item" "") (filter Spec.is_main_row rows)
       = map (fun row => get row (GenerateMondayBoards.item_name_column st) "")
             (Spec.dated_rows st master)
    /\ List.length (filter Spec.is_sub_row rows)
       = (List.length subs * List.length (Spec.dated_rows st master))%nat.
Proof.
  intros st D W F.
  destruct (department_rows_serials st subs master W F) as (rows & E & R).
  exists rows. unfold GenerateMondayBoards.generate_department_csv.
  fold st. now rewrite D, E.
Qed.

Lemma generate_department_csv_serials_witness :
  let master :=
    [[("Item", "Jacket"); ("Launch Date", "46062")];
     [("Item", "Coat"); ("Launch Date", "  ")];
     [("Item", ""); ("Launch Date", "46000")];
     [("Item", "Hat"); ("Launch Date", "45930")]] in
  exists rows,
    GenerateMondayBoards.generate_department_csv master Spec.sample_config
      "Product Development" = Ok (Some rows)
    /\ List.length rows = ((1 + 2) * 2)%nat
    /\ map (fun row => get row "Item" "") (filter Spec.is_main_row rows)
       = ["Jacket"; "Hat"]
    /\ List.length (filter Spec.is_sub_row rows) = (2 * 2)%nat.
Proof.
  intros master.
  apply (generate_department_csv_serials master Spec.sample_config
           "Product Development"
           [GenerateMondayBoards.mk_sub_item "Fabric Approved" 40 None;
            GenerateMondayBoards.mk_sub_item "Production Approved" 12 None]).
  - reflexivity.
  - repeat constructor; simpl; unfold Spec.max_lead_time_weeks; lia.
  - repeat constructor.
Defined.

End GeneratorFacts.

(* ================================================================== *)
(** * What a run asks of the board *)
(* ================================================================== *)

Section ProgressFacts.
Import Board Run.

Lemma progress_refl r : Spec.progress r r [] [] 0 0.
Proof. unfold Spec.progress. rewrite !app_nil_r. repeat split; lia. Qed.

Lemma progress_trans r0 r1 r2 i1 s1 ci1 cs1 i2 s2 ci2 cs2 :
  Spec.progress r0 r1 i1 s1 ci1 cs1 ->
  Spec.progress r1 r2 i2 s2 ci2 cs2 ->
  Spec.progress r0 r2 (i1 ++ i2) (s1 ++ s2) (ci1 + ci2) (cs1 + cs2).
Proof.
  intros (A & B & C & D) (A' & B' & C' & D'). unfold Spec.progress.
  rewrite A', A, B', B, C', C, D', D, !app_assoc. repeat split; lia.
Qed.

Lemma create_item_run rq r :
  exists r',
    api (create_item rq) r = (Ok (next_id (svc r)), r')
    /\ Spec.progress r r' [(ir_name rq, ir_values rq)] [] 0 0.
Proof.
  eexists. split; [reflexivity|]. unfold Spec.progress, Spec.item_log.
  cbn. rewrite map_app, app_nil_r. repeat split; lia.
Qed.

Lemma create_subitem_run rq r :
  exists r',
    api (create_subitem rq) r = (Ok (next_id (svc r)), r')
    /\ Spec.progress r r' [] [(sr_name rq, sr_values rq)] 0 0.
Proof.
  eexists. split; [reflexivity|]. unfold Spec.progress, Spec.subitem_log.
  cbn. rewrite map_app, app_nil_r. repeat split; lia.
Qed.

Lemma count_item_run r :
  exists r', count_item r = (Ok tt, r') /\ Spec.progress r r' [] [] 1 0.
Proof.
  eexists. split; [reflexivity|]. unfold Spec.progress. cbn.
  rewrite !app_nil_r. repeat split; lia.
Qed.

Lemma count_subitem_run r :
  exists r', count_subitem r = (Ok tt, r') /\ Spec.progress r r' [] [] 0 1.
Proof.
  eexists. split; [reflexivity|]. unfold Spec.progress. cbn.
  rewrite !app_nil_r. repeat split; lia.
Qed.

End ProgressFacts.

(* ================================================================== *)
(** * [monday_subitem_manager.py]: the loop over the rows *)
(* ================================================================== *)

Section ManagerFacts.
Import Calendar Datetime Board Run.

Lemma drop_empty_nonempty d :
  Forall (fun kv : string * string => Str.truthy (snd kv) = true) (drop_empty d).
Proof.
  apply Forall_forall. intros kv H. unfold drop_empty in H.
  now apply filter_In in H as [_ H].
Qed.


(** The second look at the item of a row, [row.get('Item')], sees what
    the first saw. *)
Lemma item_cell_truthy row : forall item,
  SubitemManager.get_cell row "Item" (Some "") = Some item ->
  SubitemManager.cell_truthy (SubitemManager.get_cell row "Item" None)
  = Str.truthy item.
Proof.
  induction row as [|[k v] row IH]; intros item; cbn [SubitemManager.get_cell].
  - intros H. now injection H as <-.
  - destruct (String.eqb k "Item"); [intros ->; reflexivity|apply IH].
Qed.

(** The [try] of the loop for one row: the item with its sub-items, the
    counting, and the [NameError] of [sleep], which is swallowed with any
    exception before it. *)
Lemma manager_try col board row subs r res r1 :
  SubitemManager.create_main_item_with_subitems col board row subs r
  = (res, r1) ->
  try_continue
    (_ <~ SubitemManager.create_main_item_with_subitems col board row subs ;;
     _ <~ count_item ;;
     SubitemManager.sleep) r
  = (Ok tt,
     match res with
     | Ok _ => mk_run (svc r1) (items_created r1 + 1) (subitems_created r1)
     | Raise _ => r1
     end).
Proof.
  intros E. unfold try_continue. unfold bindM at 1. rewrite E.
  now destruct res.
Qed.

Lemma counted_progress r :
  Spec.progress r (mk_run (svc r) (items_created r + 1) (subitems_created r))
    [] [] 1 0.
Proof.
  unfold Spec.progress. cbn. rewrite !app_nil_r. repeat split; lia.
Qed.

(** ** Launch dates with room for every lead time *)






(** ** Any rows *)




(** X14.  A row of a main item whose launch date is missing or is no
    date still gets its item from [process_csv_data], and no sub-item at
    all: there is no sub-item without a due date here, unlike in the
    duplication of the master board.  (The cell of the item is a string in
    every row; the cell of the launch date may be [None].) *)
Theorem manager_undated_rows col board subs : forall rows r,
  Forall (fun row => Spec.item_is_text row = true) rows ->
  Forall (fun row =>
            Spec.manager_row row = true ->
            MondaySubitemManager.parse_launch_date
              (SubitemManager.text row "Launch Date") = Ok None) rows ->
  exists r',
    SubitemManager.process_rows col board subs rows r = (Ok tt, r')
    /\ Spec.progress r r'
         (map Spec.item_of_row (filter Spec.manager_row rows)) []
         (Z.of_nat (List.length (filter Spec.manager_row rows))) 0.
Proof.
  induction rows as [|row rows IH]; intros r Ft F.
  - exists r. split; [reflexivity|apply progress_refl].
  - apply Forall_cons_iff in Ft as [It Ft].
    apply Forall_cons_iff in F as [U F].
    cbn [SubitemManager.process_rows filter].
    unfold Spec.item_is_text in It.
    change (Spec.manager_row row)
      with (match SubitemManager.get_cell row "Item" (Some "") with
            | Some item => negb (Str.startswith item "  ") && Str.truthy item
            | None => false
            end
            && match SubitemManager.get_cell row "Type" None with
               | Some type => String.eqb type "Main Item"
               | None => false
               end) in U |- *.
    destruct (SubitemManager.get_cell row "Item" (Some "")) as [item|] eqn:I;
      [clear It|discriminate It].
    rewrite (item_cell_truthy _ _ I).
    destruct (Str.startswith item "  "); cbn [negb andb] in U |- *;
      [now apply IH|].
    destruct (Str.truthy item); cbn [negb andb] in U |- *; [|now apply IH].
    destruct (match SubitemManager.get_cell row "Type" None with
              | Some type => String.eqb type "Main Item"
              | None => false
              end); [|now apply IH].
    unfold bindM at 1.
    assert (exists id r1,
              SubitemManager.create_main_item_with_subitems col board row
                subs r = (Ok id, r1)
              /\ Spec.progress r r1 [Spec.item_of_row row] [] 0 0)
      as (id & r1 & E & P1).
    { unfold SubitemManager.create_main_item_with_subitems.
      unfold bindM at 1.
      match goal with
      | |- context [api (create_item ?rq) r] =>
          destruct (create_item_run rq r) as (r1 & -> & P1)
      end.
      unfold bindM at 1. unfold lift at 1. rewrite (U eq_refl).
      now exists (next_id (svc r)), r1. }
    rewrite (manager_try _ _ _ _ _ _ _ E).
    match goal with
    | |- context [SubitemManager.process_rows col board subs rows ?r2] =>
        destruct (IH r2 Ft F) as (r3 & -> & P3)
    end.
    exists r3. split; [reflexivity|].
    pose proof (progress_trans _ _ _ _ _ _ _ _ _ _ _
                  (progress_trans _ _ _ _ _ _ _ _ _ _ _ P1
                     (counted_progress r1)) P3) as Q.
    cbn [List.length map app] in Q |- *.
    now rewrite Nat2Z.inj_succ, <- Z.add_1_l.
Qed.

Lemma manager_undated_rows_witness :
  let rows :=
    [[("Item", Some "Jacket"); ("Status", Some "Go");
      ("Launch Date", Some "tbd"); ("Type", Some "Main Item")];
     [("Item", Some "  Fabric Approved"); ("Due Date", Some "");
      ("Type", Some "Sub Item")];
     [("Item", Some "Coat"); ("Launch Date", None);
      ("Type", Some "Main Item")]]
  in
  exists r',
    SubitemManager.process_rows (Some "date4") "board"
      [GenerateMondayBoards.mk_sub_item "Fabric Approved" 40 None] rows
      Spec.fresh_run = (Ok tt, r')
    /\ Spec.progress Spec.fresh_run r'
         [("Jacket", [("text3", "Go"); ("date", "tbd")]); ("Coat", [])] []
         2 0.
Proof.
  intros rows.
  apply (manager_undated_rows (Some "date4") "board"
           [GenerateMondayBoards.mk_sub_item "Fabric Approved" 40 None]
           rows Spec.fresh_run).
  - repeat constructor.
  - repeat constructor; intros H; try discriminate H; reflexivity.
Defined.

End ManagerFacts.

(* ================================================================== *)
(** * [add_subitems_to_monday.py]: the loop over the rows *)
(* ================================================================== *)

Section AddSubitemsFacts.
Import Calendar Datetime Board Run.


(** ** Launch dates with room for every lead time *)






(** ** Any rows *)

Lemma add_create_subitems_any col parent d cfgs : forall r,
  exists res r' ss,
    AddSubitems.create_subitems col parent d cfgs r = (res, r')
    /\ Spec.progress r r' [] ss 0 (Z.of_nat (List.length ss))
    /\ (List.length ss <= List.length cfgs)%nat
    /\ Forall Spec.nonempty_values ss.
Proof.
  induction cfgs as [|[name w] cfgs IH]; intros r;
    cbn [AddSubitems.create_subitems].
  - exists (Ok tt), r, []. split; [reflexivity|].
    split; [apply progress_refl|]. split; [cbn; lia|constructor].
  - unfold bindM at 1. unfold lift at 1.
    destruct (AddSubitems.calculate_due_date _ _) as [due|e].
    + unfold bindM at 1.
      match goal with
      | |- context [api (create_subitem ?rq) r] =>
          destruct (create_subitem_run rq r) as (r1 & -> & P1)
      end.
      unfold bindM at 1.
      destruct (count_subitem_run r1) as (r2 & -> & P2).
      destruct (IH r2) as (res & r3 & ss & -> & P3 & L & Ne).
      pose proof (progress_trans _ _ _ _ _ _ _ _ _ _ _
                    (progress_trans _ _ _ _ _ _ _ _ _ _ _ P1 P2) P3) as P.
      cbn [app] in P.
      eexists res, r3, (_ :: ss). split; [reflexivity|].
      cbn [List.length]. rewrite Nat2Z.inj_succ, <- Z.add_1_l.
      split; [exact P|].
      split; [lia|]. constructor; [apply drop_empty_nonempty|exact Ne].
    + exists (Raise e), r, []. split; [reflexivity|].
      split; [apply progress_refl|]. split; [cbn; lia|constructor].
Qed.

Lemma add_create_row_any board col row name d r :
  exists r' it ss,
    try_continue (AddSubitems.create_row board col row name d) r = (Ok tt, r')
    /\ Spec.progress r r' [it] ss 1 (Z.of_nat (List.length ss))
    /\ (List.length ss <= 5)%nat
    /\ Spec.nonempty_values it
    /\ Forall Spec.nonempty_values ss.
Proof.
  unfold try_continue, AddSubitems.create_row. unfold bindM at 1.
  match goal with
  | |- context [api (create_item ?rq) r] =>
      destruct (create_item_run rq r) as (r1 & -> & P1)
  end.
  unfold bindM at 1.
  destruct (count_item_run r1) as (r2 & -> & P2).
  destruct (add_create_subitems_any col (next_id (svc r)) d
              AddSubitems.subitems_config r2)
    as (res & r3 & ss & -> & P3 & L & Ne).
  pose proof (progress_trans _ _ _ _ _ _ _ _ _ _ _
                (progress_trans _ _ _ _ _ _ _ _ _ _ _ P1 P2) P3) as P.
  cbn [app] in P.
  eexists r3, _, ss. split; [reflexivity|]. split; [exact P|].
  split; [exact L|]. split; [apply drop_empty_nonempty|exact Ne].
Qed.

(** X16.  Whatever the rows and however the run ends, the two counts that
    [add_subitems_to_monday.py] keeps are the numbers of items and of
    sub-items that the service has created for it: at most one item per
    row, at most five sub-items per item, and none of them sent with an
    empty value. *)
Theorem add_subitems_counts board col : forall csv_data r,
  exists its ss,
    Spec.progress r (snd (AddSubitems.process_rows board col csv_data r))
      its ss (Z.of_nat (List.length its)) (Z.of_nat (List.length ss))
    /\ (List.length its <= List.length csv_data)%nat
    /\ (List.length ss <= 5 * List.length its)%nat
    /\ Forall Spec.nonempty_values its
    /\ Forall Spec.nonempty_values ss.
Proof.
  induction csv_data as [|row csv_data IH]; intros r.
  - exists [], []. split; [apply progress_refl|].
    cbn. repeat split; try constructor; lia.
  - assert (forall r0,
              exists its ss,
                Spec.progress r0
                  (snd (AddSubitems.process_rows board col csv_data r0))
                  its ss (Z.of_nat (List.length its))
                  (Z.of_nat (List.length ss))
                /\ (List.length its <= List.length (row :: csv_data))%nat
                /\ (List.length ss <= 5 * List.length its)%nat
                /\ Forall Spec.nonempty_values its
                /\ Forall Spec.nonempty_values ss) as Skip.
    { intros r0. destruct (IH r0) as (its & ss & P & L & M & N).
      exists its, ss. split; [exact P|]. split; [cbn; lia|]. now split. }
    cbn [AddSubitems.process_rows].
    destruct (negb _ || _); [apply Skip|].
    destruct (negb _); [apply Skip|].
    unfold bindM at 1. unfold lift at 1.
    destruct (AddSubitems.parse_launch_date _) as [[d|]|e]; [|apply Skip|].
    + unfold bindM at 1.
      destruct (add_create_row_any board col row
                  (Str.strip (get row "Name" "")) d r)
        as (r1 & it & ss1 & -> & P1 & L1 & N1 & Ns1).
      destruct (IH r1) as (its & ss & P & L & M & Ni & Ns).
      exists (it :: its), (ss1 ++ ss)%list.
      pose proof (progress_trans _ _ _ _ _ _ _ _ _ _ _ P1 P) as Q.
      cbn [app List.length] in Q |- *.
      rewrite List.length_app, Nat2Z.inj_succ, <- Z.add_1_l, Nat2Z.inj_add.
      split; [exact Q|]. split; [lia|]. split; [lia|].
      split; [now constructor|]. apply Forall_app. now split.
    + exists [], []. split; [apply progress_refl|].
      cbn. repeat split; try constructor; lia.
Qed.

End AddSubitemsFacts.

(* ================================================================== *)
(** * The groups of the destination board *)
(* ================================================================== *)

Section GroupFacts.
Import Board Run.

Lemma find_group_app gs t id n :
  find_group (gs ++ [(t, id)]) n
  = match find_group gs n with
    | Some i => Some i
    | None => if String.eqb t n then Some id else None
    end.
Proof.
  induction gs as [|[t' i'] gs IH]; cbn [app find_group]; [reflexivity|].
  destruct (String.eqb t' n); [reflexivity|exact IH].
Qed.

(** One call of [get_or_create_group]: the title has an id afterwards,
    the titles that had one keep it, and nothing else of the run
    changes. *)
Lemma get_or_create_group_run title r :
  exists id r',
    api (get_or_create_group title) r = (Ok id, r')
    /\ find_group (groups (svc r')) title = Some id
    /\ (forall n i, find_group (groups (svc r)) n = Some i ->
                    find_group (groups (svc r')) n = Some i)
    /\ created_items (svc r') = created_items (svc r)
    /\ created_subitems (svc r') = created_subitems (svc r)
    /\ items_created r' = items_created r
    /\ subitems_created r' = subitems_created r
    /\ (find_group (groups (svc r)) title <> None -> r' = r).
Proof.
  unfold api, get_or_create_group.
  destruct (find_group (groups (svc r)) title) as [id|] eqn:F.
  - exists id, r. destruct r as [s ic sc]. cbn. repeat split; auto.
  - eexists _, _. split; [reflexivity|]. cbn.
    split; [rewrite find_group_app, F; now rewrite String.eqb_refl|].
    split; [intros n i H; now rewrite find_group_app, H|].
    repeat split. intros H. now contradiction H.
Qed.

Lemma setup_groups_run names : forall r,
  exists r',
    Duplicator.setup_groups names r
    = (Ok (Spec.group_ids (groups (svc r')) names), r')
    /\ (forall n, In n names -> find_group (groups (svc r')) n <> None)
    /\ (forall n i, find_group (groups (svc r)) n = Some i ->
                    find_group (groups (svc r')) n = Some i)
    /\ created_items (svc r') = created_items (svc r)
    /\ created_subitems (svc r') = created_subitems (svc r)
    /\ items_created r' = items_created r
    /\ subitems_created r' = subitems_created r.
Proof.
  induction names as [|name names IH]; intros r;
    cbn [Duplicator.setup_groups].
  - exists r. split; [reflexivity|]. split; [intros n []|]. repeat split; auto.
  - unfold bindM at 1.
    destruct (get_or_create_group_run name r)
      as (id & r1 & -> & F1 & K1 & A1 & B1 & C1 & D1 & _).
    unfold bindM at 1.
    destruct (IH r1) as (r2 & -> & F2 & K2 & A2 & B2 & C2 & D2).
    exists r2. unfold ret. cbn [Spec.group_ids map].
    rewrite (K2 _ _ F1). split; [reflexivity|].
    split.
    { intros n [<-|H]; [now rewrite (K2 _ _ F1)|now apply F2]. }
    split; [intros n i H; now apply K2, K1|].
    repeat split; congruence.
Qed.

Lemma setup_groups_again names : forall r,
  (forall n, In n names -> find_group (groups (svc r)) n <> None) ->
  Duplicator.setup_groups names r
  = (Ok (Spec.group_ids (groups (svc r)) names), r).
Proof.
  induction names as [|name names IH]; intros r F;
    cbn [Duplicator.setup_groups]; [reflexivity|].
  unfold bindM at 1.
  destruct (get_or_create_group_run name r)
    as (id & r1 & -> & F1 & _ & _ & _ & _ & _ & Same).
  rewrite (Same (F name (or_introl eq_refl))) in F1 |- *.
  unfold bindM at 1. rewrite IH by (intros n H; apply F; now right).
  unfold ret. cbn [Spec.group_ids map]. now rewrite F1.
Qed.

Lemma group_ids_find gs names n :
  In n names -> find_group gs n <> None ->
  find_group (Spec.group_ids gs names) n = find_group gs n.
Proof.
  induction names as [|name names IH]; intros I F; [destruct I|].
  cbn [Spec.group_ids map find_group].
  destruct (String.eqb_spec name n) as [->|N].
  - destruct (find_group gs n); [reflexivity|now contradiction F].
  - destruct I as [E|I]; [now contradiction N|now apply IH].
Qed.

Lemma target_group_name_in g :
  In (Duplicator.target_group_name g) Duplicator.target_groups.
Proof.
  unfold Duplicator.target_group_name, Duplicator.target_groups.
  destruct (Str.contains "new colors" _); [now left|].
  destruct (Str.contains "new styles" _); [right; now left|].
  destruct (Str.contains "end of life" _); [right; right; now left|now left].
Qed.

(** X18.  The look-up of the target group of an item never fails: after the
    three groups have been made ready, whatever the groups that the board
    had before, [group_mapping] has an entry for the target group of every
    group title, and the entry is the id of the group of that name on the
    board. *)
Theorem target_group_always_mapped current_group r :
  exists group_mapping r' id,
    Duplicator.setup_groups Duplicator.target_groups r = (Ok group_mapping, r')
    /\ Duplicator.group_id group_mapping
         (Duplicator.target_group_name current_group) = Ok id
    /\ find_group (groups (svc r'))
         (Duplicator.target_group_name current_group) = Some id.
Proof.
  destruct (setup_groups_run Duplicator.target_groups r)
    as (r' & E & F & _).
  pose proof (target_group_name_in current_group) as I.
  pose proof (F _ I) as N.
  destruct (find_group (groups (svc r'))
              (Duplicator.target_group_name current_group)) as [id|] eqn:G;
    [|now contradiction N].
  eexists _, r', id. split; [exact E|]. unfold Duplicator.group_id.
  rewrite (group_ids_find _ _ _ I) by congruence. now rewrite G.
Qed.

(** X19.  Making the groups ready a second time changes nothing: the groups
    are found by their titles, none is created again, and the mapping is
    the same. *)
Theorem setup_groups_idempotent names r group_mapping r' :
  Duplicator.setup_groups names r = (Ok group_mapping, r') ->
  Duplicator.setup_groups names r' = (Ok group_mapping, r').
Proof.
  intros E. destruct (setup_groups_run names r) as (r1 & E1 & F & _).
  rewrite E1 in E. injection E as <- <-.
  now apply setup_groups_again.
Qed.

Lemma setup_groups_idempotent_witness :
  let r := mk_run (mk_service 5 [("SS26 New Styles", 2)] [] []) 0 0 in
  let r' :=
    mk_run (mk_service 7
              [("SS26 New Styles", 2); ("SS26 New Colors", 5);
               ("End of Life Products", 6)] [] []) 0 0 in
  Duplicator.setup_groups Duplicator.target_groups r'
  = (Ok [("SS26 New Colors", 5); ("SS26 New Styles", 2);
         ("End of Life Products", 6)], r').
Proof.
  intros r r'.
  apply (setup_groups_idempotent Duplicator.target_groups r).
  reflexivity.
Defined.

End GroupFacts.

(* ================================================================== *)
(** * The cells that are copied *)
(* ================================================================== *)

Section CellFacts.
Import Board Run.

Lemma set_In d k v k' v' :
  In (k', v') (set d k v) -> (k' = k /\ v' = v) \/ In (k', v') d.
Proof.
  induction d as [|[k0 v0] d IH]; cbn [set].
  - intros [H|[]]. injection H as <- <-. now left.
  - destruct (String.eqb_spec k0 k) as [->|N].
    + intros [H|H]; [injection H as <- <-; now left|right; now right].
    + intros [H|H]; [right; now left|].
      destruct (IH H) as [E|I]; [now left|right; now right].
Qed.

Lemma has_key_set d k v : has_key (set d k v) k = true.
Proof.
  induction d as [|[k0 v0] d IH]; cbn [set has_key].
  - now rewrite String.eqb_refl.
  - destruct (String.eqb k0 k) eqn:E; cbn [has_key]; rewrite E;
      [reflexivity|exact IH].
Qed.

Lemma has_key_set_keep d k v k' :
  has_key d k' = true -> has_key (set d k v) k' = true.
Proof.
  induction d as [|[k0 v0] d IH]; cbn [set has_key]; [discriminate|].
  destruct (String.eqb k0 k) eqn:E; cbn [has_key]; [auto|].
  destruct (String.eqb k0 k'); [reflexivity|exact IH].
Qed.


Lemma extract_spec mc : forall cells acc pv0,
  exists cv pv,
    Duplicator.extract_column_values (Some mc) cells acc pv0 = Ok (cv, pv)
    /\ (forall k v,
          In (k, v) cv ->
          In (k, v) acc
          \/ (k <> Duplicator.col_id mc /\ Str.truthy v = true
              /\ exists c, In c cells /\ Duplicator.cv_id c = k
                           /\ Duplicator.cv_text c = v))
    /\ (forall k, has_key acc k = true -> has_key cv k = true)
    /\ (forall c,
          In c cells -> Str.truthy (Duplicator.cv_text c) = true ->
          Str.truthy (Duplicator.cv_id c) = true ->
          Duplicator.cv_id c <> Duplicator.col_id mc ->
          has_key cv (Duplicator.cv_id c) = true)
    /\ (pv = pv0
        /\ Forall (fun c => Duplicator.cv_id c <> Duplicator.col_id mc) cells
        \/ exists c, In c cells /\ Duplicator.cv_id c = Duplicator.col_id mc
                     /\ pv = Some (Duplicator.cv_text c)).
Proof.
  induction cells as [|c cells IH]; intros acc pv0.
  - exists acc, pv0. split; [reflexivity|]. split; [now left|].
    split; [auto|]. split; [intros c []|]. left. split; [reflexivity|constructor].
  - cbn [Duplicator.extract_column_values].
    set (pv1 := if String.eqb (Duplicator.cv_id c) (Duplicator.col_id mc)
                then Some (Duplicator.cv_text c) else pv0).
    assert (forall pv,
              (pv = pv1
               /\ Forall (fun c => Duplicator.cv_id c <> Duplicator.col_id mc)
                         cells
               \/ exists c', In c' cells
                    /\ Duplicator.cv_id c' = Duplicator.col_id mc
                    /\ pv = Some (Duplicator.cv_text c')) ->
              pv = pv0
              /\ Forall (fun c => Duplicator.cv_id c <> Duplicator.col_id mc)
                        (c :: cells)
              \/ exists c', In c' (c :: cells)
                   /\ Duplicator.cv_id c' = Duplicator.col_id mc
                   /\ pv = Some (Duplicator.cv_text c')) as Plat.
    { intros pv [[-> F]|(c' & I & E & ->)].
      - unfold pv1.
        destruct (String.eqb_spec (Duplicator.cv_id c) (Duplicator.col_id mc))
          as [E|N].
        + right. exists c. split; [now left|]. now split.
        + left. split; [reflexivity|now constructor].
      - right. exists c'. split; [now right|]. now split. }
    assert (forall cv,
              (forall c',
                 In c' cells -> Str.truthy (Duplicator.cv_text c') = true ->
                 Str.truthy (Duplicator.cv_id c') = true ->
                 Duplicator.cv_id c' <> Duplicator.col_id mc ->
                 has_key cv (Duplicator.cv_id c') = true) ->
              (Str.truthy (Duplicator.cv_text c) = true ->
               Str.truthy (Duplicator.cv_id c) = true ->
               Duplicator.cv_id c <> Duplicator.col_id mc ->
               has_key cv (Duplicator.cv_id c) = true) ->
              forall c',
                In c' (c :: cells) ->
                Str.truthy (Duplicator.cv_text c') = true ->
                Str.truthy (Duplicator.cv_id c') = true ->
                Duplicator.cv_id c' <> Duplicator.col_id mc ->
                has_key cv (Duplicator.cv_id c') = true) as Keys.
    { intros cv H1 H2 c' [<-|I]; [exact H2|now apply H1]. }
    assert (forall cv (a : dict),
              (forall k v,
                 In (k, v) cv ->
                 In (k, v) a
                 \/ (k <> Duplicator.col_id mc /\ Str.truthy v = true
                     /\ exists c', In c' cells /\ Duplicator.cv_id c' = k
                                   /\ Duplicator.cv_text c' = v)) ->
              (forall k v,
                 In (k, v) a ->
                 In (k, v) acc
                 \/ (k <> Duplicator.col_id mc /\ Str.truthy v = true
                     /\ Duplicator.cv_id c = k /\ Duplicator.cv_text c = v)) ->
              forall k v,
                In (k, v) cv ->
                In (k, v) acc
                \/ (k <> Duplicator.col_id mc /\ Str.truthy v = true
                    /\ exists c', In c' (c :: cells) /\ Duplicator.cv_id c' = k
                                  /\ Duplicator.cv_text c' = v)) as Vals.
    { intros cv a H1 H2 k v I. destruct (H1 k v I) as [Ia|(N & T & c' & Ic & E)].
      - destruct (H2 k v Ia) as [Iacc|(N & T & E1 & E2)]; [now left|].
        right. split; [exact N|]. split; [exact T|]. exists c.
        split; [now left|now split].
      - right. split; [exact N|]. split; [exact T|]. exists c'.
        split; [now right|exact E]. }
    destruct (Str.truthy (Duplicator.cv_text c)) eqn:Tt; cbn [andb].
    2:{ destruct (IH acc pv1) as (cv & pv & -> & V & K & C & P).
        exists cv, pv. split; [reflexivity|].
        split; [apply (Vals cv acc V); now left|].
        split; [exact K|]. split; [|now apply Plat].
        apply Keys; [exact C|discriminate]. }
    destruct (Str.truthy (Duplicator.cv_id c)) eqn:Ti.
    2:{ destruct (IH acc pv1) as (cv & pv & -> & V & K & C & P).
        exists cv, pv. split; [reflexivity|].
        split; [apply (Vals cv acc V); now left|].
        split; [exact K|]. split; [|now apply Plat].
        apply Keys; [exact C|discriminate]. }
    destruct (String.eqb_spec (Duplicator.cv_id c) (Duplicator.col_id mc))
      as [E|N]; cbn [negb].
    + destruct (IH acc pv1) as (cv & pv & -> & V & K & C & P).
      exists cv, pv. split; [reflexivity|].
      split; [apply (Vals cv acc V); now left|].
      split; [exact K|]. split; [|now apply Plat].
      apply Keys; [exact C|]. intros _ _ H. now contradiction H.
    + destruct (IH (set acc (Duplicator.cv_id c) (Duplicator.cv_text c)) pv1)
        as (cv & pv & -> & V & K & C & P).
      exists cv, pv. split; [reflexivity|].
      split.
      { apply (Vals cv _ V). intros k v I.
        destruct (set_In _ _ _ _ _ I) as [[-> ->]|Ia]; [|now left].
        right. now repeat split. }
      split; [intros k H; apply K; now apply has_key_set_keep|].
      split; [|now apply Plat].
      apply Keys; [exact C|]. intros _ _ _. apply K, has_key_set.
Qed.

(** X20.  What is copied from an item when the master board has a platform
    column: the loop never raises; every value copied is the text, not
    empty, of a cell of that id, and no value goes under the id of the
    platform column; every cell with an id and a text other than the
    platform cell has its id among the keys; and the platform value is the
    text of a cell of the platform column, if the item has one. *)
Theorem extract_column_values_copies mc cells :
  exists column_values platform_value,
    Duplicator.extract_column_values (Some mc) cells [] None
    = Ok (column_values, platform_value)
    /\ (forall k v,
          In (k, v) column_values ->
          k <> Duplicator.col_id mc /\ Str.truthy v = true
          /\ exists c, In c cells /\ Duplicator.cv_id c = k
                       /\ Duplicator.cv_text c = v)
    /\ (forall c,
          In c cells -> Str.truthy (Duplicator.cv_text c) = true ->
          Str.truthy (Duplicator.cv_id c) = true ->
          Duplicator.cv_id c <> Duplicator.col_id mc ->
          has_key column_values (Duplicator.cv_id c) = true)
    /\ match platform_value with
       | Some text =>
           exists c, In c cells /\ Duplicator.cv_id c = Duplicator.col_id mc
                     /\ Duplicator.cv_text c = text
       | None =>
           Forall (fun c => Duplicator.cv_id c <> Duplicator.col_id mc) cells
       end.
Proof.
  destruct (extract_spec mc cells [] None) as (cv & pv & E & V & _ & C & P).
  exists cv, pv. split; [exact E|]. split.
  { intros k v I. destruct (V k v I) as [[]|H]. exact H. }
  split; [exact C|].
  destruct P as [[-> F]|(c & I & Ei & ->)]; [exact F|].
  exists c. now repeat split.
Qed.



End CellFacts.

(* ================================================================== *)
(** * A whole run of the duplication *)
(* ================================================================== *)

Section DuplicationRun.
Import Calendar Datetime Board Run.










(** With the sub-items found in the configuration, the run is the one
    that is given them. *)
Lemma duplicate_from_config_found board master_columns proddev_columns cfg
  cfgs items r :
  Duplicator.subitems_config cfg = Ok cfgs ->
  Duplicator.duplicate_from_config board master_columns proddev_columns cfg
    items r
  = Duplicator.duplicate_master_to_proddev board master_columns
      proddev_columns cfgs items r.
Proof.
  intros S. unfold Duplicator.duplicate_from_config,
    Duplicator.duplicate_master_to_proddev, bindM, lift.
  rewrite S. now destruct (Duplicator.setup_groups _ r) as [[gm|e] r1].
Qed.


(** ** A run in which nothing goes wrong *)





End DuplicationRun.
